(** * pySOFA: a shallow embedding of [pysofa/sofa.py]

    The module reads a SOFA container (an HDF5 file opened through
    PyTables) into three kinds of Python objects: [FIR], [AudioObject]
    and [SOFA].  Every object is a dictionary of attributes filled by
    [setattr]; the two helpers [_add_data] and [_add_attribute] read one
    dataset or one node attribute and store it, and turn PyTables'
    "not found" ([AttributeError]) into either a fatal [Exception] or a
    silent return value, depending on [required].

    The embedding keeps this shape: Python exceptions are an [outcome],
    the mutated [self] and the PyTables side (files on disk, open
    handles, the log of accessor calls) are threaded as explicit state. *)

From Stdlib Require Import ZArith.
From stdpp Require Import base option list gmap strings sets.

Local Open Scope Z_scope.
Local Open Scope string_scope.
Local Open Scope list_scope.

(** * The embedding

    ** Values, exceptions, outcomes *)

(** What a PyTables read hands back: a string, an integer scalar, or an
    n-dimensional array.  An array is its shape together with the 64-bit
    patterns of its elements (the numeric content is never inspected by the
    module). *)
Inductive value : Type :=
  | VStr (s : string)
  | VInt (z : Z)
  | VArray (shape : list nat) (bits : list Z).

(** The exceptions that can travel through the module.  PyTables'
    [NoSuchNodeError] derives from [AttributeError], and a missing node
    attribute raises [AttributeError] itself: both are [AttributeError]
    here.  [OtherError] stands for every other failure of the storage
    layer (I/O errors, corrupt data, ...). *)
Inductive exn : Type :=
  | AttributeError
  | AssertionError
  | TypeError
  | ClosedFileError
  | IOError (path : string)
  | Exception (msg : string)
  | OtherError (kind : string).

Inductive outcome (A : Type) : Type :=
  | Ok (a : A)
  | Raise (e : exn).
Arguments Ok {A} a.
Arguments Raise {A} e.

Definition is_ok {A} (r : outcome A) : bool :=
  match r with Ok _ => true | Raise _ => false end.

#[global] Instance value_eq_dec : EqDecision value.
Proof. solve_decision. Defined.

#[global] Instance exn_eq_dec : EqDecision exn.
Proof. solve_decision. Defined.

(** ** The PyTables side *)

(** A container file, seen through the two reads the module performs:
    [get_node(node).read()] and [get_node_attr(node, attribute)]. *)
Record container : Type := mkContainer {
  c_node : string -> outcome value;
  c_attr : string -> string -> outcome value
}.

(** A [tables.file.File] object. *)
Record File : Type := mkFile {
  hid : nat;
  filename : string;
  content : container
}.

Inductive event : Type :=
  | EvOpen (path : string) (h : nat)
  | EvReadNode (h : nat) (node : string)
  | EvReadAttr (h : nat) (node attribute : string)
  | EvClose (h : nat).

Record world : Type := mkWorld {
  files : gmap string container;
  next_handle : nat;
  opened : gset nat;
  trace : list event
}.

Definition log (ev : event) (w : world) : world :=
  {| files := files w; next_handle := next_handle w;
     opened := opened w; trace := trace w ++ [ev] |}.

(** Reading through a handle that has been closed raises
    [ClosedFileError]. *)
Definition read_node (w : world) (f : File) (node : string) : outcome value :=
  if bool_decide (hid f ∈ opened w) then c_node (content f) node
  else Raise ClosedFileError.

Definition read_attr (w : world) (f : File) (node attribute : string)
  : outcome value :=
  if bool_decide (hid f ∈ opened w) then c_attr (content f) node attribute
  else Raise ClosedFileError.

(** ** Python objects *)

(** [FIR] and [AudioObject] instances only ever hold plain values; a
    [SOFA] instance also holds the five sub-objects. *)
Inductive pyval : Type :=
  | PVal (v : value)
  | PObj (fields : gmap string value).

(** What [setattr(object, name, value)] stores in an object's dictionary:
    the value read, as a dictionary entry of that object. *)
Class Slot (V : Type) : Type := {
  plain : value -> V
}.

#[global] Instance entity_slot : Slot value := {| plain v := v |}.

#[global] Instance sofa_slot : Slot pyval := {| plain v := PVal v |}.

Definition setattr {V} `{Slot V} (name : string) (v : value)
    (o : gmap string V) : gmap string V :=
  <[name := plain v]> o.

(** The [sofa_file] argument: [None], a [str], a PyTables [File], or
    (outside the documented types) anything else, represented by an [int]. *)
Inductive pyarg : Type :=
  | ANone
  | AStr (s : string)
  | AFile (f : File)
  | AInt (z : Z).

(** [if sofa_file:] *)
Definition truthy (a : pyarg) : bool :=
  match a with
  | ANone => false
  | AStr s => negb (String.eqb s "")
  | AFile _ => true
  | AInt z => negb (Z.eqb z 0)
  end.

(** [isinstance(sofa_file, tbls.file.File)] and [isinstance(sofa_file, str)] *)
Definition isinstance_File (a : pyarg) : bool :=
  match a with AFile _ => true | _ => false end.

Definition isinstance_str (a : pyarg) : bool :=
  match a with AStr _ => true | _ => false end.

(** ** A state-and-exception monad

    A computation runs on a state and either returns or raises; a raised
    exception keeps the state reached so far (Python does not roll back
    mutations).  A method body runs on its [self] object and on the
    world. *)
Definition St (S A : Type) : Type := S -> outcome A * S.

Abbreviation M O := (St (O * world)).

Definition ret {S A} (a : A) : St S A := fun s => (Ok a, s).

Definition raise {S A} (e : exn) : St S A := fun s => (Raise e, s).

Definition bind {S A B} (m : St S A) (k : A -> St S B) : St S B :=
  fun s =>
    match m s with
    | (Ok a, s') => k a s'
    | (Raise e, s') => (Raise e, s')
    end.

Declare Scope py_scope.
Delimit Scope py_scope with py.
Notation "x <- m ;; k" := (bind m (fun x => k))
  (at level 20, m at level 99, k at level 200, only parsing) : py_scope.
Notation "m ;; k" := (bind m (fun _ => k))
  (at level 100, k at level 200, right associativity, only parsing) : py_scope.
Local Open Scope py_scope.

(** [try: body except AttributeError: handler] *)
Definition try_except_AttributeError {S A} (body handler : St S A) : St S A :=
  fun s =>
    match body s with
    | (Raise AttributeError, s') => handler s'
    | r => r
    end.

(** [for x in l: body(x)] *)
Fixpoint for_ {S A B} (l : list A) (body : A -> St S B) : St S unit :=
  match l with
  | [] => ret tt
  | x :: l' => body x ;; for_ l' body
  end.

(** [assert b] *)
Definition assert {S} (b : bool) : St S unit :=
  if b then ret tt else raise AssertionError.

(** The world after [tbls.open_file(path)] found a file, and after
    [f.close()]. *)
Definition open_world (path : string) (w : world) : world :=
  {| files := files w;
     next_handle := S (next_handle w);
     opened := {[ next_handle w ]} ∪ opened w;
     trace := trace w ++ [EvOpen path (next_handle w)] |}.

Definition close_world (f : File) (w : world) : world :=
  {| files := files w;
     next_handle := next_handle w;
     opened := opened w ∖ {[ hid f ]};
     trace := trace w ++ [EvClose (hid f)] |}.

(** [tbls.open_file(path)]: a new handle on the file at [path], or an
    [IOError] when there is no such file. *)
Definition open_file {O} (path : string) : M O File :=
  fun '(o, w) =>
    match files w !! path with
    | Some c => (Ok (mkFile (next_handle w) path c), (o, open_world path w))
    | None => (Raise (IOError path), (o, w))
    end.

(** [tblsfile.close()] *)
Definition close {O} (f : File) : M O unit :=
  fun '(o, w) => (Ok tt, (o, close_world f w)).

(** [tblsfile.get_node(node).read()] *)
Definition get_node_read {O} (f : File) (node : string) : M O value :=
  fun '(o, w) => (read_node w f node, (o, log (EvReadNode (hid f) node) w)).

(** [tblsfile.get_node_attr(node, attribute)] *)
Definition get_node_attr {O} (f : File) (node attribute : string) : M O value :=
  fun '(o, w) =>
    (read_attr w f node attribute,
     (o, log (EvReadAttr (hid f) node attribute) w)).

(** [setattr(object, name, value)] *)
Definition do_setattr {V} `{Slot V} (name : string) (v : value)
  : M (gmap string V) unit :=
  fun '(o, w) => (Ok tt, (setattr name v o, w)).

(** [if not name: name = default] for [name : str or None]. *)
Definition name_or (name : option string) (default : string) : string :=
  match name with
  | Some n => if String.eqb n "" then default else n
  | None => default
  end.

(** ** [_add_data] and [_add_attribute] *)

Definition _add_data {V} `{Slot V}
    (tblsfile : File) (node : string) (required : bool) (name : option string)
  : M (gmap string V) Z :=
  try_except_AttributeError
    (value <- get_node_read tblsfile node ;;
     do_setattr (name_or name node) value ;;
     ret 0)
    (if required
     then raise (Exception ("Required Dataset " +:+ node +:+ " not found!"))
     else ret 1).

Definition _add_attribute {V} `{Slot V}
    (tblsfile : File) (node attribute : string) (required : bool)
    (name : option string)
  : M (gmap string V) Z :=
  try_except_AttributeError
    (value <- get_node_attr tblsfile node attribute ;;
     do_setattr (name_or name attribute) value ;;
     ret 0)
    (if required
     then raise (Exception ("Required Attribute " +:+ attribute +:+ " not found!"))
     else ret 1).

(** ** Calling a class: [C(args)]

    A class call makes a blank instance and runs [__init__] on it.  When
    [__init__] raises, the exception propagates and the caller never gets
    a reference to the instance. *)
Definition construct {O} (blank : O) (init : M O unit)
  : world -> outcome O * world :=
  fun w =>
    match init (blank, w) with
    | (Ok _, (o, w')) => (Ok o, w')
    | (Raise e, (_, w')) => (Raise e, w')
    end.

(** Running such a call from inside a method of another object. *)
Definition call {O X} (c : world -> outcome X * world) : M O X :=
  fun '(o, w) => let '(r, w') := c w in (r, (o, w')).

(** [s[n:]] *)
Definition slice_from (n : nat) (s : string) : string :=
  String.substring n (String.length s - n) s.

(** The string held by a [str] argument (only used after
    [assert isinstance(sofa_file, str)]). *)
Definition str_of (a : pyarg) : string :=
  match a with AStr s => s | _ => "" end.

(** ** class FIR *)

Definition FIR_from_file (sofa_file : pyarg) : M (gmap string value) unit :=
  tblsfile <- match sofa_file with
              | AFile f => ret f
              | _ => assert (isinstance_str sofa_file) ;;
                     open_file "dtf_nh2.sofa"
              end ;;
  for_ ["Data.IR"; "Data.Delay"; "Data.SamplingRate"]
    (fun param =>
       _add_data tblsfile ("/" +:+ param) true (Some (slice_from 5 param))) ;;
  for_ ["Units"]
    (fun param =>
       _add_attribute tblsfile ("/" +:+ "Data.SamplingRate") param true
         (Some ("SamplingRate" +:+ param))) ;;
  if negb (isinstance_File sofa_file) then close tblsfile else ret tt.

Definition FIR_init (sofa_file : pyarg) : M (gmap string value) unit :=
  if truthy sofa_file then FIR_from_file sofa_file else ret tt.

Definition FIR (sofa_file : pyarg) : world -> outcome (gmap string value) * world :=
  construct ∅ (FIR_init sofa_file).

(** ** class AudioObject *)

(** [self.object_string], used in ['/' + self.object_string + param]. *)
Definition get_object_string : M (gmap string value) string :=
  fun '(o, w) =>
    match o !! "object_string" with
    | Some (VStr s) => (Ok s, (o, w))
    | Some _ => (Raise TypeError, (o, w))
    | None => (Raise AttributeError, (o, w))
    end.

Definition AudioObject_from_file (sofa_file : pyarg)
  : M (gmap string value) unit :=
  tblsfile <- match sofa_file with
              | AFile f => ret f
              | _ => assert (isinstance_str sofa_file) ;;
                     open_file "dtf_nh2.sofa"
              end ;;
  for_ ["Position"]
    (fun param =>
       object_string <- get_object_string ;;
       _add_data tblsfile ("/" +:+ object_string +:+ param) true (Some param)) ;;
  for_ ["Type"; "Units"]
    (fun param =>
       object_string <- get_object_string ;;
       _add_attribute tblsfile ("/" +:+ object_string +:+ "Position") param
         true (Some ("Position" +:+ param))) ;;
  for_ ["Description"; "View"; "Up"]
    (fun param =>
       object_string <- get_object_string ;;
       _add_data tblsfile ("/" +:+ object_string +:+ param) false (Some param)) ;;
  if negb (isinstance_File sofa_file) then close tblsfile else ret tt.

Definition AudioObject_init (object_string : string) (sofa_file : pyarg)
  : M (gmap string value) unit :=
  do_setattr "object_string" (VStr object_string) ;;
  if truthy sofa_file then AudioObject_from_file sofa_file else ret tt.

Definition AudioObject (object_string : string) (sofa_file : pyarg)
  : world -> outcome (gmap string value) * world :=
  construct ∅ (AudioObject_init object_string sofa_file).

(** [len(v)]: the length of a string, the outer extent of an array; a
    scalar or a 0-dimensional array has no length. *)
Definition py_len (v : value) : outcome Z :=
  match v with
  | VStr s => Ok (Z.of_nat (String.length s))
  | VInt _ => Raise TypeError
  | VArray [] _ => Raise TypeError
  | VArray (n :: _) _ => Ok (Z.of_nat n)
  end.

(** [AudioObject.__len__] *)
Definition AudioObject_len (self : gmap string value) : outcome Z :=
  match self !! "Position" with
  | Some v => py_len v
  | None => Raise AttributeError
  end.

(** ** class SOFA *)

Definition req_attributes : list string :=
  ["Conventions"; "Version"; "SOFAConventions"; "SOFAConventionsVersion";
   "DataType"; "RoomType"; "Title"; "DateCreated"; "DateModified";
   "APIName"; "APIVersion"; "AuthorContact"; "Organization"; "License"].

Definition other_attributes : list string :=
  ["ApplicationName"; "ApplicationVersion"; "Comment"; "History";
   "References"; "Origin"].

(** [self.name = obj] for a sub-object. *)
Definition set_object (name : string) (obj : gmap string value)
  : M (gmap string pyval) unit :=
  fun '(o, w) => (Ok tt, (<[name := PObj obj]> o, w)).

(** [self.name] *)
Definition getattr (name : string) : M (gmap string pyval) pyval :=
  fun '(o, w) =>
    match o !! name with
    | Some v => (Ok v, (o, w))
    | None => (Raise AttributeError, (o, w))
    end.

(** [x == s] for a string literal [s]: true only for an equal string.
    (A comparison of an array with a string is [False], with a warning
    that [simplefilter("ignore")] silences.) *)
Definition eq_str (x : pyval) (s : string) : bool :=
  match x with
  | PVal (VStr t) => String.eqb t s
  | _ => false
  end.

Definition SOFA_from_file (sofa_file : pyarg) : M (gmap string pyval) unit :=
  tblsfile <- match sofa_file with
              | AFile f => ret f
              | _ => assert (isinstance_str sofa_file) ;;
                     open_file (str_of sofa_file)
              end ;;
  for_ req_attributes
    (fun param => _add_attribute tblsfile "/" param true None) ;;
  for_ other_attributes
    (fun param => _add_attribute tblsfile "/" param false None) ;;
  listener <- call (AudioObject "Listener" (AFile tblsfile)) ;;
  set_object "listener" listener ;;
  source <- call (AudioObject "Source" (AFile tblsfile)) ;;
  set_object "source" source ;;
  receiver <- call (AudioObject "Receiver" (AFile tblsfile)) ;;
  set_object "receiver" receiver ;;
  emitter <- call (AudioObject "Emitter" (AFile tblsfile)) ;;
  set_object "emitter" emitter ;;
  DataType <- getattr "DataType" ;;
  (if eq_str DataType "FIR"
   then data <- call (FIR (AFile tblsfile)) ;; set_object "data" data
   else raise (Exception "Currently only the Datatype FIR is Implemented")) ;;
  if negb (isinstance_File sofa_file) then close tblsfile else ret tt.

Definition SOFA_init (sofa_file : pyarg) : M (gmap string pyval) unit :=
  if truthy sofa_file then SOFA_from_file sofa_file else ret tt.

Definition SOFA (sofa_file : pyarg) : world -> outcome (gmap string pyval) * world :=
  construct ∅ (SOFA_init sofa_file).

(** * The field tables of the classes

    Each loop of the module binds a list of fields; a field is a dataset
    or a node attribute, with the name it is stored under and whether its
    absence is fatal.  [bindField] is the call of [_add_data] or
    [_add_attribute] that binds one field.  The tables below are read off
    the loops of the three [from_file] methods; that the methods bind
    exactly these fields, in this order, is proved further down
    ([FIR_from_file_handle], [AudioObject_from_file_handle],
    [SOFA_from_file_handle]), so that nothing rests on the tables
    themselves. *)
Inductive kind : Type :=
  | Dataset
  | Attribute (attribute : string).

Record descriptor : Type := mkDescriptor {
  sourcePath : string;
  fieldKind : kind;
  name : option string;
  required : bool
}.

#[global] Instance kind_eq_dec : EqDecision kind.
Proof. solve_decision. Defined.

#[global] Instance descriptor_eq_dec : EqDecision descriptor.
Proof. solve_decision. Defined.

Definition bindField {V} `{Slot V} (f : File) (d : descriptor)
  : M (gmap string V) Z :=
  match fieldKind d with
  | Dataset => _add_data f (sourcePath d) (required d) (name d)
  | Attribute a => _add_attribute f (sourcePath d) a (required d) (name d)
  end.

(** The attribute of the object that receives the field. *)
Definition destination (d : descriptor) : string :=
  match fieldKind d with
  | Dataset => name_or (name d) (sourcePath d)
  | Attribute a => name_or (name d) a
  end.

(** What the container holds for a field. *)
Definition field_of (c : container) (d : descriptor) : outcome value :=
  match fieldKind d with
  | Dataset => c_node c (sourcePath d)
  | Attribute a => c_attr c (sourcePath d) a
  end.

(** What a read of the field through handle [f] yields in world [w]. *)
Definition read_field (w : world) (f : File) (d : descriptor) : outcome value :=
  match fieldKind d with
  | Dataset => read_node w f (sourcePath d)
  | Attribute a => read_attr w f (sourcePath d) a
  end.

Definition field_event (f : File) (d : descriptor) : event :=
  match fieldKind d with
  | Dataset => EvReadNode (hid f) (sourcePath d)
  | Attribute a => EvReadAttr (hid f) (sourcePath d) a
  end.

(** The exception raised for a required field that is not found. *)
Definition missing_error (d : descriptor) : exn :=
  match fieldKind d with
  | Dataset => Exception ("Required Dataset " +:+ sourcePath d +:+ " not found!")
  | Attribute a => Exception ("Required Attribute " +:+ a +:+ " not found!")
  end.

(** A read outcome that lets the construction go on: a value, or "not
    found" for a field that is not required. *)
Definition accepted (d : descriptor) (r : outcome value) : bool :=
  match r with
  | Ok _ => true
  | Raise AttributeError => negb (required d)
  | Raise _ => false
  end.

(** The exception a bind ends with when the read is not accepted. *)
Definition escalate (d : descriptor) (r : outcome value) : exn :=
  match r with
  | Ok _ => AttributeError
  | Raise AttributeError => missing_error d
  | Raise e => e
  end.

(** Outcome and object of binding the fields [ds] in order, as a function
    of what the reads yield: the loop [for_ ds (bindField f)] without the
    world ([for_bindField]). *)
Fixpoint hydrate {V} `{Slot V} (rd : descriptor -> outcome value)
    (ds : list descriptor) (o : gmap string V)
  : outcome unit * gmap string V :=
  match ds with
  | [] => (Ok tt, o)
  | d :: ds' =>
      match rd d with
      | Ok v => hydrate rd ds' (setattr (destination d) v o)
      | Raise e =>
          if accepted d (Raise e) then hydrate rd ds' o
          else (Raise (escalate d (Raise e)), o)
      end
  end.

Definition all_accepted (rd : descriptor -> outcome value)
    (ds : list descriptor) : bool :=
  forallb (fun d => accepted d (rd d)) ds.

(** The tables of the three classes. *)
Definition root_attribute (required : bool) (a : string) : descriptor :=
  mkDescriptor "/" (Attribute a) None required.

Definition root_required : list descriptor :=
  map (root_attribute true) req_attributes.

Definition root_optional : list descriptor :=
  map (root_attribute false) other_attributes.

Definition root_descriptors : list descriptor :=
  root_required ++ root_optional.

Definition geometry_descriptors (role : string) : list descriptor :=
  [ mkDescriptor ("/" +:+ role +:+ "Position") Dataset (Some "Position") true;
    mkDescriptor ("/" +:+ role +:+ "Position") (Attribute "Type")
      (Some "PositionType") true;
    mkDescriptor ("/" +:+ role +:+ "Position") (Attribute "Units")
      (Some "PositionUnits") true;
    mkDescriptor ("/" +:+ role +:+ "Description") Dataset (Some "Description") false;
    mkDescriptor ("/" +:+ role +:+ "View") Dataset (Some "View") false;
    mkDescriptor ("/" +:+ role +:+ "Up") Dataset (Some "Up") false ].

Definition fir_descriptors : list descriptor :=
  [ mkDescriptor "/Data.IR" Dataset (Some "IR") true;
    mkDescriptor "/Data.Delay" Dataset (Some "Delay") true;
    mkDescriptor "/Data.SamplingRate" Dataset (Some "SamplingRate") true;
    mkDescriptor "/Data.SamplingRate" (Attribute "Units")
      (Some "SamplingRateUnits") true ].

(** All the fields of a [SOFA] construction, in the order they are bound. *)
Definition SOFA_descriptors : list descriptor :=
  root_descriptors ++
  geometry_descriptors "Listener" ++ geometry_descriptors "Source" ++
  geometry_descriptors "Receiver" ++ geometry_descriptors "Emitter" ++
  fir_descriptors.

Definition datatype_descriptor : descriptor := root_attribute true "DataType".

Definition is_FIR (r : outcome value) : bool :=
  match r with
  | Ok (VStr t) => String.eqb t "FIR"
  | _ => false
  end.

(** Every required field is read, every optional field is read or not
    found, and [DataType] is ["FIR"]. *)
Definition wellformed (rd : descriptor -> outcome value) : bool :=
  all_accepted rd root_required && all_accepted rd root_optional &&
  all_accepted rd (geometry_descriptors "Listener") &&
  all_accepted rd (geometry_descriptors "Source") &&
  all_accepted rd (geometry_descriptors "Receiver") &&
  all_accepted rd (geometry_descriptors "Emitter") &&
  is_FIR (rd datatype_descriptor) &&
  all_accepted rd fir_descriptors.

Definition role_attributes : list (string * string) :=
  [("Listener", "listener"); ("Source", "source");
   ("Receiver", "receiver"); ("Emitter", "emitter")].

(** * Worlds and containers *)

Definition is_read (ev : event) : Prop :=
  match ev with
  | EvReadNode _ _ | EvReadAttr _ _ _ => True
  | EvOpen _ _ | EvClose _ => False
  end.

(** The worlds reached from [w] by reads alone: same files, same open
    handles, and a trace longer by reads only (nothing was opened,
    nothing was closed). *)
Definition same_handles (w w' : world) : Prop :=
  files w' = files w /\ next_handle w' = next_handle w /\
  opened w' = opened w /\
  exists evs, trace w' = trace w ++ evs /\ Forall is_read evs.

(** A container as it is seen through a handle: the content of the file
    while the handle is open, [ClosedFileError] on every read after. *)
Definition view (w : world) (f : File) : container :=
  {| c_node := read_node w f; c_attr := read_attr w f |}.

(** The container that [SOFA(sofa_file)] reads: the one behind the
    caller's handle, or the file at the caller's path. *)
Definition source_of (sofa_file : pyarg) (w : world) : option container :=
  match sofa_file with
  | AFile f => Some (view w f)
  | AStr path => files w !! path
  | _ => None
  end.

(** The end of a [from_file] that opened [f] itself: [f] is closed when
    the body has returned, and only then. *)
Definition finish {O} (f : File) (r : outcome unit * (O * world))
  : outcome unit * (O * world) :=
  match r with
  | (Ok _, (o, w)) => (Ok tt, (o, close_world f w))
  | (Raise e, s) => (Raise e, s)
  end.

(** * The classes with the world erased

    On a handle that stays open, a construction is a function of what the
    reads yield.  [SOFA_model] is [SOFA.from_file] on the caller's handle
    with the world left out: the reads are [rd], the sub-objects are what
    [hydrate] builds ([SOFA_from_file_handle]). *)

(** The object of a class call, from the outcome and object of its
    [__init__]. *)
Definition built {V} (r : outcome unit * gmap string V)
  : outcome (gmap string V) :=
  match r with
  | (Ok _, o) => Ok o
  | (Raise e, _) => Raise e
  end.

Definition FIR_model (rd : descriptor -> outcome value)
  : outcome (gmap string value) :=
  built (hydrate rd fir_descriptors ∅).

Definition AudioObject_model (rd : descriptor -> outcome value) (role : string)
  : outcome (gmap string value) :=
  built (hydrate rd (geometry_descriptors role)
           (setattr "object_string" (VStr role) ∅)).

Definition pure {S A} (r : outcome A) : St S A := fun s => (r, s).

Definition store (name : string) (obj : gmap string value)
  : St (gmap string pyval) unit :=
  fun o => (Ok tt, <[name := PObj obj]> o).

Definition fetch (name : string) : St (gmap string pyval) pyval :=
  fun o =>
    match o !! name with
    | Some v => (Ok v, o)
    | None => (Raise AttributeError, o)
    end.

Definition SOFA_model (rd : descriptor -> outcome value)
  : St (gmap string pyval) unit :=
  hydrate rd root_required ;;
  hydrate rd root_optional ;;
  listener <- pure (AudioObject_model rd "Listener") ;;
  store "listener" listener ;;
  source <- pure (AudioObject_model rd "Source") ;;
  store "source" source ;;
  receiver <- pure (AudioObject_model rd "Receiver") ;;
  store "receiver" receiver ;;
  emitter <- pure (AudioObject_model rd "Emitter") ;;
  store "emitter" emitter ;;
  DataType <- fetch "DataType" ;;
  (if eq_str DataType "FIR"
   then data <- pure (FIR_model rd) ;; store "data" data
   else raise (Exception "Currently only the Datatype FIR is Implemented")) ;;
  ret tt.

(** The fields of an entity after its binds. *)
Definition geometry_fields (rd : descriptor -> outcome value) (role : string)
  : gmap string value :=
  (hydrate rd (geometry_descriptors role)
     (setattr "object_string" (VStr role) ∅)).2.

Definition fir_fields (rd : descriptor -> outcome value) : gmap string value :=
  (hydrate rd fir_descriptors ∅).2.

Definition root_fields (rd : descriptor -> outcome value)
    (o : gmap string pyval) : gmap string pyval :=
  (hydrate rd root_optional (hydrate rd root_required o).2).2.

Definition with_geometry (rd : descriptor -> outcome value)
    (o : gmap string pyval) : gmap string pyval :=
  <["emitter" := PObj (geometry_fields rd "Emitter")]>
    (<["receiver" := PObj (geometry_fields rd "Receiver")]>
       (<["source" := PObj (geometry_fields rd "Source")]>
          (<["listener" := PObj (geometry_fields rd "Listener")]>
             (root_fields rd o)))).

Definition SOFA_fields (rd : descriptor -> outcome value)
    (o : gmap string pyval) : gmap string pyval :=
  <["data" := PObj (fir_fields rd)]> (with_geometry rd o).

(** * Relating computations *)

(** Two computations that run alike from every state satisfying [I], and
    keep [I]. *)
Definition agree {S A} (I : S -> Prop) (m m' : St S A) : Prop :=
  forall s, I s -> m s = m' s /\ I (m' s).2.

Definition has_role (role : string) (s : gmap string value * world) : Prop :=
  s.1 !! "object_string" = Some (VStr role).

(** [m], run from a world with the handles of [w0], does to the object
    what [p] does, and only reads. *)
Definition runs_as {O A} (w0 : world) (m : M O A) (p : St O A) : Prop :=
  forall o w, same_handles w0 w ->
    exists w', m (o, w) = ((p o).1, ((p o).2, w')) /\ same_handles w0 w'.

(** * Exception messages *)

(** [needle in hay] *)
Definition contains (needle hay : string) : bool :=
  match String.index 0 needle hay with
  | Some _ => true
  | None => false
  end.

(** The message of the exception mentions [tag]. *)
Definition names (e : exn) (tag : string) : bool :=
  match e with
  | Exception msg => contains tag msg
  | _ => false
  end.

(** * Concrete containers, for examples *)

Fixpoint assoc {A} (k : string) (l : list (string * A)) : option A :=
  match l with
  | [] => None
  | (k', a) :: l' => if String.eqb k k' then Some a else assoc k l'
  end.

(** A container given by its datasets and its node attributes; whatever is
    not listed is "not found". *)
Definition container_of (nodes : list (string * value))
    (attrs : list (string * list (string * value))) : container :=
  {| c_node node :=
       match assoc node nodes with
       | Some v => Ok v
       | None => Raise AttributeError
       end;
     c_attr node attribute :=
       match assoc node attrs with
       | Some l =>
           match assoc attribute l with
           | Some v => Ok v
           | None => Raise AttributeError
           end
       | None => Raise AttributeError
       end |}.

Definition geometry_nodes (role : string) : list (string * value) :=
  [("/" +:+ role +:+ "Position", VArray [2%nat; 3%nat] [0; 0; 0; 0; 0; 0])].

Definition position_attrs (role : string)
  : list (string * list (string * value)) :=
  [("/" +:+ role +:+ "Position",
    [("Type", VStr "cartesian"); ("Units", VStr "metre")])].

Definition fixture_nodes : list (string * value) :=
  geometry_nodes "Listener" ++ geometry_nodes "Source" ++
  geometry_nodes "Receiver" ++ geometry_nodes "Emitter" ++
  [("/Data.IR", VArray [1%nat; 2%nat; 4%nat] [0; 0; 0; 0; 0; 0; 0; 0]);
   ("/Data.Delay", VArray [1%nat; 2%nat] [0; 0]);
   ("/Data.SamplingRate", VArray [1%nat] [4676829883349860352])].

Definition fixture_root (data_type : string) (skip : string)
  : list (string * value) :=
  filter (fun kv => kv.1 ≠ skip)
    (("DataType", VStr data_type) ::
     map (fun a => (a, VStr "x"))
       (filter (fun a => a ≠ "DataType") req_attributes)).

Definition fixture_attrs (data_type skip : string)
  : list (string * list (string * value)) :=
  [("/", fixture_root data_type skip);
   ("/Data.SamplingRate", [("Units", VStr "hertz")])] ++
  position_attrs "Listener" ++ position_attrs "Source" ++
  position_attrs "Receiver" ++ position_attrs "Emitter".

(** A well-formed container with the given [DataType], no optional field,
    and the root attribute [skip] left out. *)
Definition fixture (data_type skip : string) : container :=
  container_of fixture_nodes (fixture_attrs data_type skip).

Definition world0 (fs : list (string * container)) : world :=
  {| files := list_to_map fs; next_handle := 0; opened := ∅; trace := [] |}.

Definition license_missing : world :=
  world0 [("measured.sofa", fixture "FIR" "License")].

Definition plain_fixture : world :=
  world0 [("measured.sofa", fixture "FIR" "")].

Definition xyz_fixture : world :=
  world0 [("measured.sofa", fixture "XYZ" "")].

(** The fixture, with a root attribute [Comment] whose read fails in the
    storage layer. *)
Definition corrupt_comment : container :=
  {| c_node := c_node (fixture "FIR" "");
     c_attr node attribute :=
       if String.eqb node "/" && String.eqb attribute "Comment"
       then Raise (OtherError "HDF5ExtError")
       else c_attr (fixture "FIR" "") node attribute |}.

Definition corrupt_fixture : world :=
  world0 [("measured.sofa", corrupt_comment)].

Definition measured : File := mkFile 0 "measured.sofa" (fixture "FIR" "").

(** A world in which the caller holds [measured] open. *)
Definition measured_open : world :=
  {| files := {[ "measured.sofa" := fixture "FIR" "" ]};
     next_handle := 1; opened := {[ 0%nat ]}; trace := [] |}.

(** Two different files: the caller's, and one that happens to be called
    [dtf_nh2.sofa] and holds nothing. *)
Definition two_files : world :=
  world0 [("measured.sofa", fixture "FIR" "");
          ("dtf_nh2.sofa", container_of [] [])].

Definition partial_object : gmap string pyval :=
  (SOFA_from_file (AStr "measured.sofa") (∅, license_missing)).2.1.

(** * Containers that can be read in full *)

(** A read that does not stop the bind of an optional field: a value, or
    "not found". *)
Definition tolerated (r : outcome value) : bool :=
  match r with
  | Ok _ | Raise AttributeError => true
  | Raise _ => false
  end.

Definition roles : list string := ["Listener"; "Source"; "Receiver"; "Emitter"].

(** The fields of the audio object [role]: [Position] and its attributes
    [Type] and [Units] can be read; [Description], [View] and [Up] can be
    read or are not found. *)
Definition geometry_complete (c : container) (role : string) : Prop :=
  is_ok (c_node c ("/" +:+ role +:+ "Position")) = true /\
  is_ok (c_attr c ("/" +:+ role +:+ "Position") "Type") = true /\
  is_ok (c_attr c ("/" +:+ role +:+ "Position") "Units") = true /\
  forall p, p ∈ ["Description"; "View"; "Up"] ->
            tolerated (c_node c ("/" +:+ role +:+ p)) = true.

Definition fir_complete (c : container) : Prop :=
  is_ok (c_node c "/Data.IR") = true /\
  is_ok (c_node c "/Data.Delay") = true /\
  is_ok (c_node c "/Data.SamplingRate") = true /\
  is_ok (c_attr c "/Data.SamplingRate" "Units") = true.

Definition complete (c : container) : Prop :=
  (forall a, a ∈ req_attributes -> is_ok (c_attr c "/" a) = true) /\
  (forall a, a ∈ other_attributes -> tolerated (c_attr c "/" a) = true) /\
  (forall role, role ∈ roles -> geometry_complete c role) /\
  c_attr c "/" "DataType" = Ok (VStr "FIR") /\
  fir_complete c.

(** A file whose listener position is a scalar, and a world with one
    open handle on it. *)
Definition scalar_position : container :=
  {| c_node node :=
       if String.eqb node "/ListenerPosition" then Ok (VInt 3)
       else c_node (fixture "FIR" "") node;
     c_attr := c_attr (fixture "FIR" "") |}.

Definition scalar_open : world :=
  {| files := ∅; next_handle := 1; opened := {[ 0%nat ]}; trace := [] |}.


(** A world in which the file named [dtf_nh2.sofa] is the fixture. *)
Definition reference_file : world :=
  world0 [("dtf_nh2.sofa", fixture "FIR" "")].

(** An object that holds a [Comment] and a [Title] already. *)
Definition annotated : gmap string pyval :=
  <["Title" := PVal (VStr "earlier")]>
    {[ "Comment" := PVal (VStr "of an earlier file") ]}.

(** * The reads of a construction *)

(** The fields that a loop over [ds] reads: those up to and including the
    first whose read is not accepted. *)
Fixpoint attempted (rd : descriptor -> outcome value) (ds : list descriptor)
  : list descriptor :=
  match ds with
  | [] => []
  | d :: ds' => d :: (if accepted d (rd d) then attempted rd ds' else [])
  end.

(** The fields bound before [DataType] is looked at. *)
Definition before_data : list descriptor :=
  root_descriptors ++
  geometry_descriptors "Listener" ++ geometry_descriptors "Source" ++
  geometry_descriptors "Receiver" ++ geometry_descriptors "Emitter".

(** The fields that [SOFA.from_file] reads: the fields of the [FIR] data
    come after all the others, and only when [DataType] is ['FIR']. *)
Definition SOFA_attempted (rd : descriptor -> outcome value) : list descriptor :=
  attempted rd before_data ++
  (if all_accepted rd before_data && is_FIR (rd datatype_descriptor)
   then attempted rd fir_descriptors else []).

(** The world after the events [evs]. *)
Definition logged (evs : list event) (w : world) : world :=
  {| files := files w; next_handle := next_handle w;
     opened := opened w; trace := trace w ++ evs |}.

(** The reads of [m ;; k], from those of [m] and of [k]. *)
Definition then_reads {O A} (p : St O A) (t1 : O -> list descriptor)
    (t2 : A -> O -> list descriptor) : O -> list descriptor :=
  fun o => t1 o ++ match p o with
                   | (Ok a, o1) => t2 a o1
                   | (Raise _, _) => []
                   end.

(** [m], run from a world with the handles of [w0], does to the object
    what [p] does, and to the world nothing but the reads of the fields
    [t o] through [f], in this order. *)
Definition reads_as {O A} (w0 : world) (f : File) (m : M O A) (p : St O A)
    (t : O -> list descriptor) : Prop :=
  forall o w, same_handles w0 w ->
    m (o, w) = ((p o).1, ((p o).2, logged (map (field_event f) (t o)) w)).

(** * Properties

    ** Reads and the world *)

Lemma same_handles_refl w : same_handles w w.
Proof.
  repeat split. exists []. split; [by rewrite app_nil_r | constructor].
Qed.

Lemma same_handles_trans w1 w2 w3 :
  same_handles w1 w2 -> same_handles w2 w3 -> same_handles w1 w3.
Proof.
  intros (Hf & Hn & Ho & evs & Ht & Hr) (Hf' & Hn' & Ho' & evs' & Ht' & Hr').
  repeat split; try congruence.
  exists (evs ++ evs'). split; [by rewrite Ht', Ht, app_assoc|].
  by apply Forall_app.
Qed.

Lemma same_handles_log ev w : is_read ev -> same_handles w (log ev w).
Proof.
  intros Hev. repeat split. exists [ev]. split; [done|].
  by constructor.
Qed.

Lemma is_read_field_event f d : is_read (field_event f d).
Proof. unfold field_event. by destruct (fieldKind d). Qed.

Lemma read_field_same_handles w w' f d :
  same_handles w w' -> read_field w' f d = read_field w f d.
Proof.
  intros (_ & _ & Ho & _).
  unfold read_field, read_node, read_attr. by rewrite Ho.
Qed.

Lemma read_field_open w f d :
  hid f ∈ opened w -> read_field w f d = field_of (content f) d.
Proof.
  intros Hin. unfold read_field, field_of, read_node, read_attr.
  rewrite bool_decide_eq_true_2 by done. by destruct (fieldKind d).
Qed.

Lemma read_field_closed w f d :
  hid f ∉ opened w -> read_field w f d = Raise ClosedFileError.
Proof.
  intros Hin. unfold read_field, read_node, read_attr.
  rewrite bool_decide_eq_false_2 by done. by destruct (fieldKind d).
Qed.

(** ** One bind *)

Section binder.
Context {V : Type} `{Slot V}.

Lemma _add_data_unfold f node req nm (o : gmap string V) w :
  _add_data f node req nm (o, w) =
  match read_node w f node with
  | Ok v => (Ok 0, (setattr (name_or nm node) v o, log (EvReadNode (hid f) node) w))
  | Raise AttributeError =>
      if req
      then (Raise (Exception ("Required Dataset " +:+ node +:+ " not found!")),
            (o, log (EvReadNode (hid f) node) w))
      else (Ok 1, (o, log (EvReadNode (hid f) node) w))
  | Raise e => (Raise e, (o, log (EvReadNode (hid f) node) w))
  end.
Proof.
  unfold _add_data, try_except_AttributeError, bind, get_node_read.
  destruct (read_node w f node) as [v|[]]; try done; by destruct req.
Qed.

Lemma _add_attribute_unfold f node a req nm (o : gmap string V) w :
  _add_attribute f node a req nm (o, w) =
  match read_attr w f node a with
  | Ok v => (Ok 0, (setattr (name_or nm a) v o, log (EvReadAttr (hid f) node a) w))
  | Raise AttributeError =>
      if req
      then (Raise (Exception ("Required Attribute " +:+ a +:+ " not found!")),
            (o, log (EvReadAttr (hid f) node a) w))
      else (Ok 1, (o, log (EvReadAttr (hid f) node a) w))
  | Raise e => (Raise e, (o, log (EvReadAttr (hid f) node a) w))
  end.
Proof.
  unfold _add_attribute, try_except_AttributeError, bind, get_node_attr.
  destruct (read_attr w f node a) as [v|[]]; try done; by destruct req.
Qed.

Lemma bindField_unfold f d (o : gmap string V) w :
  bindField f d (o, w) =
  match read_field w f d with
  | Ok v => (Ok 0, (setattr (destination d) v o, log (field_event f d) w))
  | Raise e =>
      if accepted d (Raise e)
      then (Ok 1, (o, log (field_event f d) w))
      else (Raise (escalate d (Raise e)), (o, log (field_event f d) w))
  end.
Proof.
  unfold bindField, read_field, destination, field_event, accepted,
    escalate, missing_error.
  destruct (fieldKind d) as [|a].
  - rewrite _add_data_unfold.
    destruct (read_node _ _ _) as [v|[]]; try done; by destruct (required d).
  - rewrite _add_attribute_unfold.
    destruct (read_attr _ _ _ _) as [v|[]]; try done; by destruct (required d).
Qed.

(** Binding a list of fields yields what [hydrate] computes from the
    reads, and only reads. *)
Lemma for_bindField f ds : forall (o : gmap string V) w,
  exists w',
    for_ ds (bindField f) (o, w) =
      ((hydrate (read_field w f) ds o).1,
       ((hydrate (read_field w f) ds o).2, w')) /\
    same_handles w w'.
Proof.
  induction ds as [|d ds IH]; intros o w; cbn [for_ hydrate].
  - exists w. split; [done | apply same_handles_refl].
  - unfold bind. rewrite bindField_unfold.
    pose proof (same_handles_log (field_event f d) w
                  (is_read_field_event f d)) as Hlog.
    assert (Hrd : forall o', hydrate (read_field (log (field_event f d) w) f) ds o'
                             = hydrate (read_field w f) ds o').
    { intros o'. f_equal. }
    destruct (read_field w f d) as [v|e] eqn:Hr.
    + destruct (IH (setattr (destination d) v o) (log (field_event f d) w))
        as (w' & Heq & Hs).
      exists w'. rewrite Heq, Hrd. split; [done|].
      eapply same_handles_trans; eauto.
    + destruct (accepted d (Raise e)).
      * destruct (IH o (log (field_event f d) w)) as (w' & Heq & Hs).
        exists w'. rewrite Heq, Hrd. split; [done|].
        eapply same_handles_trans; eauto.
      * exists (log (field_event f d) w). by split.
Qed.
End binder.

(** ** Binding a list of fields *)

Section hydrate.
Context {V : Type} `{Slot V}.
Variable rd : descriptor -> outcome value.
Implicit Types (o : gmap string V) (ds : list descriptor).

Lemma hydrate_cons_accepted d ds o :
  accepted d (rd d) = true ->
  hydrate rd (d :: ds) o =
  hydrate rd ds (match rd d with Ok v => setattr (destination d) v o | Raise _ => o end).
Proof.
  intros Hacc. cbn [hydrate].
  destruct (rd d) as [v|e]; [done|]. by rewrite Hacc.
Qed.

Lemma hydrate_cons_rejected d ds o :
  accepted d (rd d) = false ->
  hydrate rd (d :: ds) o = (Raise (escalate d (rd d)), o).
Proof.
  intros Hacc. cbn [hydrate].
  destruct (rd d) as [v|e]; [done|]. by rewrite Hacc.
Qed.

Lemma hydrate_app ds1 ds2 o :
  hydrate rd (ds1 ++ ds2) o =
  match hydrate rd ds1 o with
  | (Ok _, o1) => hydrate rd ds2 o1
  | (Raise e, o1) => (Raise e, o1)
  end.
Proof.
  revert o. induction ds1 as [|d ds1 IH]; intros o; [done|].
  rewrite <- app_comm_cons.
  destruct (accepted d (rd d)) eqn:Hacc.
  - by rewrite !hydrate_cons_accepted, IH.
  - by rewrite !hydrate_cons_rejected.
Qed.

(** The binds succeed exactly when every read is accepted. *)
Lemma hydrate_is_ok ds o :
  is_ok (hydrate rd ds o).1 = all_accepted rd ds.
Proof.
  revert o. induction ds as [|d ds IH]; intros o; [done|].
  cbn [all_accepted forallb].
  destruct (accepted d (rd d)) eqn:Hacc.
  - rewrite hydrate_cons_accepted by done. apply IH.
  - by rewrite hydrate_cons_rejected.
Qed.

Lemma hydrate_accepted ds o :
  all_accepted rd ds = true -> (hydrate rd ds o).1 = Ok tt.
Proof.
  intros Hall. rewrite <- (hydrate_is_ok ds o) in Hall.
  by destruct (hydrate rd ds o) as [[[]|e] o'].
Qed.

(** The first read that is not accepted decides the exception, and the
    fields bound before it stay on the object. *)
Lemma hydrate_first_failure l1 d l2 o :
  all_accepted rd l1 = true ->
  accepted d (rd d) = false ->
  hydrate rd (l1 ++ d :: l2) o =
    (Raise (escalate d (rd d)), (hydrate rd l1 o).2).
Proof.
  intros Hall Hrej. rewrite hydrate_app.
  pose proof (hydrate_accepted l1 o Hall) as Hok.
  destruct (hydrate rd l1 o) as [r o1]; simpl in *; subst r.
  by apply hydrate_cons_rejected.
Qed.

(** A property of the object that every store keeps is kept by the
    binds. *)
Lemma hydrate_invariant (P : gmap string V -> Prop) ds o :
  P o ->
  (forall d v o', d ∈ ds -> rd d = Ok v -> P o' ->
                  P (setattr (destination d) v o')) ->
  P (hydrate rd ds o).2.
Proof.
  revert o. induction ds as [|d ds IH]; intros o Ho Hstep; [done|].
  cbn [hydrate]. destruct (rd d) as [v|e] eqn:Hr.
  - apply IH.
    + apply Hstep; [left | done | done].
    + intros d' v' o' Hin. apply Hstep. by right.
  - destruct (accepted d (Raise e)); [|done].
    apply IH; [done|]. intros d' v' o' Hin. apply Hstep. by right.
Qed.

(** Attributes that no successful read writes to are left alone. *)
Lemma hydrate_lookup_other ds o k :
  (forall d v, d ∈ ds -> rd d = Ok v -> destination d ≠ k) ->
  (hydrate rd ds o).2 !! k = o !! k.
Proof.
  intros Hk. apply (hydrate_invariant (fun o' => o' !! k = o !! k)); [done|].
  intros d v o' Hin Hr Ho'. unfold setattr.
  rewrite lookup_insert_ne; [done|]. by eapply Hk.
Qed.

(** Attributes, once set, stay set. *)
Lemma hydrate_lookup_is_Some ds o k :
  is_Some (o !! k) -> is_Some ((hydrate rd ds o).2 !! k).
Proof.
  intros Hk. apply (hydrate_invariant (fun o' => is_Some (o' !! k))); [done|].
  intros d v o' _ _ Ho'. unfold setattr.
  destruct (decide (destination d = k)) as [->|Hne].
  - rewrite lookup_insert_eq. by eexists.
  - by rewrite lookup_insert_ne.
Qed.

(** With pairwise distinct destinations, after successful binds each
    field holds exactly what its read returned, and is unset when the
    read found nothing. *)
Lemma hydrate_lookup ds o d :
  NoDup (map destination ds) ->
  all_accepted rd ds = true ->
  d ∈ ds ->
  (hydrate rd ds o).2 !! destination d =
    match rd d with
    | Ok v => Some (plain v)
    | Raise _ => o !! destination d
    end.
Proof.
  revert o. induction ds as [|d0 ds IH]; intros o Hnd Hall Hin.
  { by apply elem_of_nil in Hin. }
  cbn [map] in Hnd. apply NoDup_cons in Hnd as [Hnotin Hnd].
  cbn [all_accepted forallb] in Hall.
  apply andb_true_iff in Hall as [Hacc Hall].
  rewrite hydrate_cons_accepted by done.
  apply elem_of_cons in Hin as [->|Hin].
  - rewrite hydrate_lookup_other.
    + destruct (rd d0) as [v|e]; [|done]. unfold setattr.
      by rewrite lookup_insert_eq.
    + intros d' v' Hin' _ Heq. apply Hnotin.
      rewrite <- Heq. apply list_elem_of_fmap. by exists d'.
  - rewrite IH by done.
    destruct (rd d) as [v|e]; [done|].
    destruct (rd d0) as [v0|e0]; [|done]. unfold setattr.
    rewrite lookup_insert_ne; [done|].
    intros Heq. apply Hnotin. rewrite Heq.
    apply list_elem_of_fmap. by exists d.
Qed.
End hydrate.

Lemma hydrate_ext {V} `{Slot V} (rd rd' : descriptor -> outcome value) ds :
  (forall d, rd d = rd' d) ->
  forall o : gmap string V, hydrate rd ds o = hydrate rd' ds o.
Proof.
  intros Hrd. induction ds as [|d ds IH]; intros o; cbn [hydrate]; [done|].
  rewrite <- Hrd. destruct (rd d) as [v|e]; [apply IH|].
  destruct (accepted d (Raise e)); [apply IH | done].
Qed.

(** ** Loops *)

Lemma for_app {S A B} (l1 l2 : list A) (body : A -> St S B) s :
  for_ (l1 ++ l2) body s = (for_ l1 body ;; for_ l2 body) s.
Proof.
  revert s. induction l1 as [|x l1 IH]; intros s; cbn [for_ app].
  - done.
  - unfold bind. destruct (body x s) as [[b|e] s']; [|done].
    by rewrite IH.
Qed.

Lemma for_map {S A B C} (g : A -> B) (l : list A) (body : B -> St S C) s :
  for_ (map g l) body s = for_ l (fun x => body (g x)) s.
Proof.
  revert s. induction l as [|x l IH]; intros s; cbn [for_ map]; [done|].
  unfold bind. destruct (body (g x) s) as [[c|e] s']; [|done]. apply IH.
Qed.

(** ** Computations that run alike *)

Lemma agree_run {S A} (I : S -> Prop) (m m' : St S A) s :
  agree I m m' -> I s -> m s = m' s.
Proof. intros Hm Hs. by destruct (Hm s Hs). Qed.

Lemma agree_ret {S A} (I : S -> Prop) (a : A) : agree I (ret a) (ret a).
Proof. by intros s Hs. Qed.

Lemma agree_bind {S A B} (I : S -> Prop) (m m' : St S A) (k k' : A -> St S B) :
  agree I m m' -> (forall a, agree I (k a) (k' a)) ->
  agree I (bind m k) (bind m' k').
Proof.
  intros Hm Hk s Hs. unfold bind.
  destruct (Hm s Hs) as [-> HI].
  destruct (m' s) as [[a|e] s']; [|done]. by apply Hk.
Qed.

Lemma agree_for {S A B} (I : S -> Prop) (l : list A) (body body' : A -> St S B) :
  Forall (fun x => agree I (body x) (body' x)) l ->
  agree I (for_ l body) (for_ l body').
Proof.
  induction 1 as [|x l Hx Hl IH]; cbn [for_].
  - apply agree_ret.
  - apply agree_bind; [apply Hx | intros _; apply IH].
Qed.

(** ** [FIR] and [AudioObject] bind their tables *)

Ltac run_binds :=
  repeat match goal with
         | |- context [match ?m ?x with _ => _ end] =>
             lazymatch m with
             | _add_data _ _ _ _ => idtac
             | _add_attribute _ _ _ _ _ => idtac
             | bindField _ _ => idtac
             end;
             destruct (m x) as [[?|?] ?]
         end.

Lemma FIR_from_file_handle f s :
  FIR_from_file (AFile f) s = for_ fir_descriptors (bindField f) s.
Proof.
  unfold FIR_from_file, fir_descriptors.
  cbn [for_ isinstance_File negb bindField fieldKind sourcePath required name].
  unfold bind, ret.
  cbv [String.append slice_from String.length String.substring Nat.sub].
  run_binds; done.
Qed.

Lemma agree_bindField role f d :
  destination d ≠ "object_string" ->
  agree (has_role role) (bindField f d) (bindField f d).
Proof.
  intros Hd [o w] Hs. split; [done|]. rewrite bindField_unfold.
  unfold has_role in *. cbn [fst snd] in Hs.
  destruct (read_field w f d) as [v|e]; cbn [fst snd].
  - unfold setattr. by rewrite lookup_insert_ne.
  - by destruct (accepted d (Raise e)).
Qed.

Lemma agree_object_string {B} role (k : string -> M (gmap string value) B) :
  agree (has_role role) (k role) (k role) ->
  agree (has_role role) (object_string <- get_object_string ;; k object_string)
    (k role).
Proof.
  intros Hk [o w] Hs. unfold bind, get_object_string.
  unfold has_role in Hs. simpl in Hs. rewrite Hs. by apply Hk.
Qed.

Lemma AudioObject_from_file_handle f role s :
  has_role role s ->
  AudioObject_from_file (AFile f) s
  = for_ (geometry_descriptors role) (bindField f) s.
Proof.
  intros Hs.
  transitivity
    ((for_ ["Position"]
        (fun param => bindField f
           (mkDescriptor ("/" +:+ role +:+ param) Dataset (Some param) true)) ;;
      for_ ["Type"; "Units"]
        (fun param => bindField f
           (mkDescriptor ("/" +:+ role +:+ "Position") (Attribute param)
              (Some ("Position" +:+ param)) true)) ;;
      for_ ["Description"; "View"; "Up"]
        (fun param => bindField f
           (mkDescriptor ("/" +:+ role +:+ param) Dataset (Some param) false)) ;;
      ret tt) s).
  - unfold AudioObject_from_file. cbn [isinstance_File negb].
    change (bind (ret f) ?k s) with (k f s). cbv beta.
    apply (agree_run (has_role role)); [|done].
    repeat (cbv beta;
            lazymatch goal with
            | |- agree (has_role ?r) (bind get_object_string ?k) (bindField ?f ?d) =>
                apply (agree_object_string r k);
                apply (agree_bindField r f d); done
            | |- agree _ (bind _ _) (bind _ _) => apply agree_bind; [|intros _]
            | |- agree _ (for_ _ _) (for_ _ _) => apply agree_for
            | |- agree _ (ret _) (ret _) => apply agree_ret
            | |- Forall _ _ => constructor
            end).
  - unfold geometry_descriptors. cbn [for_]. unfold bind, ret.
    cbv [String.append]. run_binds; done.
Qed.

(** ** Erasing the world *)

Section runs_as.
Context {O : Type} (w0 : world).

Lemma runs_as_ret {A} (a : A) : runs_as (O:=O) w0 (ret a) (ret a).
Proof. intros o w Hw. by exists w. Qed.

Lemma runs_as_raise {A} e : runs_as (O:=O) (A:=A) w0 (raise e) (raise e).
Proof. intros o w Hw. by exists w. Qed.

Lemma runs_as_bind {A B} (m : M O A) p (k : A -> M O B) q :
  runs_as w0 m p -> (forall a, runs_as w0 (k a) (q a)) ->
  runs_as w0 (bind m k) (bind p q).
Proof.
  intros Hm Hk o w Hw. unfold bind.
  destruct (Hm o w Hw) as (w1 & -> & Hw1).
  destruct (p o) as [[a|e] o1]; cbn [fst snd].
  - apply Hk, Hw1.
  - by exists w1.
Qed.

Lemma runs_as_call {A} (c : world -> outcome A * world) (r : outcome A) :
  (forall w, same_handles w0 w ->
     exists w', c w = (r, w') /\ same_handles w0 w') ->
  runs_as (O:=O) w0 (call c) (pure r).
Proof.
  intros Hc o w Hw. destruct (Hc w Hw) as (w' & Heq & Hw').
  exists w'. unfold call. by rewrite Heq.
Qed.
End runs_as.

Lemma runs_as_bindAll {V} `{Slot V} w0 f ds :
  runs_as w0 (for_ ds (bindField (V:=V) f)) (hydrate (read_field w0 f) ds).
Proof.
  intros o w Hw. destruct (for_bindField f ds o w) as (w' & Heq & Hw').
  exists w'. split; [|by eapply same_handles_trans].
  rewrite Heq.
  by rewrite (hydrate_ext (read_field w f) (read_field w0 f))
    by (intros d; by apply read_field_same_handles).
Qed.

Lemma runs_as_ext {O A} w0 (m m' : M O A) p :
  (forall s, m s = m' s) -> runs_as w0 m' p -> runs_as w0 m p.
Proof. intros Hext Hm o w Hw. rewrite Hext. by apply Hm. Qed.

Lemma runs_as_store w0 name obj :
  runs_as w0 (set_object name obj) (store name obj).
Proof. intros o w Hw. by exists w. Qed.

Lemma runs_as_fetch w0 name : runs_as w0 (getattr name) (fetch name).
Proof.
  intros o w Hw. exists w. unfold getattr, fetch.
  by destruct (o !! name).
Qed.

(** ** Constructions on a handle of the caller *)

Lemma FIR_handle w0 f w :
  same_handles w0 w ->
  exists w', FIR (AFile f) w = (FIR_model (read_field w0 f), w') /\
             same_handles w0 w'.
Proof.
  intros Hw. unfold FIR, construct, FIR_init. cbn [truthy].
  rewrite FIR_from_file_handle.
  destruct (runs_as_bindAll (V:=value) w0 f fir_descriptors ∅ w Hw)
    as (w' & -> & Hw').
  exists w'. split; [|done]. unfold FIR_model, built.
  by destruct (hydrate _ _ _) as [[[]|e] o].
Qed.

Lemma AudioObject_handle w0 role f w :
  same_handles w0 w ->
  exists w', AudioObject role (AFile f) w
             = (AudioObject_model (read_field w0 f) role, w') /\
             same_handles w0 w'.
Proof.
  intros Hw. unfold AudioObject, construct, AudioObject_init. cbn [truthy].
  unfold bind at 1. cbn [do_setattr].
  rewrite (AudioObject_from_file_handle f role)
    by (unfold has_role, setattr; cbn [fst]; apply lookup_insert_eq).
  destruct (runs_as_bindAll (V:=value) w0 f (geometry_descriptors role)
              (setattr "object_string" (VStr role) ∅) w Hw) as (w' & -> & Hw').
  exists w'. split; [|done]. unfold AudioObject_model, built.
  by destruct (hydrate _ _ _) as [[[]|e] o].
Qed.

Lemma SOFA_from_file_handle w0 f :
  runs_as w0 (SOFA_from_file (AFile f)) (SOFA_model (read_field w0 f)).
Proof.
  unfold SOFA_from_file, SOFA_model. cbn [isinstance_File negb].
  change (bind (ret f) ?k) with (k f). cbv beta.
  apply runs_as_bind; [|intros _].
  { eapply runs_as_ext; [|apply runs_as_bindAll].
    intros s. symmetry. apply for_map. }
  apply runs_as_bind; [|intros _].
  { eapply runs_as_ext; [|apply runs_as_bindAll].
    intros s. symmetry. apply for_map. }
  repeat (apply runs_as_bind;
          [apply runs_as_call; intros w Hw; by apply AudioObject_handle
          |intros ?];
          apply runs_as_bind; [apply runs_as_store | intros _]).
  apply runs_as_bind; [apply runs_as_fetch | intros dt].
  apply runs_as_bind; [|intros _; apply runs_as_ret].
  destruct (eq_str dt "FIR"); [|apply runs_as_raise].
  apply runs_as_bind; [|intros d; apply runs_as_store].
  apply runs_as_call. intros w Hw. by apply FIR_handle.
Qed.

(** ** Constructions on a path *)

Lemma bind_finish {O A} f (m : M O A) (k k' : A -> M O unit) s :
  (forall a s', k' a s' = finish f (k a s')) ->
  bind m k' s = finish f (bind m k s).
Proof.
  intros Hk. unfold bind. destruct (m s) as [[a|e] s']; [apply Hk | done].
Qed.

Ltac finish_binds :=
  repeat (cbv beta;
          lazymatch goal with
          | |- bind ?m _ _ = finish _ (bind ?m _ _) =>
              apply bind_finish; intros ? ?
          end).

Lemma close_finish {O} f (s : O * world) : close f s = finish f (ret tt s).
Proof. by destruct s. Qed.

Lemma SOFA_from_file_path p c o w :
  files w !! p = Some c ->
  SOFA_from_file (AStr p) (o, w) =
  finish (mkFile (next_handle w) p c)
    (SOFA_from_file (AFile (mkFile (next_handle w) p c)) (o, open_world p w)).
Proof.
  intros Hp. unfold SOFA_from_file.
  cbn [isinstance_File isinstance_str negb assert str_of].
  unfold bind at 1. unfold bind at 1. cbn [ret open_file]. rewrite Hp.
  change (bind (ret ?f) ?k ?s) with (k f s).
  finish_binds. apply close_finish.
Qed.

Lemma AudioObject_from_file_path p c o w :
  files w !! "dtf_nh2.sofa" = Some c ->
  AudioObject_from_file (AStr p) (o, w) =
  finish (mkFile (next_handle w) "dtf_nh2.sofa" c)
    (AudioObject_from_file (AFile (mkFile (next_handle w) "dtf_nh2.sofa" c))
       (o, open_world "dtf_nh2.sofa" w)).
Proof.
  intros Hp. unfold AudioObject_from_file.
  cbn [isinstance_File isinstance_str negb assert].
  unfold bind at 1. unfold bind at 1. cbn [ret open_file]. rewrite Hp.
  change (bind (ret ?f) ?k ?s) with (k f s).
  finish_binds. apply close_finish.
Qed.

Lemma FIR_from_file_path p c o w :
  files w !! "dtf_nh2.sofa" = Some c ->
  FIR_from_file (AStr p) (o, w) =
  finish (mkFile (next_handle w) "dtf_nh2.sofa" c)
    (FIR_from_file (AFile (mkFile (next_handle w) "dtf_nh2.sofa" c))
       (o, open_world "dtf_nh2.sofa" w)).
Proof.
  intros Hp. unfold FIR_from_file.
  cbn [isinstance_File isinstance_str negb assert].
  unfold bind at 1. unfold bind at 1. cbn [ret open_file]. rewrite Hp.
  change (bind (ret ?f) ?k ?s) with (k f s).
  finish_binds. apply close_finish.
Qed.

(** ** Running the erased classes *)

Lemma hydrate_accepted_eq {V} `{Slot V} rd ds (o : gmap string V) :
  all_accepted rd ds = true ->
  hydrate rd ds o = (Ok tt, (hydrate rd ds o).2).
Proof.
  intros Hall. pose proof (hydrate_accepted rd ds o Hall) as Hok.
  destruct (hydrate rd ds o) as [r o']. simpl in *. by subst.
Qed.

Lemma hydrate_rejected {V} `{Slot V} rd ds (o : gmap string V) :
  all_accepted rd ds = false ->
  exists e, (hydrate rd ds o).1 = Raise e.
Proof.
  intros Hall. rewrite <- (hydrate_is_ok rd ds o) in Hall.
  destruct (hydrate rd ds o) as [[[]|e] o']; [done|]. by exists e.
Qed.

Lemma built_is_ok {V} (r : outcome unit * gmap string V) :
  is_ok (built r) = is_ok r.1.
Proof. by destruct r as [[[]|e] o]. Qed.

Lemma AudioObject_model_is_ok rd role :
  is_ok (AudioObject_model rd role) = all_accepted rd (geometry_descriptors role).
Proof. unfold AudioObject_model. rewrite built_is_ok. apply hydrate_is_ok. Qed.

Lemma AudioObject_model_accepted rd role :
  all_accepted rd (geometry_descriptors role) = true ->
  AudioObject_model rd role = Ok (geometry_fields rd role).
Proof.
  intros Hall. unfold AudioObject_model, geometry_fields, built.
  pose proof (hydrate_accepted (V:=value) rd _
                (setattr "object_string" (VStr role) ∅) Hall) as Hok.
  destruct (hydrate _ _ _) as [r o']. simpl in *. by subst.
Qed.

Lemma FIR_model_is_ok rd :
  is_ok (FIR_model rd) = all_accepted rd fir_descriptors.
Proof.
  unfold FIR_model. rewrite built_is_ok. apply hydrate_is_ok.
Qed.

Lemma FIR_model_accepted rd :
  all_accepted rd fir_descriptors = true -> FIR_model rd = Ok (fir_fields rd).
Proof.
  intros Hall. unfold FIR_model, fir_fields, built.
  pose proof (hydrate_accepted (V:=value) rd _ ∅ Hall) as Hok.
  destruct (hydrate _ _ _) as [r o']. simpl in *. by subst.
Qed.

(** ** The root attributes *)

Lemma root_destinations_NoDup : NoDup (map destination root_descriptors).
Proof. apply (bool_decide_unpack _). by vm_compute. Qed.

Lemma NoDup_root_required : NoDup (map destination root_required).
Proof. apply (bool_decide_unpack _). by vm_compute. Qed.

Lemma NoDup_root_optional : NoDup (map destination root_optional).
Proof. apply (bool_decide_unpack _). by vm_compute. Qed.

Lemma destination_root_attribute req a :
  destination (root_attribute req a) = a.
Proof. done. Qed.

Lemma all_accepted_app rd ds1 ds2 :
  all_accepted rd (ds1 ++ ds2) = all_accepted rd ds1 && all_accepted rd ds2.
Proof. apply forallb_app. Qed.

Lemma all_accepted_elem rd ds d :
  all_accepted rd ds = true -> d ∈ ds -> accepted d (rd d) = true.
Proof.
  intros Hall Hin. unfold all_accepted in Hall.
  rewrite forallb_forall in Hall. by apply Hall, list_elem_of_In.
Qed.

Lemma all_accepted_rejects rd ds d :
  d ∈ ds -> accepted d (rd d) = false -> all_accepted rd ds = false.
Proof.
  intros Hin Hrej. destruct (all_accepted rd ds) eqn:Hall; [|done].
  by rewrite (all_accepted_elem rd ds d Hall Hin) in Hrej.
Qed.

Lemma accepted_required d r :
  required d = true -> accepted d r = true -> exists v, r = Ok v.
Proof.
  intros Hreq Hacc. destruct r as [v|e]; [by exists v|].
  unfold accepted in Hacc. rewrite Hreq in Hacc. by destruct e.
Qed.

Lemma root_fields_eq rd o :
  all_accepted rd root_required = true ->
  root_fields rd o = (hydrate rd root_descriptors o).2.
Proof.
  intros Hreq. unfold root_fields, root_descriptors.
  rewrite hydrate_app.
  pose proof (hydrate_accepted rd root_required o Hreq) as Hok.
  destruct (hydrate rd root_required o) as [r o1]. simpl in *. by subst.
Qed.

Lemma root_fields_lookup rd o req a :
  all_accepted rd root_descriptors = true ->
  root_attribute req a ∈ root_descriptors ->
  root_fields rd o !! a =
    match rd (root_attribute req a) with
    | Ok v => Some (PVal v)
    | Raise _ => o !! a
    end.
Proof.
  intros Hall Hin.
  pose proof Hall as Hall'. unfold root_descriptors in Hall'.
  rewrite all_accepted_app in Hall'. apply andb_true_iff in Hall' as [Hreq _].
  rewrite root_fields_eq by done.
  exact (hydrate_lookup rd root_descriptors o (root_attribute req a)
           root_destinations_NoDup Hall Hin).
Qed.

Lemma elem_of_root_required a :
  a ∈ req_attributes -> root_attribute true a ∈ root_descriptors.
Proof.
  intros Hin. unfold root_descriptors, root_required.
  apply elem_of_app. left. apply list_elem_of_fmap. by exists a.
Qed.

Lemma elem_of_root_optional a :
  a ∈ other_attributes -> root_attribute false a ∈ root_descriptors.
Proof.
  intros Hin. unfold root_descriptors, root_optional.
  apply elem_of_app. right. apply list_elem_of_fmap. by exists a.
Qed.

(** ** Well-formed containers *)

Lemma bind_hydrate_accepted {V B} `{Slot V} rd ds
    (k : unit -> St (gmap string V) B) o :
  all_accepted rd ds = true ->
  bind (hydrate rd ds) k o = k tt (hydrate rd ds o).2.
Proof.
  intros Hall. unfold bind.
  pose proof (hydrate_accepted rd ds o Hall) as Hok.
  destruct (hydrate rd ds o) as [r o1]. simpl in *. by subst.
Qed.

Lemma bind_hydrate_rejected {V B} `{Slot V} rd ds
    (k : unit -> St (gmap string V) B) o :
  all_accepted rd ds = false ->
  exists e, (hydrate rd ds o).1 = Raise e /\
            bind (hydrate rd ds) k o = (Raise e, (hydrate rd ds o).2).
Proof.
  intros Hall. unfold bind.
  rewrite <- (hydrate_is_ok rd ds o) in Hall.
  destruct (hydrate rd ds o) as [[[]|e] o1]; [done|]. by exists e.
Qed.

Lemma bind_pure {S A B} (r : outcome A) (k : A -> St S B) s :
  bind (pure r) k s =
  match r with Ok a => k a s | Raise e => (Raise e, s) end.
Proof. by destruct r. Qed.

Lemma bind_store {B} nm g (k : unit -> St (gmap string pyval) B) o :
  bind (store nm g) k o = k tt (<[nm := PObj g]> o).
Proof. done. Qed.

Lemma with_geometry_lookup rd o a :
  a ∈ req_attributes ++ other_attributes ->
  with_geometry rd o !! a = root_fields rd o !! a.
Proof.
  intros Hin. unfold with_geometry.
  rewrite !lookup_insert_ne; [done| | | |];
    intros <-; revert Hin; apply (bool_decide_unpack _); by vm_compute.
Qed.

Lemma with_geometry_DataType rd o :
  all_accepted rd root_descriptors = true ->
  with_geometry rd o !! "DataType" =
    match rd datatype_descriptor with
    | Ok v => Some (PVal v)
    | Raise _ => o !! "DataType"
    end.
Proof.
  intros Hall. rewrite with_geometry_lookup
    by (apply (bool_decide_unpack _); by vm_compute).
  apply (root_fields_lookup rd o true "DataType" Hall).
  apply elem_of_root_required. apply (bool_decide_unpack _). by vm_compute.
Qed.

Ltac model_step :=
  first [ rewrite bind_hydrate_accepted by done
        | rewrite bind_pure, AudioObject_model_accepted by done;
          rewrite bind_store ].

Lemma bind_AudioObject_rejected {S B} rd role (k : _ -> St S B) s :
  all_accepted rd (geometry_descriptors role) = false ->
  is_ok (bind (pure (AudioObject_model rd role)) k s).1 = false.
Proof.
  intros Hrej. rewrite bind_pure.
  rewrite <- AudioObject_model_is_ok in Hrej.
  by destruct (AudioObject_model rd role).
Qed.

Lemma bind_hydrate_rejected_is_ok {V B} `{Slot V} rd ds
    (k : unit -> St (gmap string V) B) o :
  all_accepted rd ds = false ->
  is_ok (bind (hydrate rd ds) k o).1 = false.
Proof.
  intros Hrej.
  by destruct (bind_hydrate_rejected rd ds k o Hrej) as (e & _ & ->).
Qed.

(** Up to the dispatch on [DataType]. *)
Lemma SOFA_model_dispatch rd o :
  all_accepted rd root_descriptors = true ->
  all_accepted rd (geometry_descriptors "Listener") = true ->
  all_accepted rd (geometry_descriptors "Source") = true ->
  all_accepted rd (geometry_descriptors "Receiver") = true ->
  all_accepted rd (geometry_descriptors "Emitter") = true ->
  exists v, rd datatype_descriptor = Ok v /\
    SOFA_model rd o =
    ((if eq_str (PVal v) "FIR"
      then data <- pure (FIR_model rd) ;; store "data" data
      else raise (Exception "Currently only the Datatype FIR is Implemented")) ;;
     ret tt) (with_geometry rd o).
Proof.
  intros Hroot HL HS HR HE.
  pose proof Hroot as Hroot'. unfold root_descriptors in Hroot'.
  rewrite all_accepted_app in Hroot'. apply andb_true_iff in Hroot' as [H1 H2].
  destruct (accepted_required datatype_descriptor (rd datatype_descriptor))
    as [v Hv]; [done| |].
  { apply (all_accepted_elem rd root_descriptors); [done|].
    apply elem_of_root_required. apply (bool_decide_unpack _). by vm_compute. }
  exists v. split; [done|].
  unfold SOFA_model. do 6 model_step.
  fold (root_fields rd o). fold (with_geometry rd o).
  unfold bind at 1, fetch.
  by rewrite with_geometry_DataType, Hv by done.
Qed.

(** A well-formed container is read in full. *)
Lemma SOFA_model_wellformed rd o :
  wellformed rd = true -> SOFA_model rd o = (Ok tt, SOFA_fields rd o).
Proof.
  unfold wellformed. rewrite !andb_true_iff.
  intros [[[[[[[H1 H2] HL] HS] HR] HE] HD] HF].
  destruct (SOFA_model_dispatch rd o) as (v & Hv & ->); try done.
  { unfold root_descriptors. rewrite all_accepted_app, H1, H2. done. }
  rewrite Hv in HD. unfold is_FIR in HD. unfold eq_str.
  destruct v as [t| |]; try done. rewrite HD.
  unfold bind at 1. unfold bind at 1.
  unfold pure. rewrite FIR_model_accepted by done. done.
Qed.

(** The model succeeds on well-formed containers only. *)
Lemma SOFA_model_is_ok rd o : is_ok (SOFA_model rd o).1 = wellformed rd.
Proof.
  destruct (wellformed rd) eqn:Hwf.
  { by rewrite SOFA_model_wellformed. }
  unfold wellformed in Hwf.
  destruct (all_accepted rd root_required) eqn:H1.
  2: { unfold SOFA_model. by apply bind_hydrate_rejected_is_ok. }
  destruct (all_accepted rd root_optional) eqn:H2.
  2: { unfold SOFA_model. model_step.
       by apply bind_hydrate_rejected_is_ok. }
  destruct (all_accepted rd (geometry_descriptors "Listener")) eqn:HL.
  2: { unfold SOFA_model. do 2 model_step.
       by apply bind_AudioObject_rejected. }
  destruct (all_accepted rd (geometry_descriptors "Source")) eqn:HS.
  2: { unfold SOFA_model. do 3 model_step.
       by apply bind_AudioObject_rejected. }
  destruct (all_accepted rd (geometry_descriptors "Receiver")) eqn:HR.
  2: { unfold SOFA_model. do 4 model_step.
       by apply bind_AudioObject_rejected. }
  destruct (all_accepted rd (geometry_descriptors "Emitter")) eqn:HE.
  2: { unfold SOFA_model. do 5 model_step.
       by apply bind_AudioObject_rejected. }
  cbn [andb] in Hwf.
  destruct (SOFA_model_dispatch rd o) as (v & Hv & ->); try done.
  { unfold root_descriptors. rewrite all_accepted_app, H1, H2. done. }
  rewrite Hv in Hwf. unfold bind at 1.
  destruct (eq_str (PVal v) "FIR") eqn:Hfir; [|done].
  assert (is_FIR (Ok v) = true) as Hfir' by (by destruct v).
  rewrite Hfir' in Hwf. cbn [andb] in Hwf.
  rewrite bind_pure. rewrite <- FIR_model_is_ok in Hwf.
  by destruct (FIR_model rd).
Qed.

(** ** Running a construction *)

Lemma bind_ext {S A B} (m m' : St S A) (k k' : A -> St S B) s :
  (forall s, m s = m' s) -> (forall a s, k a s = k' a s) ->
  bind m k s = bind m' k' s.
Proof.
  intros Hm Hk. unfold bind. rewrite Hm.
  destruct (m' s) as [[a|e] s']; [apply Hk | done].
Qed.

Lemma AudioObject_model_ext rd rd' role :
  (forall d, rd d = rd' d) ->
  AudioObject_model rd role = AudioObject_model rd' role.
Proof. intros Hrd. unfold AudioObject_model. by rewrite (hydrate_ext rd rd'). Qed.

Lemma FIR_model_ext rd rd' :
  (forall d, rd d = rd' d) -> FIR_model rd = FIR_model rd'.
Proof. intros Hrd. unfold FIR_model. by rewrite (hydrate_ext rd rd'). Qed.

Lemma SOFA_model_ext rd rd' o :
  (forall d, rd d = rd' d) -> SOFA_model rd o = SOFA_model rd' o.
Proof.
  intros Hrd. unfold SOFA_model.
  repeat (apply bind_ext; [intros ? | intros ? ?]);
    try done; try (by apply hydrate_ext);
    try (by rewrite (AudioObject_model_ext rd rd')).
  destruct (eq_str _ _); [|done].
  apply bind_ext; [intros ? | done]. by rewrite (FIR_model_ext rd rd').
Qed.

Lemma SOFA_from_file_AFile f o w :
  exists w',
    SOFA_from_file (AFile f) (o, w) =
      ((SOFA_model (read_field w f) o).1,
       ((SOFA_model (read_field w f) o).2, w')) /\
    same_handles w w'.
Proof. apply SOFA_from_file_handle, same_handles_refl. Qed.

Lemma SOFA_from_file_AStr p c o w :
  files w !! p = Some c ->
  exists w1,
    same_handles (open_world p w) w1 /\
    SOFA_from_file (AStr p) (o, w) =
      ((SOFA_model (field_of c) o).1,
       ((SOFA_model (field_of c) o).2,
        if is_ok (SOFA_model (field_of c) o).1
        then close_world (mkFile (next_handle w) p c) w1 else w1)).
Proof.
  intros Hp. rewrite (SOFA_from_file_path p c) by done.
  set (f := mkFile (next_handle w) p c).
  destruct (SOFA_from_file_AFile f o (open_world p w)) as (w1 & -> & Hw1).
  exists w1. split; [done|].
  rewrite (SOFA_model_ext (read_field (open_world p w) f) (field_of c)).
  - by destruct (SOFA_model (field_of c) o) as [[[]|e] o'].
  - intros d. apply (read_field_open (open_world p w) f).
    cbn [opened open_world hid f]. set_solver.
Qed.

Lemma SOFA_from_file_no_file p o w :
  files w !! p = None ->
  SOFA_from_file (AStr p) (o, w) = (Raise (IOError p), (o, w)).
Proof.
  intros Hp. unfold SOFA_from_file.
  cbn [isinstance_str assert str_of].
  unfold bind at 1. unfold bind at 1. cbn [ret open_file]. by rewrite Hp.
Qed.

Lemma SOFA_from_file_run sofa_file w c o :
  source_of sofa_file w = Some c ->
  exists w',
    SOFA_from_file sofa_file (o, w) =
      ((SOFA_model (field_of c) o).1, ((SOFA_model (field_of c) o).2, w')).
Proof.
  destruct sofa_file as [|p|f|z]; cbn [source_of]; try done.
  - intros Hp. destruct (SOFA_from_file_AStr p c o w Hp) as (w1 & _ & ->).
    by eexists.
  - intros [= <-]. destruct (SOFA_from_file_AFile f o w) as (w' & -> & _).
    by eexists.
Qed.

Lemma SOFA_run sofa_file w c :
  truthy sofa_file = true ->
  source_of sofa_file w = Some c ->
  exists w', SOFA sofa_file w = (built (SOFA_model (field_of c) ∅), w').
Proof.
  intros Htrue Hc. unfold SOFA, construct, SOFA_init. rewrite Htrue.
  destruct (SOFA_from_file_run sofa_file w c ∅ Hc) as (w' & ->).
  exists w'. by destruct (SOFA_model (field_of c) ∅) as [[[]|e] o].
Qed.

(** ** The first failing bind *)

Lemma app_split_at {A} (xs ys l1 l2 : list A) d :
  xs ++ ys = l1 ++ d :: l2 ->
  (exists l2', xs = l1 ++ d :: l2' /\ l2 = l2' ++ ys) \/
  (exists l1', l1 = xs ++ l1' /\ ys = l1' ++ d :: l2).
Proof.
  revert l1. induction xs as [|x xs IH]; intros l1 Heq.
  - right. by exists l1.
  - destruct l1 as [|y l1]; simplify_eq/=.
    + left. by exists xs.
    + destruct (IH l1) as [(l2' & -> & ->) | (l1' & -> & ->)]; [done| |].
      * left. by exists l2'.
      * right. by exists l1'.
Qed.

Lemma wellformed_descriptors rd :
  wellformed rd =
  all_accepted rd SOFA_descriptors && is_FIR (rd datatype_descriptor).
Proof.
  unfold wellformed, SOFA_descriptors, root_descriptors.
  rewrite !all_accepted_app.
  repeat (destruct (all_accepted _ _); cbn [andb]; try done);
    by destruct (is_FIR _).
Qed.

Lemma bind_hydrate_first_failure {V B} `{Slot V} rd l1 d l2
    (k : unit -> St (gmap string V) B) o :
  all_accepted rd l1 = true ->
  accepted d (rd d) = false ->
  bind (hydrate rd (l1 ++ d :: l2)) k o =
    (Raise (escalate d (rd d)), (hydrate rd l1 o).2).
Proof.
  intros Hacc Hrej. unfold bind. by rewrite hydrate_first_failure.
Qed.

Lemma AudioObject_model_first_failure rd role l1 d l2 :
  geometry_descriptors role = l1 ++ d :: l2 ->
  all_accepted rd l1 = true ->
  accepted d (rd d) = false ->
  AudioObject_model rd role = Raise (escalate d (rd d)).
Proof.
  intros Hsplit Hacc Hrej. unfold AudioObject_model.
  by rewrite Hsplit, hydrate_first_failure.
Qed.

Lemma FIR_model_first_failure rd l1 d l2 :
  fir_descriptors = l1 ++ d :: l2 ->
  all_accepted rd l1 = true ->
  accepted d (rd d) = false ->
  FIR_model rd = Raise (escalate d (rd d)).
Proof.
  intros Hsplit Hacc Hrej. unfold FIR_model.
  by rewrite Hsplit, hydrate_first_failure.
Qed.

Ltac split_accepted :=
  repeat match goal with
         | H : all_accepted _ (_ ++ _) = true |- _ =>
             rewrite all_accepted_app in H;
             apply andb_true_iff in H as [? ?]
         end.

(** The first read that is not accepted ends the construction, with the
    exception of that bind.  (A field of the [FIR] object is only reached
    when [DataType] is ["FIR"].) *)
Lemma SOFA_model_first_failure rd o l1 d l2 :
  SOFA_descriptors = l1 ++ d :: l2 ->
  all_accepted rd l1 = true ->
  accepted d (rd d) = false ->
  (d ∈ fir_descriptors -> is_FIR (rd datatype_descriptor) = true) ->
  (SOFA_model rd o).1 = Raise (escalate d (rd d)).
Proof.
  intros Hsplit Hacc Hrej Hfir. unfold SOFA_descriptors, root_descriptors in Hsplit.
  rewrite <- app_assoc in Hsplit.
  apply app_split_at in Hsplit as [(l2' & Hseg & _) | (l1' & -> & Hsplit)].
  { unfold SOFA_model. rewrite Hseg. by rewrite bind_hydrate_first_failure. }
  apply app_split_at in Hsplit as [(l2' & Hseg & _) | (l1'' & -> & Hsplit)].
  { split_accepted. unfold SOFA_model. model_step.
    rewrite Hseg. by rewrite bind_hydrate_first_failure. }
  apply app_split_at in Hsplit as [(l2' & Hseg & _) | (l1' & -> & Hsplit)].
  { split_accepted. unfold SOFA_model. do 2 model_step. rewrite bind_pure.
    by rewrite (AudioObject_model_first_failure rd _ _ _ _ Hseg). }
  apply app_split_at in Hsplit as [(l2' & Hseg & _) | (l1'' & -> & Hsplit)].
  { split_accepted. unfold SOFA_model. do 3 model_step. rewrite bind_pure.
    by rewrite (AudioObject_model_first_failure rd _ _ _ _ Hseg). }
  apply app_split_at in Hsplit as [(l2' & Hseg & _) | (l1' & -> & Hsplit)].
  { split_accepted. unfold SOFA_model. do 4 model_step. rewrite bind_pure.
    by rewrite (AudioObject_model_first_failure rd _ _ _ _ Hseg). }
  apply app_split_at in Hsplit as [(l2' & Hseg & _) | (l1'' & -> & Hsplit)].
  { split_accepted. unfold SOFA_model. do 5 model_step. rewrite bind_pure.
    by rewrite (AudioObject_model_first_failure rd _ _ _ _ Hseg). }
  split_accepted.
  destruct (SOFA_model_dispatch rd o) as (v & Hv & ->); try done.
  { unfold root_descriptors. rewrite all_accepted_app. by apply andb_true_iff. }
  rewrite Hv in Hfir. unfold bind at 1.
  assert (eq_str (PVal v) "FIR" = true) as ->.
  { assert (is_FIR (Ok v) = true) as Hv'.
    { apply Hfir. rewrite Hsplit. apply elem_of_app. right. by left. }
    by destruct v. }
  rewrite bind_pure.
  by rewrite (FIR_model_first_failure rd _ _ _ Hsplit).
Qed.

(** ** C3: a missing required field *)

Lemma SOFA_not_wellformed sofa_file w c :
  truthy sofa_file = true ->
  source_of sofa_file w = Some c ->
  wellformed (field_of c) = false ->
  is_ok (SOFA sofa_file w).1 = false.
Proof.
  intros Htrue Hc Hwf. destruct (SOFA_run sofa_file w c Htrue Hc) as (w' & ->).
  cbn [fst]. by rewrite built_is_ok, SOFA_model_is_ok.
Qed.

Lemma SOFA_rejected sofa_file w c d :
  truthy sofa_file = true ->
  source_of sofa_file w = Some c ->
  d ∈ SOFA_descriptors ->
  accepted d (field_of c d) = false ->
  is_ok (SOFA sofa_file w).1 = false.
Proof.
  intros Htrue Hc Hin Hrej. apply (SOFA_not_wellformed sofa_file w c); try done.
  rewrite wellformed_descriptors.
  by rewrite (all_accepted_rejects (field_of c) SOFA_descriptors d).
Qed.

Lemma SOFA_first_failure sofa_file w c l1 d l2 :
  truthy sofa_file = true ->
  source_of sofa_file w = Some c ->
  SOFA_descriptors = l1 ++ d :: l2 ->
  all_accepted (field_of c) l1 = true ->
  accepted d (field_of c d) = false ->
  (d ∈ fir_descriptors -> c_attr c "/" "DataType" = Ok (VStr "FIR")) ->
  (SOFA sofa_file w).1 = Raise (escalate d (field_of c d)).
Proof.
  intros Htrue Hc Hsplit Hacc Hrej Hfir.
  destruct (SOFA_run sofa_file w c Htrue Hc) as (w' & ->). cbn [fst].
  pose proof (SOFA_model_first_failure (field_of c) ∅ l1 d l2 Hsplit Hacc Hrej)
    as Hfail.
  destruct (SOFA_model (field_of c) ∅) as [r o]. cbn [fst] in Hfail.
  rewrite Hfail; [done|].
  intros Hd. unfold datatype_descriptor, field_of. cbn. by rewrite Hfir.
Qed.

Lemma required_rejects_missing d :
  required d = true -> accepted d (Raise AttributeError) = false.
Proof. intros Hreq. unfold accepted. by rewrite Hreq. Qed.

Lemma root_required_split l1 a l2 :
  req_attributes = l1 ++ a :: l2 ->
  SOFA_descriptors =
    map (root_attribute true) l1 ++ root_attribute true a ::
      (map (root_attribute true) l2 ++ root_optional ++
       geometry_descriptors "Listener" ++ geometry_descriptors "Source" ++
       geometry_descriptors "Receiver" ++ geometry_descriptors "Emitter" ++
       fir_descriptors).
Proof.
  intros Hsplit. unfold SOFA_descriptors, root_descriptors, root_required.
  rewrite Hsplit, map_app. cbn [map]. by rewrite <- !app_assoc.
Qed.

Lemma entity_required_missing (build : outcome (gmap string value))
    rd ds d :
  is_ok build = all_accepted rd ds ->
  (forall l1 l2, ds = l1 ++ d :: l2 -> all_accepted rd l1 = true ->
     accepted d (rd d) = false -> build = Raise (escalate d (rd d))) ->
  d ∈ ds -> required d = true -> rd d = Raise AttributeError ->
  is_ok build = false /\
  forall l1 l2, ds = l1 ++ d :: l2 -> all_accepted rd l1 = true ->
                build = Raise (missing_error d).
Proof.
  intros Hok Hfirst Hin Hreq Habs.
  assert (accepted d (rd d) = false) as Hrej
    by (rewrite Habs; by apply required_rejects_missing).
  split.
  - rewrite Hok. by apply (all_accepted_rejects rd ds d).
  - intros l1 l2 Hsplit Hacc. rewrite (Hfirst l1 l2) by done. by rewrite Habs.
Qed.

(** C3. A required field that the container does not hold makes the
    construction fail: [SOFA(sofa_file)] never returns an object then.
    When the binds before it went through, the exception is the one of
    that field, and its message names the missing attribute
    (["Required Attribute <name> not found!"]) or the path of the missing
    dataset (["Required Dataset <path> not found!"]).  This is stated for
    each of the 14 required root attributes, then for every required field
    of the construction ([SOFA_descriptors]: the root attributes, the
    fields of the four audio objects, the fields of the FIR data; a field
    of the FIR data is only reached when [DataType] is ["FIR"]), and for
    an [AudioObject] or a [FIR] built on its own from a handle. *)
Theorem required_field_missing_is_fatal :
  (forall sofa_file w c,
     truthy sofa_file = true ->
     source_of sofa_file w = Some c ->
     (forall a, a ∈ req_attributes ->
        c_attr c "/" a = Raise AttributeError ->
        is_ok (SOFA sofa_file w).1 = false /\
        forall l1 l2,
          req_attributes = l1 ++ a :: l2 ->
          (forall b, b ∈ l1 -> is_ok (c_attr c "/" b) = true) ->
          (SOFA sofa_file w).1 =
            Raise (Exception ("Required Attribute " +:+ a +:+ " not found!"))) /\
     (forall d, d ∈ SOFA_descriptors -> required d = true ->
        field_of c d = Raise AttributeError ->
        is_ok (SOFA sofa_file w).1 = false /\
        forall l1 l2,
          SOFA_descriptors = l1 ++ d :: l2 ->
          all_accepted (field_of c) l1 = true ->
          (d ∈ fir_descriptors -> c_attr c "/" "DataType" = Ok (VStr "FIR")) ->
          (SOFA sofa_file w).1 = Raise (missing_error d))) /\
  (forall role f w d,
     d ∈ geometry_descriptors role -> required d = true ->
     read_field w f d = Raise AttributeError ->
     is_ok (AudioObject role (AFile f) w).1 = false /\
     forall l1 l2,
       geometry_descriptors role = l1 ++ d :: l2 ->
       all_accepted (read_field w f) l1 = true ->
       (AudioObject role (AFile f) w).1 = Raise (missing_error d)) /\
  (forall f w d,
     d ∈ fir_descriptors -> required d = true ->
     read_field w f d = Raise AttributeError ->
     is_ok (FIR (AFile f) w).1 = false /\
     forall l1 l2,
       fir_descriptors = l1 ++ d :: l2 ->
       all_accepted (read_field w f) l1 = true ->
       (FIR (AFile f) w).1 = Raise (missing_error d)).
Proof.
  split; [|split].
  - intros sofa_file w c Htrue Hc.
    assert (Hgen : forall d, d ∈ SOFA_descriptors -> required d = true ->
       field_of c d = Raise AttributeError ->
       is_ok (SOFA sofa_file w).1 = false /\
       forall l1 l2,
         SOFA_descriptors = l1 ++ d :: l2 ->
         all_accepted (field_of c) l1 = true ->
         (d ∈ fir_descriptors -> c_attr c "/" "DataType" = Ok (VStr "FIR")) ->
         (SOFA sofa_file w).1 = Raise (missing_error d)).
    { intros d Hin Hreq Habs.
      assert (accepted d (field_of c d) = false) as Hrej
        by (rewrite Habs; by apply required_rejects_missing).
      split; [by apply (SOFA_rejected sofa_file w c d)|].
      intros l1 l2 Hsplit Hacc Hfir.
      rewrite (SOFA_first_failure sofa_file w c l1 d l2) by done.
      by rewrite Habs. }
    split; [|exact Hgen].
    intros a Hin Habs.
    destruct (Hgen (root_attribute true a)) as [Hfail Hfirst]; try done.
    { unfold SOFA_descriptors. apply elem_of_app. left.
      by apply elem_of_root_required. }
    split; [done|]. intros l1 l2 Hsplit Hl1.
    apply (Hfirst _ _ (root_required_split l1 a l2 Hsplit)).
    + unfold all_accepted. apply forallb_forall. intros d Hd.
      apply in_map_iff in Hd as (b & <- & Hb).
      apply list_elem_of_In, Hl1 in Hb.
      unfold field_of, accepted. cbn. by destruct (c_attr c "/" b).
    + intros Hd. exfalso. unfold fir_descriptors, root_attribute in Hd.
      repeat (apply elem_of_cons in Hd as [Hd|Hd]; [discriminate Hd|]).
      by apply elem_of_nil in Hd.
  - intros role f w d.
    destruct (AudioObject_handle w role f w (same_handles_refl w))
      as (w' & -> & _). cbn [fst].
    apply entity_required_missing.
    + apply AudioObject_model_is_ok.
    + intros l1 l2. apply AudioObject_model_first_failure.
  - intros f w d.
    destruct (FIR_handle w f w (same_handles_refl w)) as (w' & -> & _).
    cbn [fst]. apply entity_required_missing.
    + apply FIR_model_is_ok.
    + intros l1 l2. apply FIR_model_first_failure.
Qed.

Lemma required_field_missing_is_fatal_witness :
  is_ok (SOFA (AStr "measured.sofa") license_missing).1 = false /\
  (SOFA (AStr "measured.sofa") license_missing).1 =
    Raise (Exception "Required Attribute License not found!").
Proof.
  destruct required_field_missing_is_fatal as [Hsofa _].
  destruct (Hsofa (AStr "measured.sofa") license_missing
              (fixture "FIR" "License"))
    as [Hroot _]; [reflexivity | reflexivity |].
  destruct (Hroot "License") as [Hfail Hfirst].
  - apply (bool_decide_unpack _). vm_compute. reflexivity.
  - reflexivity.
  - split; [exact Hfail|].
    apply (Hfirst (take 13 req_attributes) []); [reflexivity|].
    intros b Hb. revert b Hb. apply Forall_forall.
    apply (bool_decide_unpack _). vm_compute. reflexivity.
Defined.

(** ** C4: a missing optional field *)

Lemma SOFA_wellformed sofa_file w c :
  truthy sofa_file = true ->
  source_of sofa_file w = Some c ->
  wellformed (field_of c) = true ->
  exists w', SOFA sofa_file w = (Ok (SOFA_fields (field_of c) ∅), w').
Proof.
  intros Htrue Hc Hwf. destruct (SOFA_run sofa_file w c Htrue Hc) as (w' & ->).
  exists w'. by rewrite SOFA_model_wellformed.
Qed.

Lemma SOFA_ok_wellformed sofa_file w c obj w' :
  truthy sofa_file = true ->
  source_of sofa_file w = Some c ->
  SOFA sofa_file w = (Ok obj, w') ->
  wellformed (field_of c) = true /\ obj = SOFA_fields (field_of c) ∅.
Proof.
  intros Htrue Hc Hrun.
  destruct (wellformed (field_of c)) eqn:Hwf.
  - destruct (SOFA_wellformed sofa_file w c Htrue Hc Hwf) as (w'' & Heq).
    rewrite Heq in Hrun. by simplify_eq.
  - pose proof (SOFA_not_wellformed sofa_file w c Htrue Hc Hwf) as Hfail.
    by rewrite Hrun in Hfail.
Qed.

Lemma wellformed_inv rd :
  wellformed rd = true ->
  all_accepted rd root_descriptors = true /\
  (forall role, role ∈ ["Listener"; "Source"; "Receiver"; "Emitter"] ->
     all_accepted rd (geometry_descriptors role) = true) /\
  is_FIR (rd datatype_descriptor) = true /\
  all_accepted rd fir_descriptors = true.
Proof.
  unfold wellformed. rewrite !andb_true_iff.
  intros [[[[[[[H1 H2] HL] HS] HR] HE] HD] HF].
  repeat split; try done.
  - unfold root_descriptors. rewrite all_accepted_app. by apply andb_true_iff.
  - intros role Hrole.
    repeat (apply elem_of_cons in Hrole as [->|Hrole]; [done|]).
    by apply elem_of_nil in Hrole.
Qed.

Lemma SOFA_fields_root rd o a :
  a ∈ req_attributes ++ other_attributes ->
  SOFA_fields rd o !! a = root_fields rd o !! a.
Proof.
  intros Hin. unfold SOFA_fields.
  rewrite lookup_insert_ne; [by apply with_geometry_lookup|].
  intros <-. revert Hin. apply (bool_decide_unpack _). by vm_compute.
Qed.

Lemma SOFA_fields_geometry rd o role key :
  (role, key) ∈ role_attributes ->
  SOFA_fields rd o !! key = Some (PObj (geometry_fields rd role)).
Proof.
  intros Hin. unfold role_attributes in Hin.
  repeat (apply elem_of_cons in Hin as [[= -> ->]|Hin];
          [unfold SOFA_fields, with_geometry; by simplify_map_eq|]).
  by apply elem_of_nil in Hin.
Qed.

Lemma SOFA_fields_data rd o :
  SOFA_fields rd o !! "data" = Some (PObj (fir_fields rd)).
Proof. unfold SOFA_fields. apply lookup_insert_eq. Qed.

Lemma geometry_destinations_NoDup role :
  NoDup (map destination (geometry_descriptors role)).
Proof. apply (bool_decide_unpack _). by vm_compute. Qed.

Lemma fir_destinations_NoDup : NoDup (map destination fir_descriptors).
Proof. apply (bool_decide_unpack _). by vm_compute. Qed.

Lemma geometry_fields_lookup rd role d :
  all_accepted rd (geometry_descriptors role) = true ->
  d ∈ geometry_descriptors role ->
  geometry_fields rd role !! destination d =
    match rd d with
    | Ok v => Some v
    | Raise _ => None
    end.
Proof.
  intros Hall Hin. unfold geometry_fields.
  rewrite (hydrate_lookup (V:=value) rd _ _ d
             (geometry_destinations_NoDup role) Hall Hin).
  destruct (rd d) as [v|e]; [done|].
  unfold setattr. rewrite lookup_insert_ne, lookup_empty; [done|].
  unfold geometry_descriptors in Hin.
  repeat (apply elem_of_cons in Hin as [->|Hin]; [done|]).
  by apply elem_of_nil in Hin.
Qed.

Lemma fir_fields_lookup rd d :
  all_accepted rd fir_descriptors = true ->
  d ∈ fir_descriptors ->
  fir_fields rd !! destination d =
    match rd d with
    | Ok v => Some v
    | Raise _ => None
    end.
Proof.
  intros Hall Hin. unfold fir_fields.
  rewrite (hydrate_lookup (V:=value) rd _ _ d fir_destinations_NoDup Hall Hin).
  by destruct (rd d).
Qed.

(** C4. An optional field that the container does not hold does not stop
    the construction, and is then left unset on the object: on a
    container whose required fields are all there ([wellformed], which
    lets every optional field be present or not found), [SOFA(sofa_file)]
    returns an object on which each of the 6 optional root attributes,
    and each of [Description], [View], [Up] of the four audio objects, is
    the value read when there is one and has no entry in the object's
    dictionary when there is none.  No value (empty string and zero
    included) is stored for an absent field. *)
Theorem optional_field_absent_is_unset sofa_file w c :
  truthy sofa_file = true ->
  source_of sofa_file w = Some c ->
  wellformed (field_of c) = true ->
  exists obj w',
    SOFA sofa_file w = (Ok obj, w') /\
    (forall a, a ∈ other_attributes ->
       obj !! a =
         match c_attr c "/" a with
         | Ok v => Some (PVal v)
         | Raise _ => None
         end) /\
    (forall role key, (role, key) ∈ role_attributes ->
       exists g, obj !! key = Some (PObj g) /\
         forall p, p ∈ ["Description"; "View"; "Up"] ->
           g !! p =
             match c_node c ("/" +:+ role +:+ p) with
             | Ok v => Some v
             | Raise _ => None
             end).
Proof.
  intros Htrue Hc Hwf.
  destruct (SOFA_wellformed sofa_file w c Htrue Hc Hwf) as (w' & Hrun).
  destruct (wellformed_inv _ Hwf) as (Hroot & Hgeo & _ & _).
  exists (SOFA_fields (field_of c) ∅), w'. split; [done|]. split.
  - intros a Ha. rewrite SOFA_fields_root by (apply elem_of_app; by right).
    rewrite (root_fields_lookup (field_of c) ∅ false a Hroot)
      by (by apply elem_of_root_optional).
    unfold field_of. cbn. by destruct (c_attr c "/" a).
  - intros role key Hrk. exists (geometry_fields (field_of c) role).
    split; [by apply SOFA_fields_geometry|].
    assert (Hrole : role ∈ ["Listener"; "Source"; "Receiver"; "Emitter"]).
    { unfold role_attributes in Hrk.
      repeat (apply elem_of_cons in Hrk as [[= -> ->]|Hrk];
              [apply (bool_decide_unpack _); by vm_compute|]).
      by apply elem_of_nil in Hrk. }
    intros p Hp.
    assert (Hfield : forall q, q ∈ ["Description"; "View"; "Up"] ->
              mkDescriptor ("/" +:+ role +:+ q) Dataset (Some q) false
              ∈ geometry_descriptors role).
    { intros q Hq. unfold geometry_descriptors.
      repeat (apply elem_of_cons in Hq as [->|Hq];
              [rewrite !elem_of_cons; tauto|]).
      by apply elem_of_nil in Hq. }
    pose proof (geometry_fields_lookup (field_of c) role _
                  (Hgeo role Hrole) (Hfield p Hp)) as Hlook.
    repeat (apply elem_of_cons in Hp as [->|Hp]; [exact Hlook|]).
    by apply elem_of_nil in Hp.
Qed.

Lemma optional_field_absent_is_unset_witness :
  exists obj w',
    SOFA (AStr "measured.sofa") plain_fixture = (Ok obj, w') /\
    obj !! "Comment" = None /\
    exists g, obj !! "listener" = Some (PObj g) /\ g !! "View" = None.
Proof.
  destruct (optional_field_absent_is_unset (AStr "measured.sofa")
              plain_fixture (fixture "FIR" ""))
    as (obj & w' & Hrun & Hattrs & Hgeo);
    [reflexivity | reflexivity | vm_compute; reflexivity |].
  exists obj, w'. split; [exact Hrun|]. split.
  - rewrite (Hattrs "Comment"); [reflexivity|].
    apply (bool_decide_unpack _). vm_compute. reflexivity.
  - destruct (Hgeo "Listener" "listener") as (g & Hg & Hfields).
    + apply (bool_decide_unpack _). vm_compute. reflexivity.
    + exists g. split; [exact Hg|].
      rewrite (Hfields "View"); [reflexivity|].
      apply (bool_decide_unpack _). vm_compute. reflexivity.
Defined.

(** ** C5: the dispatch on [DataType] *)

(** Against C5 as stated: on a container that is complete but for its
    [DataType], which is ["XYZ"], the exception raised does not mention
    ["XYZ"]. *)
Lemma unsupported_message_omits_tag :
  (SOFA (AStr "measured.sofa") xyz_fixture).1 =
    Raise (Exception "Currently only the Datatype FIR is Implemented") /\
  forall e, (SOFA (AStr "measured.sofa") xyz_fixture).1 = Raise e ->
            names e "XYZ" = false.
Proof.
  assert ((SOFA (AStr "measured.sofa") xyz_fixture).1 =
          Raise (Exception "Currently only the Datatype FIR is Implemented"))
    as Hrun by (vm_compute; reflexivity).
  split; [exact Hrun|]. intros e He. rewrite Hrun in He.
  injection He as <-. reflexivity.
Qed.

(** C5, amended. A [DataType] other than ["FIR"] makes the construction
    fail: [SOFA(sofa_file)] never returns an object then.  When the root
    attributes and the four audio objects were bound, the exception is
    [Exception('Currently only the Datatype FIR is Implemented')], one
    fixed message for every tag. *)
Theorem unsupported_data_type_is_fatal sofa_file w c tag :
  truthy sofa_file = true ->
  source_of sofa_file w = Some c ->
  c_attr c "/" "DataType" = Ok (VStr tag) ->
  tag ≠ "FIR" ->
  is_ok (SOFA sofa_file w).1 = false /\
  (all_accepted (field_of c) root_descriptors = true ->
   (forall role, role ∈ ["Listener"; "Source"; "Receiver"; "Emitter"] ->
      all_accepted (field_of c) (geometry_descriptors role) = true) ->
   (SOFA sofa_file w).1 =
     Raise (Exception "Currently only the Datatype FIR is Implemented")).
Proof.
  intros Htrue Hc Htag Hne.
  assert (String.eqb tag "FIR" = false) as Heqb by (by apply String.eqb_neq).
  split.
  - apply (SOFA_not_wellformed sofa_file w c); try done.
    rewrite wellformed_descriptors.
    unfold datatype_descriptor, field_of. cbn. rewrite Htag. cbn.
    rewrite Heqb. apply andb_false_r.
  - intros Hroot Hgeo.
    destruct (SOFA_run sofa_file w c Htrue Hc) as (w' & ->). cbn [fst].
    destruct (SOFA_model_dispatch (field_of c) ∅) as (v & Hv & ->);
      try done; try (apply Hgeo; apply (bool_decide_unpack _); by vm_compute).
    unfold datatype_descriptor, field_of in Hv. cbn in Hv.
    rewrite Htag in Hv. injection Hv as <-.
    unfold bind at 1. cbn [eq_str]. by rewrite Heqb.
Qed.

Lemma unsupported_data_type_is_fatal_witness :
  is_ok (SOFA (AStr "measured.sofa") xyz_fixture).1 = false /\
  (SOFA (AStr "measured.sofa") xyz_fixture).1 =
    Raise (Exception "Currently only the Datatype FIR is Implemented").
Proof.
  destruct (unsupported_data_type_is_fatal (AStr "measured.sofa") xyz_fixture
              (fixture "XYZ" "") "XYZ")
    as [Hfail Hmsg]; [reflexivity | reflexivity | reflexivity | discriminate |].
  split; [exact Hfail|]. apply Hmsg.
  - vm_compute. reflexivity.
  - apply Forall_forall. apply (bool_decide_unpack _). vm_compute. reflexivity.
Defined.

(** ** C6: failures other than "not found" *)

(** C6. A read that fails with anything but [AttributeError] ends the
    bind with that exception, whatever [required] says, in [_add_data]
    and in [_add_attribute]; with [required] false, only
    [AttributeError] is turned into the return value 1, the object left
    as it was.  Hence a field of the construction, required or not, whose
    read fails in that way makes [SOFA(sofa_file)] fail, with that very
    exception when the binds before it went through. *)
Theorem read_failure_always_escalates :
  (forall V (H : Slot V) f node req nm (o : gmap string V) w e,
     read_node w f node = Raise e -> e ≠ AttributeError ->
     _add_data f node req nm (o, w) =
       (Raise e, (o, log (EvReadNode (hid f) node) w))) /\
  (forall V (H : Slot V) f node a req nm (o : gmap string V) w e,
     read_attr w f node a = Raise e -> e ≠ AttributeError ->
     _add_attribute f node a req nm (o, w) =
       (Raise e, (o, log (EvReadAttr (hid f) node a) w))) /\
  (forall V (H : Slot V) f node nm (o : gmap string V) w,
     read_node w f node = Raise AttributeError ->
     _add_data f node false nm (o, w) =
       (Ok 1, (o, log (EvReadNode (hid f) node) w))) /\
  (forall V (H : Slot V) f node a nm (o : gmap string V) w,
     read_attr w f node a = Raise AttributeError ->
     _add_attribute f node a false nm (o, w) =
       (Ok 1, (o, log (EvReadAttr (hid f) node a) w))) /\
  (forall sofa_file w c d e,
     truthy sofa_file = true ->
     source_of sofa_file w = Some c ->
     d ∈ SOFA_descriptors ->
     field_of c d = Raise e -> e ≠ AttributeError ->
     is_ok (SOFA sofa_file w).1 = false /\
     forall l1 l2,
       SOFA_descriptors = l1 ++ d :: l2 ->
       all_accepted (field_of c) l1 = true ->
       (d ∈ fir_descriptors -> c_attr c "/" "DataType" = Ok (VStr "FIR")) ->
       (SOFA sofa_file w).1 = Raise e).
Proof.
  split; [|split; [|split; [|split]]].
  - intros V H f node req nm o w e Hr He. rewrite _add_data_unfold, Hr.
    by destruct e.
  - intros V H f node a req nm o w e Hr He. rewrite _add_attribute_unfold, Hr.
    by destruct e.
  - intros V H f node nm o w Hr. by rewrite _add_data_unfold, Hr.
  - intros V H f node a nm o w Hr. by rewrite _add_attribute_unfold, Hr.
  - intros sofa_file w c d e Htrue Hc Hin Hr He.
    assert (accepted d (field_of c d) = false) as Hrej
      by (rewrite Hr; by destruct e).
    split; [by apply (SOFA_rejected sofa_file w c d)|].
    intros l1 l2 Hsplit Hacc Hfir.
    rewrite (SOFA_first_failure sofa_file w c l1 d l2) by done.
    rewrite Hr. by destruct e.
Qed.

Lemma read_failure_always_escalates_witness :
  is_ok (SOFA (AStr "measured.sofa") corrupt_fixture).1 = false /\
  (SOFA (AStr "measured.sofa") corrupt_fixture).1 =
    Raise (OtherError "HDF5ExtError").
Proof.
  destruct read_failure_always_escalates as (_ & _ & _ & _ & Hsofa).
  destruct (Hsofa (AStr "measured.sofa") corrupt_fixture corrupt_comment
              (root_attribute false "Comment") (OtherError "HDF5ExtError"))
    as [Hfail Hexn]; [reflexivity | reflexivity | | reflexivity | discriminate |].
  - apply (bool_decide_unpack _). vm_compute. reflexivity.
  - split; [exact Hfail|].
    apply (Hexn (take 16 SOFA_descriptors) (drop 17 SOFA_descriptors)).
    + reflexivity.
    + vm_compute. reflexivity.
    + intros Hd. exfalso. revert Hd. apply (bool_decide_unpack _).
      vm_compute. reflexivity.
Defined.

(** ** C7: a handle of the caller *)

Lemma AudioObject_from_file_frame f o w :
  same_handles w (AudioObject_from_file (AFile f) (o, w)).2.2.
Proof.
  destruct (o !! "object_string") as [v|] eqn:Ho.
  - destruct v as [role|z|shape bits].
    + rewrite (AudioObject_from_file_handle f role) by done.
      destruct (runs_as_bindAll (V:=value) w f (geometry_descriptors role) o w
                  (same_handles_refl w)) as (w' & -> & Hw').
      done.
    + unfold AudioObject_from_file. cbn [for_].
      unfold bind, get_object_string, ret. cbv beta iota.
      rewrite Ho. apply same_handles_refl.
    + unfold AudioObject_from_file. cbn [for_].
      unfold bind, get_object_string, ret. cbv beta iota.
      rewrite Ho. apply same_handles_refl.
  - unfold AudioObject_from_file. cbn [for_].
    unfold bind, get_object_string, ret. cbv beta iota.
    rewrite Ho. apply same_handles_refl.
Qed.

Lemma FIR_from_file_frame f o w :
  same_handles w (FIR_from_file (AFile f) (o, w)).2.2.
Proof.
  rewrite FIR_from_file_handle.
  by destruct (runs_as_bindAll (V:=value) w f fir_descriptors o w
                 (same_handles_refl w)) as (w' & -> & Hw').
Qed.

(** C7. A construction on a handle of the caller leaves the handle as it
    was: [from_file] of [SOFA], [AudioObject] and [FIR], and the three
    class calls, whether they return or raise, only read.  The set of
    open handles is the same afterwards, the trace has grown by reads
    only (no [close]), and so every read through the handle yields
    afterwards what it yielded before. *)
Theorem caller_handle_is_never_closed f :
  (forall o w, same_handles w (SOFA_from_file (AFile f) (o, w)).2.2) /\
  (forall o w, same_handles w (AudioObject_from_file (AFile f) (o, w)).2.2) /\
  (forall o w, same_handles w (FIR_from_file (AFile f) (o, w)).2.2) /\
  (forall w, same_handles w (SOFA (AFile f) w).2) /\
  (forall role w, same_handles w (AudioObject role (AFile f) w).2) /\
  (forall w, same_handles w (FIR (AFile f) w).2) /\
  (forall w w', same_handles w w' ->
     opened w' = opened w /\
     (forall node, read_node w' f node = read_node w f node) /\
     (forall node a, read_attr w' f node a = read_attr w f node a)).
Proof.
  split; [|split; [|split; [|split; [|split; [|split]]]]].
  - intros o w. by destruct (SOFA_from_file_AFile f o w) as (w' & -> & Hw').
  - apply AudioObject_from_file_frame.
  - apply FIR_from_file_frame.
  - intros w. unfold SOFA, construct, SOFA_init. cbn [truthy].
    destruct (SOFA_from_file_AFile f ∅ w) as (w' & -> & Hw').
    by destruct (SOFA_model _ _) as [[[]|e] o].
  - intros role w.
    by destruct (AudioObject_handle w role f w (same_handles_refl w))
      as (w' & -> & Hw').
  - intros w.
    by destruct (FIR_handle w f w (same_handles_refl w)) as (w' & -> & Hw').
  - intros w w' (_ & _ & Ho & _). split; [done|].
    unfold read_node, read_attr. by rewrite Ho.
Qed.

Lemma caller_handle_is_never_closed_witness :
  opened (SOFA (AFile measured) measured_open).2 = opened measured_open /\
  read_node (SOFA (AFile measured) measured_open).2 measured "/Data.IR" =
    read_node measured_open measured "/Data.IR".
Proof.
  destruct (caller_handle_is_never_closed measured)
    as (_ & _ & _ & Hsofa & _ & _ & Husable).
  destruct (Husable measured_open (SOFA (AFile measured) measured_open).2
              (Hsofa measured_open)) as (Hopened & Hnode & _).
  split; [exact Hopened | apply Hnode].
Defined.

(** ** C2: the handle opened from a path *)

(** C2 fails on the code: a construction from a path that fails on a
    missing [License] leaves the handle it opened (handle 0) open, and
    has logged no [close].  The module means to close what it opened
    ("If the file was opened within this function, close it", and the
    [close()] that ends [SOFA.from_file]); the [close()] is the last
    statement of a body without [try]/[finally], so a raise skips it. *)
Lemma handle_left_open_on_failure :
  (SOFA (AStr "measured.sofa") license_missing).1 =
    Raise (Exception "Required Attribute License not found!") /\
  opened license_missing = ∅ /\
  elements (opened (SOFA (AStr "measured.sofa") license_missing).2) = [0%nat] /\
  last (trace (SOFA (AStr "measured.sofa") license_missing).2) =
    Some (EvReadAttr 0 "/" "License").
Proof. vm_compute. repeat split. Qed.




(** ** C8: the length of an audio object *)

Lemma AudioObject_from_file_no_file p o w :
  files w !! "dtf_nh2.sofa" = None ->
  AudioObject_from_file (AStr p) (o, w) = (Raise (IOError "dtf_nh2.sofa"), (o, w)).
Proof.
  intros Hp. unfold AudioObject_from_file. cbn [isinstance_str assert].
  unfold bind at 1. unfold bind at 1. cbn [ret open_file]. by rewrite Hp.
Qed.

(** A successful construction of an [AudioObject] from a file has read
    all the fields of its role from some container, and holds them. *)
Lemma AudioObject_ok role sofa_file w obj w' :
  truthy sofa_file = true ->
  AudioObject role sofa_file w = (Ok obj, w') ->
  exists c, all_accepted (field_of c) (geometry_descriptors role) = true /\
            obj = geometry_fields (field_of c) role.
Proof.
  intros Htrue. unfold AudioObject, construct, AudioObject_init.
  rewrite Htrue. unfold bind at 1. cbn [do_setattr].
  assert (Hrole : has_role role (setattr "object_string" (VStr role) ∅, w))
    by (unfold has_role, setattr; cbn [fst]; apply lookup_insert_eq).
  destruct sofa_file as [|p|f|z]; try done.
  - destruct (files w !! "dtf_nh2.sofa") as [c|] eqn:Hp.
    + rewrite (AudioObject_from_file_path p c) by done.
      set (f := mkFile (next_handle w) "dtf_nh2.sofa" c).
      set (w0 := open_world "dtf_nh2.sofa" w).
      rewrite (AudioObject_from_file_handle f role) by done.
      destruct (runs_as_bindAll (V:=value) w0 f (geometry_descriptors role)
                  (setattr "object_string" (VStr role) ∅) w0
                  (same_handles_refl w0)) as (w1 & -> & _).
      destruct (hydrate _ _ _) as [[[]|e] o'] eqn:Hh; cbn [finish fst snd];
        [|done].
      intros [= <- <-]. exists (view w0 f).
      change (field_of (view w0 f)) with (read_field w0 f). split.
      * by rewrite <- (hydrate_is_ok (V:=value) (read_field w0 f) _
                         (setattr "object_string" (VStr role) ∅)), Hh.
      * unfold geometry_fields. by rewrite Hh.
    + rewrite AudioObject_from_file_no_file by done. done.
  - rewrite (AudioObject_from_file_handle f role) by done.
    destruct (runs_as_bindAll (V:=value) w f (geometry_descriptors role)
                (setattr "object_string" (VStr role) ∅) w
                (same_handles_refl w)) as (w1 & -> & _).
    destruct (hydrate _ _ _) as [[[]|e] o'] eqn:Hh; cbn [fst snd]; [|done].
    intros [= <- <-]. exists (view w f).
    change (field_of (view w f)) with (read_field w f). split.
    * by rewrite <- (hydrate_is_ok (V:=value) (read_field w f) _
                       (setattr "object_string" (VStr role) ∅)), Hh.
    * unfold geometry_fields. by rewrite Hh.
Qed.

(** C8. The length of an [AudioObject] built from a file is the length
    of the value bound to its [Position]: after a successful
    construction [Position] is bound, [__len__] returns [len] of it, and
    for an array that is its outer extent, the first entry of its
    shape. *)
Theorem len_is_outer_extent_of_position role sofa_file w obj w' :
  truthy sofa_file = true ->
  AudioObject role sofa_file w = (Ok obj, w') ->
  exists v,
    obj !! "Position" = Some v /\
    AudioObject_len obj = py_len v /\
    forall n shape bits,
      v = VArray (n :: shape) bits -> AudioObject_len obj = Ok (Z.of_nat n).
Proof.
  intros Htrue Hrun.
  destruct (AudioObject_ok role sofa_file w obj w' Htrue Hrun) as (c & Hacc & ->).
  set (d := mkDescriptor ("/" +:+ role +:+ "Position") Dataset (Some "Position") true).
  assert (Hd : d ∈ geometry_descriptors role) by (by left).
  destruct (accepted_required d (field_of c d)) as [v Hv]; [done| |].
  { by apply (all_accepted_elem (field_of c) (geometry_descriptors role)). }
  pose proof (geometry_fields_lookup (field_of c) role d Hacc Hd) as Hlook.
  rewrite Hv in Hlook. change (destination d) with "Position" in Hlook.
  exists v. unfold AudioObject_len. rewrite Hlook.
  split; [done|]. split; [done|]. by intros n shape bits ->.
Qed.

Lemma len_is_outer_extent_of_position_witness :
  exists obj w',
    AudioObject "Listener" (AFile measured) measured_open = (Ok obj, w') /\
    AudioObject_len obj = Ok 2.
Proof.
  destruct (AudioObject_handle measured_open "Listener" measured measured_open
              (same_handles_refl _)) as (w' & Hrun & _).
  rewrite AudioObject_model_accepted in Hrun by (vm_compute; reflexivity).
  eexists _, w'. split; [exact Hrun|].
  destruct (len_is_outer_extent_of_position "Listener" (AFile measured)
              measured_open _ w' eq_refl Hrun) as (v & Hv & _ & Harray).
  apply (Harray 2%nat [3%nat] [0; 0; 0; 0; 0; 0]).
  assert (geometry_fields (read_field measured_open measured) "Listener"
            !! "Position" = Some (VArray [2%nat; 3%nat] [0; 0; 0; 0; 0; 0]))
    as Hpos by (vm_compute; reflexivity).
  rewrite Hpos in Hv. by injection Hv as <-.
Defined.

(** ** C9: what a failed construction leaves behind *)

Lemma SOFA_ok_source sofa_file w obj w' :
  truthy sofa_file = true ->
  SOFA sofa_file w = (Ok obj, w') ->
  is_Some (source_of sofa_file w).
Proof.
  intros Htrue. unfold SOFA, construct, SOFA_init. rewrite Htrue.
  destruct sofa_file as [|p|f|z]; cbn [source_of]; [done| |by eexists|].
  - destruct (files w !! p) eqn:Hp; [by eexists|].
    by rewrite SOFA_from_file_no_file.
  - unfold SOFA_from_file. cbn [isinstance_str assert].
    unfold bind at 1. unfold bind at 1. by cbn [raise].
Qed.

Lemma root_fields_required rd o a :
  all_accepted rd root_descriptors = true ->
  a ∈ req_attributes ->
  exists v, rd (root_attribute true a) = Ok v /\
            root_fields rd o !! a = Some (PVal v).
Proof.
  intros Hall Hin.
  pose proof (elem_of_root_required a Hin) as Hd.
  destruct (accepted_required (root_attribute true a) (rd (root_attribute true a)))
    as [v Hv]; [done| |].
  { by apply (all_accepted_elem rd root_descriptors). }
  exists v. split; [done|].
  by rewrite (root_fields_lookup rd o true a Hall Hd), Hv.
Qed.

Lemma required_field_bound {V} `{Slot V} rd ds (o : gmap string V) d :
  all_accepted rd ds = true -> d ∈ ds -> required d = true ->
  is_Some ((hydrate rd ds o).2 !! destination d).
Proof.
  revert o. induction ds as [|d0 ds IH]; intros o Hall Hin Hreq.
  { by apply elem_of_nil in Hin. }
  cbn [all_accepted forallb] in Hall.
  apply andb_true_iff in Hall as [Hacc Hall].
  rewrite hydrate_cons_accepted by done.
  apply elem_of_cons in Hin as [->|Hin]; [|by apply IH].
  destruct (accepted_required d0 (rd d0) Hreq Hacc) as [v ->].
  apply hydrate_lookup_is_Some. unfold setattr.
  rewrite lookup_insert_eq. by eexists.
Qed.

Lemma geometry_required_fields role :
  forall p, p ∈ ["Position"; "PositionType"; "PositionUnits"] ->
    exists d, d ∈ geometry_descriptors role /\ required d = true /\
              destination d = p.
Proof.
  intros p Hp.
  apply elem_of_cons in Hp as [->|Hp];
    [eexists; split; [by apply (list_elem_of_lookup_2 _ 0%nat)|done]|].
  apply elem_of_cons in Hp as [->|Hp];
    [eexists; split; [by apply (list_elem_of_lookup_2 _ 1%nat)|done]|].
  apply elem_of_cons in Hp as [->|Hp];
    [eexists; split; [by apply (list_elem_of_lookup_2 _ 2%nat)|done]|].
  by apply elem_of_nil in Hp.
Qed.

Lemma fir_required_fields :
  forall p, p ∈ ["IR"; "Delay"; "SamplingRate"; "SamplingRateUnits"] ->
    exists d, d ∈ fir_descriptors /\ required d = true /\ destination d = p.
Proof.
  intros p Hp.
  apply elem_of_cons in Hp as [->|Hp];
    [eexists; split; [by apply (list_elem_of_lookup_2 _ 0%nat)|done]|].
  apply elem_of_cons in Hp as [->|Hp];
    [eexists; split; [by apply (list_elem_of_lookup_2 _ 1%nat)|done]|].
  apply elem_of_cons in Hp as [->|Hp];
    [eexists; split; [by apply (list_elem_of_lookup_2 _ 2%nat)|done]|].
  apply elem_of_cons in Hp as [->|Hp];
    [eexists; split; [by apply (list_elem_of_lookup_2 _ 3%nat)|done]|].
  by apply elem_of_nil in Hp.
Qed.

(** Against C9 as stated: [from_file], called on an empty [SOFA] object
    with a file that lacks [License], raises and leaves the thirteen
    attributes bound before [License] on the object. *)
Lemma failed_from_file_leaves_fields :
  (SOFA_from_file (AStr "measured.sofa") (∅, license_missing)).1 =
    Raise (Exception "Required Attribute License not found!") /\
  partial_object !! "Conventions" = Some (PVal (VStr "x")) /\
  partial_object !! "DataType" = Some (PVal (VStr "FIR")) /\
  size partial_object = 13%nat.
Proof. vm_compute. repeat split. Qed.

(** C9, amended. A class call [SOFA(sofa_file)] on a file either raises,
    and then hands no object to the caller, or returns an object on which
    every required field is bound: the 14 root attributes, [Position],
    [PositionType] and [PositionUnits] of the four audio objects, and
    [IR], [Delay], [SamplingRate] and [SamplingRateUnits] of the data.
    [from_file] itself does not undo anything: when it raises on a
    missing required root attribute, the object it was called on keeps
    the root attributes bound before that one. *)
Theorem construction_returns_complete_object sofa_file w :
  truthy sofa_file = true ->
  (forall obj w', SOFA sofa_file w = (Ok obj, w') ->
     (forall a, a ∈ req_attributes -> exists v, obj !! a = Some (PVal v)) /\
     (forall role key, (role, key) ∈ role_attributes ->
        exists g, obj !! key = Some (PObj g) /\
          forall p, p ∈ ["Position"; "PositionType"; "PositionUnits"] ->
                    is_Some (g !! p)) /\
     (exists g, obj !! "data" = Some (PObj g) /\
        forall p, p ∈ ["IR"; "Delay"; "SamplingRate"; "SamplingRateUnits"] ->
                  is_Some (g !! p))) /\
  (forall c o l1 a l2,
     source_of sofa_file w = Some c ->
     req_attributes = l1 ++ a :: l2 ->
     (forall b, b ∈ l1 -> is_ok (c_attr c "/" b) = true) ->
     c_attr c "/" a = Raise AttributeError ->
     is_ok (SOFA_from_file sofa_file (o, w)).1 = false /\
     forall b, b ∈ l1 ->
       exists v, c_attr c "/" b = Ok v /\
                 (SOFA_from_file sofa_file (o, w)).2.1 !! b = Some (PVal v)).
Proof.
  intros Htrue. split.
  - intros obj w' Hrun.
    destruct (SOFA_ok_source sofa_file w obj w' Htrue Hrun) as [c Hc].
    destruct (SOFA_ok_wellformed sofa_file w c obj w' Htrue Hc Hrun) as [Hwf ->].
    destruct (wellformed_inv _ Hwf) as (Hroot & Hgeo & _ & Hfir).
    split; [|split].
    + intros a Ha.
      destruct (root_fields_required (field_of c) ∅ a Hroot Ha) as (v & _ & Hv).
      exists v. rewrite SOFA_fields_root; [done|]. apply elem_of_app. by left.
    + intros role key Hrk. exists (geometry_fields (field_of c) role).
      split; [by apply SOFA_fields_geometry|].
      assert (Hrole : role ∈ ["Listener"; "Source"; "Receiver"; "Emitter"]).
      { unfold role_attributes in Hrk.
        repeat (apply elem_of_cons in Hrk as [[= -> ->]|Hrk];
                [apply (bool_decide_unpack _); by vm_compute|]).
        by apply elem_of_nil in Hrk. }
      intros p Hp. unfold geometry_fields.
      destruct (geometry_required_fields role p Hp) as (d & Hd & Hreq & <-).
      by apply required_field_bound; [apply Hgeo| |].
    + exists (fir_fields (field_of c)). split; [apply SOFA_fields_data|].
      intros p Hp. unfold fir_fields.
      destruct (fir_required_fields p Hp) as (d & Hd & Hreq & <-).
      by apply required_field_bound.
  - intros c o l1 a l2 Hc Hsplit Hl1 Habs.
    destruct (SOFA_from_file_run sofa_file w c o Hc) as (w' & ->).
    assert (Hacc : all_accepted (field_of c) (map (root_attribute true) l1) = true).
    { unfold all_accepted. apply forallb_forall. intros d Hd.
      apply in_map_iff in Hd as (b & <- & Hb).
      apply list_elem_of_In, Hl1 in Hb.
      unfold field_of, accepted. cbn. by destruct (c_attr c "/" b). }
    assert (Hmodel : SOFA_model (field_of c) o =
              (Raise (escalate (root_attribute true a)
                        (field_of c (root_attribute true a))),
               (hydrate (field_of c) (map (root_attribute true) l1) o).2)).
    { unfold SOFA_model, root_required. rewrite Hsplit, map_app. cbn [map].
      apply bind_hydrate_first_failure; [done|].
      unfold field_of. cbn. by rewrite Habs. }
    rewrite Hmodel. cbn [fst snd]. split; [done|].
    intros b Hb.
    assert (Hnd : NoDup (map destination (map (root_attribute true) l1))).
    { rewrite map_map. cbn. rewrite map_id.
      assert (NoDup req_attributes) as Hreq
        by (apply (bool_decide_unpack _); by vm_compute).
      rewrite Hsplit in Hreq. by apply NoDup_app in Hreq as [? _]. }
    assert (Hd : root_attribute true b ∈ map (root_attribute true) l1)
      by (apply list_elem_of_fmap; by exists b).
    pose proof (hydrate_lookup (field_of c) _ o _ Hnd Hacc Hd) as Hlook.
    pose proof (Hl1 b Hb) as Hok.
    change (field_of c (root_attribute true b)) with (c_attr c "/" b) in Hlook.
    change (destination (root_attribute true b)) with b in Hlook.
    destruct (c_attr c "/" b) as [v|e]; [|done].
    exists v. split; [done | exact Hlook].
Qed.

Lemma construction_returns_complete_object_witness :
  (exists obj w' v,
     SOFA (AStr "measured.sofa") plain_fixture = (Ok obj, w') /\
     obj !! "License" = Some (PVal v)) /\
  is_ok (SOFA_from_file (AStr "measured.sofa") (∅, license_missing)).1 = false /\
  exists v, partial_object !! "Organization" = Some (PVal v).
Proof.
  destruct (construction_returns_complete_object (AStr "measured.sofa")
              plain_fixture eq_refl) as [Hok _].
  destruct (construction_returns_complete_object (AStr "measured.sofa")
              license_missing eq_refl) as [_ Hfail].
  split.
  - destruct (SOFA_wellformed (AStr "measured.sofa") plain_fixture
                (fixture "FIR" "")) as (w' & Hrun);
      [reflexivity | reflexivity | vm_compute; reflexivity |].
    destruct (Hok _ w' Hrun) as (Hroot & _).
    destruct (Hroot "License") as [v Hv].
    { apply (bool_decide_unpack _). vm_compute. reflexivity. }
    exists (SOFA_fields (field_of (fixture "FIR" "")) ∅), w', v.
    split; [exact Hrun | exact Hv].
  - destruct (Hfail (fixture "FIR" "License") ∅ (take 13 req_attributes)
                "License" []) as [Hraise Hkept].
    + reflexivity.
    + reflexivity.
    + apply Forall_forall. apply (bool_decide_unpack _). vm_compute. reflexivity.
    + reflexivity.
    + split; [exact Hraise|].
      destruct (Hkept "Organization") as (v & _ & Hv).
      { apply (bool_decide_unpack _). vm_compute. reflexivity. }
      exists v. exact Hv.
Defined.

(** ** C10: no file given *)

(** C10. With a falsy [sofa_file] ([None], the empty string), the three
    class calls raise nothing and touch nothing: the world, and with it
    the trace of opens and reads, is the one before the call.  The [SOFA]
    and [FIR] objects returned have no attribute at all; the
    [AudioObject] has its [object_string], the constructor argument, and
    no field of a file.  The empty string is thus taken for "no file",
    not rejected. *)
Theorem falsy_argument_reads_nothing sofa_file role w :
  truthy sofa_file = false ->
  SOFA sofa_file w = (Ok ∅, w) /\
  FIR sofa_file w = (Ok ∅, w) /\
  AudioObject role sofa_file w = (Ok {[ "object_string" := VStr role ]}, w).
Proof.
  intros Hfalse.
  unfold SOFA, FIR, AudioObject, construct, SOFA_init, FIR_init,
    AudioObject_init.
  rewrite Hfalse. unfold bind, ret, do_setattr, setattr.
  by rewrite insert_empty.
Qed.

Lemma falsy_argument_reads_nothing_witness :
  truthy ANone = false /\ truthy (AStr "") = false /\
  SOFA (AStr "") plain_fixture = (Ok ∅, plain_fixture) /\
  FIR (AStr "") plain_fixture = (Ok ∅, plain_fixture) /\
  AudioObject "Listener" (AStr "") plain_fixture =
    (Ok {[ "object_string" := VStr "Listener" ]}, plain_fixture).
Proof.
  split; [reflexivity|]. split; [reflexivity|].
  apply (falsy_argument_reads_nothing (AStr "") "Listener" plain_fixture).
  reflexivity.
Defined.

(** ** C1: which file is opened *)

(** C1 fails for [AudioObject] and [FIR]: given the path
    ["measured.sofa"], they open ["dtf_nh2.sofa"] and read from it (here
    they fail on its missing datasets), and raise [IOError] for
    ["dtf_nh2.sofa"] where only the caller's file exists.  [SOFA] opens
    the caller's path. *)
Lemma hardcoded_file_is_opened :
  (trace (AudioObject "Listener" (AStr "measured.sofa") two_files).2 =
     [EvOpen "dtf_nh2.sofa" 0; EvReadNode 0 "/ListenerPosition"] /\
   (AudioObject "Listener" (AStr "measured.sofa") two_files).1 =
     Raise (Exception "Required Dataset /ListenerPosition not found!")) /\
  (trace (FIR (AStr "measured.sofa") two_files).2 =
     [EvOpen "dtf_nh2.sofa" 0; EvReadNode 0 "/Data.IR"] /\
   (FIR (AStr "measured.sofa") two_files).1 =
     Raise (Exception "Required Dataset /Data.IR not found!")) /\
  (AudioObject "Listener" (AStr "measured.sofa") plain_fixture).1 =
    Raise (IOError "dtf_nh2.sofa") /\
  (FIR (AStr "measured.sofa") plain_fixture).1 =
    Raise (IOError "dtf_nh2.sofa") /\
  head (trace (SOFA (AStr "measured.sofa") two_files).2) =
    Some (EvOpen "measured.sofa" 0).
Proof. vm_compute. repeat split. Qed.

(** * Further properties

    ** When a construction succeeds *)

Lemma accepted_required_is_ok d r :
  required d = true -> accepted d r = is_ok r.
Proof. intros Hreq. unfold accepted. rewrite Hreq. by destruct r as [v|[]]. Qed.

Lemma accepted_optional_tolerated d r :
  required d = false -> accepted d r = tolerated r.
Proof. intros Hreq. unfold accepted. rewrite Hreq. by destruct r as [v|[]]. Qed.

Lemma root_required_complete c :
  all_accepted (field_of c) root_required = true <->
  forall a, a ∈ req_attributes -> is_ok (c_attr c "/" a) = true.
Proof.
  unfold all_accepted, root_required. rewrite forallb_forall. split.
  - intros Hall a Ha.
    rewrite <- (accepted_required_is_ok (root_attribute true a)) by done.
    apply (Hall (root_attribute true a)), in_map, list_elem_of_In, Ha.
  - intros Hall d Hd. apply in_map_iff in Hd as (a & <- & Ha).
    rewrite accepted_required_is_ok by done.
    by apply Hall, list_elem_of_In.
Qed.

Lemma root_optional_complete c :
  all_accepted (field_of c) root_optional = true <->
  forall a, a ∈ other_attributes -> tolerated (c_attr c "/" a) = true.
Proof.
  unfold all_accepted, root_optional. rewrite forallb_forall. split.
  - intros Hall a Ha.
    rewrite <- (accepted_optional_tolerated (root_attribute false a)) by done.
    apply (Hall (root_attribute false a)), in_map, list_elem_of_In, Ha.
  - intros Hall d Hd. apply in_map_iff in Hd as (a & <- & Ha).
    rewrite accepted_optional_tolerated by done.
    by apply Hall, list_elem_of_In.
Qed.

Lemma geometry_complete_accepted c role :
  all_accepted (field_of c) (geometry_descriptors role) = true <->
  geometry_complete c role.
Proof.
  unfold geometry_complete, all_accepted, geometry_descriptors.
  cbn [forallb]. rewrite <- Forall_forall, !Forall_cons, Forall_nil.
  rewrite !andb_true_iff.
  rewrite !accepted_required_is_ok, !accepted_optional_tolerated by done.
  unfold field_of. cbn [fieldKind sourcePath]. tauto.
Qed.

Lemma fir_complete_accepted c :
  all_accepted (field_of c) fir_descriptors = true <-> fir_complete c.
Proof.
  unfold fir_complete, all_accepted, fir_descriptors.
  cbn [forallb]. rewrite !andb_true_iff.
  rewrite !accepted_required_is_ok by done.
  unfold field_of. cbn [fieldKind sourcePath]. tauto.
Qed.

Lemma is_FIR_complete c :
  is_FIR (field_of c datatype_descriptor) = true <->
  c_attr c "/" "DataType" = Ok (VStr "FIR").
Proof.
  unfold datatype_descriptor, field_of. cbn [fieldKind sourcePath root_attribute].
  destruct (c_attr c "/" "DataType") as [[t|z|sh bits]|e]; cbn [is_FIR];
    try (split; [discriminate | discriminate]).
  rewrite String.eqb_eq. split; [by intros -> | by intros [= ->]].
Qed.

Lemma wellformed_complete c : wellformed (field_of c) = true <-> complete c.
Proof.
  unfold wellformed, complete. rewrite !andb_true_iff.
  rewrite root_required_complete, root_optional_complete,
    !geometry_complete_accepted, is_FIR_complete, fir_complete_accepted.
  unfold roles. rewrite <- (Forall_forall (geometry_complete c)).
  rewrite !Forall_cons, Forall_nil. tauto.
Qed.

(** X1. [SOFA(sofa_file)] on a file returns an object exactly when the
    container can be read in full: the 14 required root attributes, and
    [Position] with its [Type] and [Units] for each of the four roles,
    are read; the 6 optional root attributes and [Description], [View],
    [Up] of each role are read or not found; [DataType] is the string
    ["FIR"]; and the three [Data.*] datasets and the [Units] of
    [Data.SamplingRate] are read.  When there is no container to read (no
    file at the path, or an argument that is neither a string nor a
    [File]), the call raises. *)
Theorem SOFA_succeeds_iff_complete sofa_file w :
  truthy sofa_file = true ->
  (forall c, source_of sofa_file w = Some c ->
     is_ok (SOFA sofa_file w).1 = true <-> complete c) /\
  (source_of sofa_file w = None -> is_ok (SOFA sofa_file w).1 = false).
Proof.
  intros Htrue. split.
  - intros c Hc. rewrite <- wellformed_complete.
    destruct (SOFA_run sofa_file w c Htrue Hc) as (w' & ->). cbn [fst].
    by rewrite built_is_ok, SOFA_model_is_ok.
  - intros Hnone. destruct (SOFA sofa_file w) as [[obj|e] w'] eqn:Hrun; [|done].
    destruct (SOFA_ok_source sofa_file w obj w' Htrue Hrun) as [c Hc].
    by rewrite Hc in Hnone.
Qed.

Lemma complete_fixture : complete (fixture "FIR" "").
Proof. apply wellformed_complete. vm_compute. reflexivity. Qed.

Lemma SOFA_succeeds_iff_complete_witness :
  is_ok (SOFA (AStr "measured.sofa") plain_fixture).1 = true /\
  ~ complete (fixture "FIR" "License").
Proof.
  destruct (SOFA_succeeds_iff_complete (AStr "measured.sofa") plain_fixture
              eq_refl) as [Hiff _].
  destruct (SOFA_succeeds_iff_complete (AStr "measured.sofa") license_missing
              eq_refl) as [Hiff' _].
  split.
  - apply (Hiff (fixture "FIR" "")); [reflexivity | exact complete_fixture].
  - intros Hcomplete.
    apply (Hiff' (fixture "FIR" "License") eq_refl) in Hcomplete.
    vm_compute in Hcomplete. discriminate Hcomplete.
Defined.

(** ** The object depends on the container only *)

Lemma field_of_ext c1 c2 :
  (forall node, c_node c1 node = c_node c2 node) ->
  (forall node a, c_attr c1 node a = c_attr c2 node a) ->
  forall d, field_of c1 d = field_of c2 d.
Proof. intros Hn Ha d. unfold field_of. by destruct (fieldKind d). Qed.

Lemma SOFA_outcome sofa_file w c :
  truthy sofa_file = true ->
  source_of sofa_file w = Some c ->
  (SOFA sofa_file w).1 = built (SOFA_model (field_of c) ∅).
Proof.
  intros Htrue Hc. by destruct (SOFA_run sofa_file w c Htrue Hc) as (w' & ->).
Qed.

(** No class call touches the files. *)
Lemma SOFA_files sofa_file w : files (SOFA sofa_file w).2 = files w.
Proof.
  unfold SOFA, construct, SOFA_init.
  destruct (truthy sofa_file) eqn:Htrue; [|done].
  destruct sofa_file as [|p|f0|z]; try done.
  - destruct (files w !! p) as [c|] eqn:Hp.
    + destruct (SOFA_from_file_AStr p c ∅ w Hp) as (w1 & (Hf & _) & ->).
      by destruct (SOFA_model (field_of c) ∅) as [[[]|e] o].
    + by rewrite SOFA_from_file_no_file.
  - destruct (SOFA_from_file_AFile f0 ∅ w) as (w' & -> & (Hf & _)).
    by destruct (SOFA_model _ ∅) as [[[]|e] o].
Qed.

(** X2. What [SOFA(sofa_file)] returns or raises depends on nothing but
    what the container yields for the reads: two calls whose containers
    answer every read alike end alike, whatever the handles, the trace
    and the other files of the two worlds are.  In particular a call on a
    path and a call on an open handle to the file at that path end alike,
    and a second call with the same argument ends as the first did. *)
Theorem SOFA_outcome_depends_on_container_only :
  (forall sofa_file1 w1 c1 sofa_file2 w2 c2,
     truthy sofa_file1 = true -> truthy sofa_file2 = true ->
     source_of sofa_file1 w1 = Some c1 ->
     source_of sofa_file2 w2 = Some c2 ->
     (forall node, c_node c1 node = c_node c2 node) ->
     (forall node a, c_attr c1 node a = c_attr c2 node a) ->
     (SOFA sofa_file1 w1).1 = (SOFA sofa_file2 w2).1) /\
  (forall p w f w',
     p ≠ "" -> files w !! p = Some (content f) -> hid f ∈ opened w' ->
     (SOFA (AStr p) w).1 = (SOFA (AFile f) w').1) /\
  (forall sofa_file w,
     (SOFA sofa_file (SOFA sofa_file w).2).1 = (SOFA sofa_file w).1).
Proof.
  assert (Hgen : forall sofa_file1 w1 c1 sofa_file2 w2 c2,
     truthy sofa_file1 = true -> truthy sofa_file2 = true ->
     source_of sofa_file1 w1 = Some c1 ->
     source_of sofa_file2 w2 = Some c2 ->
     (forall node, c_node c1 node = c_node c2 node) ->
     (forall node a, c_attr c1 node a = c_attr c2 node a) ->
     (SOFA sofa_file1 w1).1 = (SOFA sofa_file2 w2).1).
  { intros sf1 w1 c1 sf2 w2 c2 Ht1 Ht2 Hc1 Hc2 Hn Ha.
    rewrite (SOFA_outcome sf1 w1 c1), (SOFA_outcome sf2 w2 c2) by done.
    f_equal. apply SOFA_model_ext. by apply field_of_ext. }
  split; [exact Hgen|]. split.
  - intros p w f w' Hp Hfile Hopen.
    apply (Hgen (AStr p) w (content f) (AFile f) w' (view w' f)); try done.
    + cbn [truthy]. apply String.eqb_neq in Hp. by rewrite Hp.
    + intros node. cbn [c_node view]. unfold read_node.
      by rewrite bool_decide_eq_true_2.
    + intros node a. cbn [c_attr view]. unfold read_attr.
      by rewrite bool_decide_eq_true_2.
  - intros sofa_file w.
    pose proof (SOFA_files sofa_file w) as Hfiles.
    destruct (truthy sofa_file) eqn:Htrue.
    2: { unfold SOFA, construct, SOFA_init. by rewrite Htrue. }
    destruct sofa_file as [|p|f|z]; try done.
    + destruct (files w !! p) as [c|] eqn:Hp.
      * apply (Hgen (AStr p) _ c (AStr p) w c); try done.
        cbn [source_of]. by rewrite Hfiles.
      * unfold SOFA, construct, SOFA_init. rewrite Htrue.
        rewrite !SOFA_from_file_no_file; [done|done|].
        rewrite SOFA_from_file_no_file by done. cbn [snd]. done.
    + destruct (SOFA_from_file_AFile f ∅ w) as (w' & Heq & (_ & _ & Ho & _)).
      assert (Hw : opened (SOFA (AFile f) w).2 = opened w).
      { unfold SOFA, construct, SOFA_init. cbn [truthy]. rewrite Heq.
        by destruct (SOFA_model _ ∅) as [[[]|e] o]. }
      apply (Hgen (AFile f) (SOFA (AFile f) w).2 (view (SOFA (AFile f) w).2 f)
               (AFile f) w (view w f)); try done.
      * intros node. cbn [c_node view]. unfold read_node. by rewrite Hw.
      * intros node a. cbn [c_attr view]. unfold read_attr. by rewrite Hw.
    + unfold SOFA, construct, SOFA_init. by rewrite Htrue.
Qed.

Lemma SOFA_outcome_depends_on_container_only_witness :
  (SOFA (AStr "measured.sofa") plain_fixture).1 =
    (SOFA (AFile measured) measured_open).1.
Proof.
  destruct SOFA_outcome_depends_on_container_only as (_ & Hpath & _).
  apply Hpath.
  - discriminate.
  - reflexivity.
  - apply (bool_decide_unpack _). vm_compute. reflexivity.
Defined.

(** ** Arguments that are neither a path nor a handle *)

(** X3. [from_file] of the three classes, given something that is
    neither a [File] nor a [str] ([None] included), raises
    [AssertionError] before anything is opened or read and leaves the
    object as it was; the class calls do so for every such argument that
    is truthy. *)
Theorem invalid_argument_is_rejected sofa_file :
  isinstance_File sofa_file = false ->
  isinstance_str sofa_file = false ->
  (forall o w,
     SOFA_from_file sofa_file (o, w) = (Raise AssertionError, (o, w))) /\
  (forall o w,
     AudioObject_from_file sofa_file (o, w) = (Raise AssertionError, (o, w))) /\
  (forall o w,
     FIR_from_file sofa_file (o, w) = (Raise AssertionError, (o, w))) /\
  (truthy sofa_file = true ->
   forall role w,
     SOFA sofa_file w = (Raise AssertionError, w) /\
     AudioObject role sofa_file w = (Raise AssertionError, w) /\
     FIR sofa_file w = (Raise AssertionError, w)).
Proof.
  intros Hfile Hstr.
  assert (Hs : forall o w,
            SOFA_from_file sofa_file (o, w) = (Raise AssertionError, (o, w))).
  { intros o w. unfold SOFA_from_file. by destruct sofa_file. }
  assert (Ha : forall o w,
            AudioObject_from_file sofa_file (o, w)
            = (Raise AssertionError, (o, w))).
  { intros o w. unfold AudioObject_from_file. by destruct sofa_file. }
  assert (Hf : forall o w,
            FIR_from_file sofa_file (o, w) = (Raise AssertionError, (o, w))).
  { intros o w. unfold FIR_from_file. by destruct sofa_file. }
  repeat split; try done.
  - unfold SOFA, construct, SOFA_init. by rewrite H, Hs.
  - unfold AudioObject, construct, AudioObject_init. rewrite H.
    unfold bind at 1. cbn [do_setattr]. by rewrite Ha.
  - unfold FIR, construct, FIR_init. by rewrite H, Hf.
Qed.

Lemma invalid_argument_is_rejected_witness :
  SOFA (AInt 5) plain_fixture = (Raise AssertionError, plain_fixture) /\
  SOFA_from_file ANone (∅, plain_fixture) =
    (Raise AssertionError, (∅, plain_fixture)).
Proof.
  destruct (invalid_argument_is_rejected (AInt 5) eq_refl eq_refl)
    as (_ & _ & _ & Hcall).
  destruct (invalid_argument_is_rejected ANone eq_refl eq_refl)
    as (Hfrom & _).
  split.
  - apply (Hcall eq_refl "Listener" plain_fixture).
  - apply Hfrom.
Defined.

(** ** The contract of the two binders *)

(** X4. One call of [_add_data] performs exactly one read, and then
    either returns 0, having stored the value read under [name] (under
    the node path when [name] is [None] or empty) and nothing else; or
    returns 1, when the node was not found and is not required; or
    raises, with the "Required Dataset" exception when the node was not
    found and is required, and with the exception of the read otherwise.
    Unless it returns 0 the object is left as it was.  [_add_attribute]
    does the same with the attribute name in place of the node path. *)
Theorem binder_contract {V} `{Slot V} f node a req nm (o : gmap string V) w :
  (let r := _add_data f node req nm (o, w) in
   r.2.2 = log (EvReadNode (hid f) node) w /\
   match r.1, read_node w f node with
   | Ok z, Ok v => z = 0 /\ r.2.1 = <[name_or nm node := plain v]> o
   | Ok z, Raise e => z = 1 /\ e = AttributeError /\ req = false /\ r.2.1 = o
   | Raise e, Ok _ => False
   | Raise e, Raise e' =>
       r.2.1 = o /\
       if decide (e' = AttributeError)
       then req = true /\
            e = Exception ("Required Dataset " +:+ node +:+ " not found!")
       else e = e'
   end) /\
  (let r := _add_attribute f node a req nm (o, w) in
   r.2.2 = log (EvReadAttr (hid f) node a) w /\
   match r.1, read_attr w f node a with
   | Ok z, Ok v => z = 0 /\ r.2.1 = <[name_or nm a := plain v]> o
   | Ok z, Raise e => z = 1 /\ e = AttributeError /\ req = false /\ r.2.1 = o
   | Raise e, Ok _ => False
   | Raise e, Raise e' =>
       r.2.1 = o /\
       if decide (e' = AttributeError)
       then req = true /\
            e = Exception ("Required Attribute " +:+ a +:+ " not found!")
       else e = e'
   end).
Proof.
  split; cbv zeta.
  - rewrite _add_data_unfold.
    destruct (read_node w f node) as [v|[]]; try done; by destruct req.
  - rewrite _add_attribute_unfold.
    destruct (read_attr w f node a) as [v|[]]; try done; by destruct req.
Qed.

Lemma binder_contract_witness :
  _add_data measured "/Data.IR" true None
    (∅ : gmap string value, measured_open) =
  (Ok 0,
   ({[ "/Data.IR" := VArray [1%nat; 2%nat; 4%nat] [0; 0; 0; 0; 0; 0; 0; 0] ]},
    log (EvReadNode 0 "/Data.IR") measured_open)) /\
  _add_attribute measured "/" "Comment" false None
    (∅ : gmap string value, measured_open) =
  (Ok 1, (∅, log (EvReadAttr 0 "/" "Comment") measured_open)).
Proof.
  destruct (binder_contract measured "/Data.IR" "Comment" true None
              (∅ : gmap string value) measured_open) as [Hdata _].
  destruct (binder_contract measured "/" "Comment" false None
              (∅ : gmap string value) measured_open) as [_ Hattr].
  cbv zeta in Hdata, Hattr.
  assert (Hir : read_node measured_open measured "/Data.IR" =
                Ok (VArray [1%nat; 2%nat; 4%nat] [0; 0; 0; 0; 0; 0; 0; 0]))
    by (vm_compute; reflexivity).
  assert (Hcomment : read_attr measured_open measured "/" "Comment" =
                     Raise AttributeError) by (vm_compute; reflexivity).
  rewrite Hir in Hdata. rewrite Hcomment in Hattr. split.
  - destruct (_add_data _ _ _ _ _) as [[z|e] [o w]]; cbn [fst snd] in Hdata.
    + destruct Hdata as (-> & -> & ->). by rewrite insert_empty.
    + by destruct Hdata.
  - destruct (_add_attribute _ _ _ _ _ _) as [[z|e] [o w]];
      cbn [fst snd] in Hattr.
    + by destruct Hattr as (-> & -> & _ & _ & ->).
    + destruct Hattr as (_ & _ & Hreq & _). discriminate Hreq.
Defined.

(** ** [len] of an audio object without a position *)

(** X5. An [AudioObject] built without a file has no [Position], and
    [len] of it raises [AttributeError]; one built from a file whose
    [Position] dataset is a scalar or a 0-dimensional array has a
    [Position], and [len] of it raises [TypeError]. *)
Theorem len_without_extent role sofa_file w :
  (truthy sofa_file = false ->
   exists obj, AudioObject role sofa_file w = (Ok obj, w) /\
               obj !! "Position" = None /\
               AudioObject_len obj = Raise AttributeError) /\
  (forall f obj w' v,
     sofa_file = AFile f ->
     AudioObject role sofa_file w = (Ok obj, w') ->
     read_node w f ("/" +:+ role +:+ "Position") = Ok v ->
     (forall n shape bits, v ≠ VArray (n :: shape) bits) ->
     (forall s, v ≠ VStr s) ->
     obj !! "Position" = Some v /\ AudioObject_len obj = Raise TypeError).
Proof.
  split.
  - intros Hfalse. exists {[ "object_string" := VStr role ]}.
    unfold AudioObject, construct, AudioObject_init. rewrite Hfalse.
    unfold bind, ret, do_setattr, setattr. rewrite insert_empty.
    split; [done|]. unfold AudioObject_len.
    by rewrite lookup_singleton_ne.
  - intros f obj w' v -> Hrun Hread Harr Hstr.
    destruct (AudioObject_ok role (AFile f) w obj w' eq_refl Hrun)
      as (c & Hacc & ->).
    destruct (AudioObject_handle w role f w (same_handles_refl w))
      as (w1 & Heq & _).
    rewrite Heq in Hrun. injection Hrun as Hmodel _.
    pose proof (AudioObject_model_is_ok (read_field w f) role) as Hok.
    rewrite Hmodel in Hok. cbn [is_ok] in Hok. symmetry in Hok.
    rewrite (AudioObject_model_accepted _ _ Hok) in Hmodel.
    injection Hmodel as <-.
    set (d := mkDescriptor ("/" +:+ role +:+ "Position") Dataset
                (Some "Position") true).
    pose proof (geometry_fields_lookup (read_field w f) role d Hok
                  (list_elem_of_here _ _)) as Hlook.
    change (read_field w f d) with (read_node w f ("/" +:+ role +:+ "Position"))
      in Hlook.
    rewrite Hread in Hlook. change (destination d) with "Position" in Hlook.
    split; [done|]. unfold AudioObject_len. rewrite Hlook.
    destruct v as [s|z|[|n shape] bits]; try done.
    + by destruct (Hstr s).
    + by destruct (Harr n shape bits).
Qed.

Lemma len_without_extent_witness :
  (exists obj, AudioObject "Listener" ANone plain_fixture = (Ok obj, plain_fixture) /\
               AudioObject_len obj = Raise AttributeError) /\
  (exists obj w',
     AudioObject "Listener" (AFile (mkFile 0 "odd.sofa" scalar_position))
       scalar_open = (Ok obj, w') /\
     AudioObject_len obj = Raise TypeError).
Proof.
  split.
  - destruct (len_without_extent "Listener" ANone plain_fixture) as [Hnone _].
    destruct (Hnone eq_refl) as (obj & Hrun & _ & Hlen).
    by exists obj.
  - set (f := mkFile 0 "odd.sofa" scalar_position).
    destruct (AudioObject_handle scalar_open "Listener" f scalar_open
                (same_handles_refl _)) as (w' & Hrun & _).
    rewrite AudioObject_model_accepted in Hrun by (vm_compute; reflexivity).
    destruct (len_without_extent "Listener" (AFile f) scalar_open) as [_ Hfile].
    destruct (Hfile f _ w' (VInt 3) eq_refl Hrun) as [_ Hlen];
      [vm_compute; reflexivity | discriminate | discriminate |].
    eexists _, w'. split; [exact Hrun | exact Hlen].
Defined.

(** ** What the entities hold *)

Lemma FIR_outcome f w : (FIR (AFile f) w).1 = FIR_model (read_field w f).
Proof.
  by destruct (FIR_handle w f w (same_handles_refl w)) as (w' & -> & _).
Qed.

Lemma AudioObject_outcome role f w :
  (AudioObject role (AFile f) w).1 = AudioObject_model (read_field w f) role.
Proof.
  by destruct (AudioObject_handle w role f w (same_handles_refl w))
    as (w' & -> & _).
Qed.

Lemma hydrate_names {V} `{Slot V} rd ds (o : gmap string V) (known : list string) :
  (forall k, is_Some (o !! k) -> k ∈ known) ->
  (forall d, d ∈ ds -> destination d ∈ known) ->
  forall k, is_Some ((hydrate rd ds o).2 !! k) -> k ∈ known.
Proof.
  intros Ho Hds.
  apply (hydrate_invariant rd (fun o' => forall k, is_Some (o' !! k) -> k ∈ known));
    [done|].
  intros d v o' Hd _ IH k. unfold setattr.
  destruct (decide (destination d = k)) as [<-|Hne].
  - intros _. by apply Hds.
  - rewrite lookup_insert_ne by done. apply IH.
Qed.

(** X6. [FIR] on an open handle returns an object exactly when the
    datasets [/Data.IR], [/Data.Delay], [/Data.SamplingRate] and the
    attribute [Units] of the last can all be read, and the object then has
    the four attributes [IR], [Delay], [SamplingRate] and
    [SamplingRateUnits], holding the values read, and no other. *)
Theorem FIR_holds_the_four_reads f w :
  (is_ok (FIR (AFile f) w).1 = true <-> fir_complete (view w f)) /\
  (forall obj,
     (FIR (AFile f) w).1 = Ok obj ->
     exists ir delay rate units,
       read_node w f "/Data.IR" = Ok ir /\
       read_node w f "/Data.Delay" = Ok delay /\
       read_node w f "/Data.SamplingRate" = Ok rate /\
       read_attr w f "/Data.SamplingRate" "Units" = Ok units /\
       obj = <["SamplingRateUnits" := units]>
               (<["SamplingRate" := rate]>
                  (<["Delay" := delay]> {[ "IR" := ir ]}))).
Proof.
  rewrite FIR_outcome. split.
  - rewrite FIR_model_is_ok. apply (fir_complete_accepted (view w f)).
  - intros obj Hobj.
    pose proof (FIR_model_is_ok (read_field w f)) as Hok.
    rewrite Hobj in Hok. cbn [is_ok] in Hok. symmetry in Hok.
    rewrite (FIR_model_accepted _ Hok) in Hobj. injection Hobj as <-.
    apply (fir_complete_accepted (view w f)) in Hok.
    destruct Hok as (Hir & Hdelay & Hrate & Hunits). cbn [view c_node c_attr] in *.
    destruct (read_node w f "/Data.IR") as [ir|] eqn:Eir; [|done].
    destruct (read_node w f "/Data.Delay") as [delay|] eqn:Edelay; [|done].
    destruct (read_node w f "/Data.SamplingRate") as [rate|] eqn:Erate; [|done].
    destruct (read_attr w f "/Data.SamplingRate" "Units") as [units|] eqn:Eunits;
      [|done].
    exists ir, delay, rate, units. repeat split.
    unfold fir_fields, fir_descriptors. cbn [hydrate].
    unfold read_field at 1. cbn [fieldKind sourcePath]. rewrite Eir.
    cbn [accepted]. unfold read_field at 1. cbn [fieldKind sourcePath].
    rewrite Edelay. cbn [accepted].
    unfold read_field at 1. cbn [fieldKind sourcePath]. rewrite Erate.
    cbn [accepted]. unfold read_field at 1. cbn [fieldKind sourcePath].
    rewrite Eunits. cbn [accepted snd]. unfold setattr, plain, entity_slot.
    by rewrite insert_empty.
Qed.

Lemma FIR_holds_the_four_reads_witness :
  exists obj,
    (FIR (AFile measured) measured_open).1 = Ok obj /\
    obj !! "SamplingRateUnits" = Some (VStr "hertz") /\
    obj !! "Units" = None.
Proof.
  destruct (FIR_holds_the_four_reads measured measured_open) as [_ Hobj].
  assert (Hrun : (FIR (AFile measured) measured_open).1
                 = Ok (fir_fields (read_field measured_open measured))).
  { rewrite FIR_outcome. apply FIR_model_accepted. vm_compute. reflexivity. }
  destruct (Hobj _ Hrun) as (ir & delay & rate & units & _ & _ & _ & Hunits & Heq).
  eexists. split; [exact Hrun|]. rewrite Heq.
  split.
  - rewrite lookup_insert_eq. f_equal.
    assert (Hu : read_attr measured_open measured "/Data.SamplingRate" "Units"
                 = Ok (VStr "hertz")) by (vm_compute; reflexivity).
    rewrite Hu in Hunits. by injection Hunits as <-.
  - by rewrite !lookup_insert_ne, lookup_singleton_ne.
Defined.

(** X7. [AudioObject(role, handle)] returns an object exactly when
    [/<role>Position] and its attributes [Type] and [Units] can be read and
    each of [/<role>Description], [/<role>View], [/<role>Up] can be read or
    is not found.  The object keeps [role] as its [object_string]; its
    [Position], [PositionType] and [PositionUnits] hold those three
    values; each of [Description], [View], [Up] holds the value read, or is
    unset when not found; and it has no attribute beside these seven. *)
Theorem AudioObject_holds_the_reads role f w :
  (is_ok (AudioObject role (AFile f) w).1 = true <->
   geometry_complete (view w f) role) /\
  (forall obj,
     (AudioObject role (AFile f) w).1 = Ok obj ->
     obj !! "object_string" = Some (VStr role) /\
     (exists position type units,
        read_node w f ("/" +:+ role +:+ "Position") = Ok position /\
        read_attr w f ("/" +:+ role +:+ "Position") "Type" = Ok type /\
        read_attr w f ("/" +:+ role +:+ "Position") "Units" = Ok units /\
        obj !! "Position" = Some position /\
        obj !! "PositionType" = Some type /\
        obj !! "PositionUnits" = Some units) /\
     (forall p, p ∈ ["Description"; "View"; "Up"] ->
        obj !! p = match read_node w f ("/" +:+ role +:+ p) with
                   | Ok v => Some v
                   | Raise _ => None
                   end) /\
     (forall k, is_Some (obj !! k) ->
        k ∈ ["object_string"; "Position"; "PositionType"; "PositionUnits";
             "Description"; "View"; "Up"])).
Proof.
  rewrite AudioObject_outcome. split.
  - rewrite AudioObject_model_is_ok.
    apply (geometry_complete_accepted (view w f)).
  - intros obj Hobj.
    pose proof (AudioObject_model_is_ok (read_field w f) role) as Hok.
    rewrite Hobj in Hok. cbn [is_ok] in Hok. symmetry in Hok.
    rewrite (AudioObject_model_accepted _ _ Hok) in Hobj. injection Hobj as <-.
    pose proof (geometry_fields_lookup (read_field w f) role) as Hlook.
    specialize (fun d => Hlook d Hok).
    pose proof Hok as Hc.
    apply (geometry_complete_accepted (view w f)) in Hc.
    destruct Hc as (Hpos & Htype & Hunits & _). cbn [view c_node c_attr] in *.
    split; [|split; [|split]].
    + unfold geometry_fields. rewrite hydrate_lookup_other; [done|].
      intros d v Hd _. unfold geometry_descriptors in Hd.
      rewrite !elem_of_cons, elem_of_nil in Hd.
      destruct Hd as [->|[->|[->|[->|[->|[->|[]]]]]]]; discriminate.
    + destruct (read_node w f ("/" +:+ role +:+ "Position"))
        as [position|] eqn:Eposition; [|done].
      destruct (read_attr w f ("/" +:+ role +:+ "Position") "Type")
        as [type|] eqn:Etype; [|done].
      destruct (read_attr w f ("/" +:+ role +:+ "Position") "Units")
        as [units|] eqn:Eunits; [|done].
      exists position, type, units. repeat split.
      * pose proof (Hlook (mkDescriptor ("/" +:+ role +:+ "Position") Dataset
                             (Some "Position") true)) as Hl.
        unfold read_field at 2 in Hl. cbn [fieldKind sourcePath] in Hl.
        rewrite Eposition in Hl. apply Hl.
        unfold geometry_descriptors. rewrite !elem_of_cons. tauto.
      * pose proof (Hlook (mkDescriptor ("/" +:+ role +:+ "Position")
                             (Attribute "Type") (Some "PositionType") true))
          as Hl.
        unfold read_field at 2 in Hl. cbn [fieldKind sourcePath] in Hl.
        rewrite Etype in Hl. apply Hl.
        unfold geometry_descriptors. rewrite !elem_of_cons. tauto.
      * pose proof (Hlook (mkDescriptor ("/" +:+ role +:+ "Position")
                             (Attribute "Units") (Some "PositionUnits") true))
          as Hl.
        unfold read_field at 2 in Hl. cbn [fieldKind sourcePath] in Hl.
        rewrite Eunits in Hl. apply Hl.
        unfold geometry_descriptors. rewrite !elem_of_cons. tauto.
    + intros p Hp.
      rewrite !elem_of_cons, elem_of_nil in Hp.
      destruct Hp as [->|[->|[->|[]]]].
      * apply (Hlook (mkDescriptor ("/" +:+ role +:+ "Description") Dataset
                        (Some "Description") false)).
        unfold geometry_descriptors. rewrite !elem_of_cons. tauto.
      * apply (Hlook (mkDescriptor ("/" +:+ role +:+ "View") Dataset
                        (Some "View") false)).
        unfold geometry_descriptors. rewrite !elem_of_cons. tauto.
      * apply (Hlook (mkDescriptor ("/" +:+ role +:+ "Up") Dataset
                        (Some "Up") false)).
        unfold geometry_descriptors. rewrite !elem_of_cons. tauto.
    + unfold geometry_fields. apply hydrate_names.
      * intros k. unfold setattr. rewrite insert_empty.
        destruct (decide ("object_string" = k)) as [<-|Hne].
        -- intros _. apply list_elem_of_here.
        -- rewrite lookup_singleton_ne by done. by intros [? ?].
      * intros d Hd. unfold geometry_descriptors in Hd.
        rewrite !elem_of_cons, elem_of_nil in Hd.
        rewrite !elem_of_cons.
        destruct Hd as [->|[->|[->|[->|[->|[->|[]]]]]]];
          cbv [destination fieldKind name name_or]; tauto.
Qed.

Lemma AudioObject_holds_the_reads_witness :
  exists obj,
    (AudioObject "Listener" (AFile measured) measured_open).1 = Ok obj /\
    obj !! "object_string" = Some (VStr "Listener") /\
    obj !! "Up" = None.
Proof.
  destruct (AudioObject_holds_the_reads "Listener" measured measured_open)
    as [_ Hobj].
  assert (Hrun : (AudioObject "Listener" (AFile measured) measured_open).1
                 = Ok (geometry_fields (read_field measured_open measured)
                         "Listener")).
  { rewrite AudioObject_outcome.
    apply AudioObject_model_accepted. vm_compute. reflexivity. }
  destruct (Hobj _ Hrun) as (Hrole & _ & Hopt & _).
  eexists. split; [exact Hrun|]. split; [exact Hrole|].
  rewrite (Hopt "Up") by (apply (bool_decide_unpack _); vm_compute; reflexivity).
  vm_compute. reflexivity.
Defined.

(** ** What a [SOFA] object holds *)

Lemma root_destination req a : destination (root_attribute req a) = a.
Proof. reflexivity. Qed.

Lemma root_fields_names rd o (known : list string) :
  (forall k, is_Some (o !! k) -> k ∈ known) ->
  (forall a, a ∈ req_attributes ++ other_attributes -> a ∈ known) ->
  forall k, is_Some (root_fields rd o !! k) -> k ∈ known.
Proof.
  intros Ho Hknown. unfold root_fields.
  apply hydrate_names; [apply hydrate_names; [done|]|].
  - intros d Hd. unfold root_required in Hd.
    apply list_elem_of_fmap in Hd as (a & -> & Ha).
    rewrite root_destination. apply Hknown, elem_of_app. by left.
  - intros d Hd. unfold root_optional in Hd.
    apply list_elem_of_fmap in Hd as (a & -> & Ha).
    rewrite root_destination. apply Hknown, elem_of_app. by right.
Qed.

(** X8. A [SOFA] object that has been returned has every attribute of
    [req_attributes], holding the value of that attribute of the root
    group; each attribute of [other_attributes] holds the value read, or is
    unset when the root group has no such attribute; [DataType] is
    ['FIR']; and the object has no attribute beside those twenty and
    [listener], [source], [receiver], [emitter], [data], which are
    objects. *)
Theorem SOFA_holds_the_root_attributes sofa_file w c obj w' :
  truthy sofa_file = true ->
  source_of sofa_file w = Some c ->
  SOFA sofa_file w = (Ok obj, w') ->
  (forall a, a ∈ req_attributes ->
     exists v, c_attr c "/" a = Ok v /\ obj !! a = Some (PVal v)) /\
  (forall a, a ∈ other_attributes ->
     obj !! a = match c_attr c "/" a with
                | Ok v => Some (PVal v)
                | Raise _ => None
                end) /\
  obj !! "DataType" = Some (PVal (VStr "FIR")) /\
  (forall k, k ∈ ["listener"; "source"; "receiver"; "emitter"; "data"] ->
     exists fields, obj !! k = Some (PObj fields)) /\
  (forall k, is_Some (obj !! k) ->
     k ∈ req_attributes ++ other_attributes ++
         ["listener"; "source"; "receiver"; "emitter"; "data"]).
Proof.
  intros Htrue Hc Hrun.
  destruct (SOFA_ok_wellformed _ _ _ _ _ Htrue Hc Hrun) as [Hwf ->].
  destruct (wellformed_inv _ Hwf) as (Hroot & _ & Hfir & _).
  assert (Hreq : forall a, a ∈ req_attributes ->
            exists v, c_attr c "/" a = Ok v /\
                      SOFA_fields (field_of c) ∅ !! a = Some (PVal v)).
  { intros a Ha.
    rewrite SOFA_fields_root by (apply elem_of_app; by left).
    apply (root_fields_required (field_of c) ∅ a Hroot Ha). }
  split; [done|]. split; [|split; [|split]].
  - intros a Ha.
    rewrite SOFA_fields_root by (apply elem_of_app; by right).
    rewrite (root_fields_lookup _ _ false) by
      (done || by apply elem_of_root_optional).
    by rewrite lookup_empty.
  - destruct (Hreq "DataType") as (v & Hv & ->).
    { apply (bool_decide_unpack _). vm_compute. reflexivity. }
    apply is_FIR_complete in Hfir. rewrite Hfir in Hv. by injection Hv as <-.
  - intros k Hk. rewrite !elem_of_cons, elem_of_nil in Hk.
    destruct Hk as [->|[->|[->|[->|[->|[]]]]]].
    + eexists. apply (SOFA_fields_geometry _ _ "Listener").
      apply (bool_decide_unpack _). vm_compute. reflexivity.
    + eexists. apply (SOFA_fields_geometry _ _ "Source").
      apply (bool_decide_unpack _). vm_compute. reflexivity.
    + eexists. apply (SOFA_fields_geometry _ _ "Receiver").
      apply (bool_decide_unpack _). vm_compute. reflexivity.
    + eexists. apply (SOFA_fields_geometry _ _ "Emitter").
      apply (bool_decide_unpack _). vm_compute. reflexivity.
    + eexists. apply SOFA_fields_data.
  - intros k. unfold SOFA_fields, with_geometry.
    set (known := req_attributes ++ other_attributes ++ _).
    assert (Hsub : forall i, i ∈ ["listener"; "source"; "receiver"; "emitter";
                                  "data"] -> i ∈ known).
    { intros i Hi. unfold known. rewrite !elem_of_app. tauto. }
    destruct (decide (k ∈ ["listener"; "source"; "receiver"; "emitter";
                           "data"])) as [Hin|Hout]; [intros _; by apply Hsub|].
    rewrite !elem_of_cons, elem_of_nil in Hout.
    rewrite !lookup_insert_ne by (intros <-; tauto).
    apply root_fields_names.
    + intros i. rewrite lookup_empty. by intros [? ?].
    + intros a Ha. unfold known. rewrite app_assoc. apply elem_of_app. by left.
Qed.

Lemma SOFA_holds_the_root_attributes_witness :
  exists obj w',
    SOFA (AStr "measured.sofa") plain_fixture = (Ok obj, w') /\
    obj !! "License" = Some (PVal (VStr "x")) /\
    obj !! "Comment" = None /\
    obj !! "Position" = None.
Proof.
  destruct (SOFA_wellformed (AStr "measured.sofa") plain_fixture
              (fixture "FIR" "") eq_refl eq_refl) as (w' & Hrun);
    [vm_compute; reflexivity|].
  destruct (SOFA_holds_the_root_attributes (AStr "measured.sofa") plain_fixture
              (fixture "FIR" "") _ w' eq_refl eq_refl Hrun)
    as (Hreq & Hopt & _ & _ & Hnames).
  eexists _, w'. split; [exact Hrun|]. split; [|split].
  - destruct (Hreq "License") as (v & Hv & ->).
    { apply (bool_decide_unpack _). vm_compute. reflexivity. }
    f_equal. f_equal.
    assert (Hl : c_attr (fixture "FIR" "") "/" "License" = Ok (VStr "x"))
      by (vm_compute; reflexivity).
    rewrite Hl in Hv. by injection Hv as <-.
  - rewrite (Hopt "Comment")
      by (apply (bool_decide_unpack _); vm_compute; reflexivity).
    vm_compute. reflexivity.
  - destruct (SOFA_fields (field_of (fixture "FIR" "")) ∅ !! "Position")
      as [v|] eqn:E; [|reflexivity].
    specialize (Hnames "Position" (ex_intro _ v E)).
    exfalso. revert Hnames. apply (bool_decide_unpack _). vm_compute.
    reflexivity.
Defined.

(** X9. The sub-objects of a [SOFA] object that has been returned are
    what the entity classes return on an open handle on the container it
    was read from: [listener], [source], [receiver] and [emitter] are the
    objects [AudioObject('Listener', handle)], ..., and [data] is
    [FIR(handle)].  For a [SOFA] built on a handle this is the caller's
    handle. *)
Theorem SOFA_holds_the_entities sofa_file w c obj w' f0 w0 :
  truthy sofa_file = true ->
  source_of sofa_file w = Some c ->
  SOFA sofa_file w = (Ok obj, w') ->
  (forall node, read_node w0 f0 node = c_node c node) ->
  (forall node a, read_attr w0 f0 node a = c_attr c node a) ->
  (forall role key, (role, key) ∈ role_attributes ->
     exists entity, (AudioObject role (AFile f0) w0).1 = Ok entity /\
                    obj !! key = Some (PObj entity)) /\
  (exists fir, (FIR (AFile f0) w0).1 = Ok fir /\
               obj !! "data" = Some (PObj fir)).
Proof.
  intros Htrue Hc Hrun Hnode Hattr.
  destruct (SOFA_ok_wellformed _ _ _ _ _ Htrue Hc Hrun) as [Hwf ->].
  destruct (wellformed_inv _ Hwf) as (_ & Hgeometry & _ & Hfir).
  assert (Hrd : forall d, read_field w0 f0 d = field_of c d).
  { intros d. apply (field_of_ext (view w0 f0) c Hnode Hattr). }
  split.
  - intros role key Hin. exists (geometry_fields (field_of c) role). split.
    + rewrite AudioObject_outcome, (AudioObject_model_ext _ _ role Hrd).
      apply AudioObject_model_accepted, Hgeometry.
      unfold role_attributes in Hin.
      repeat (apply elem_of_cons in Hin as [[= -> ->]|Hin];
              [apply (bool_decide_unpack _); vm_compute; reflexivity|]).
      by apply elem_of_nil in Hin.
    + by apply SOFA_fields_geometry.
  - exists (fir_fields (field_of c)). split.
    + rewrite FIR_outcome, (FIR_model_ext _ _ Hrd).
      by apply FIR_model_accepted.
    + apply SOFA_fields_data.
Qed.

Lemma SOFA_holds_the_entities_witness :
  exists obj entity,
    (SOFA (AFile measured) measured_open).1 = Ok obj /\
    (AudioObject "Source" (AFile measured) measured_open).1 = Ok entity /\
    obj !! "source" = Some (PObj entity).
Proof.
  destruct (SOFA_wellformed (AFile measured) measured_open
              (view measured_open measured) eq_refl eq_refl) as (w' & Hrun);
    [vm_compute; reflexivity|].
  destruct (SOFA_holds_the_entities (AFile measured) measured_open
              (view measured_open measured) _ w' measured measured_open
              eq_refl eq_refl Hrun (fun _ => eq_refl) (fun _ _ => eq_refl))
    as [Hentity _].
  destruct (Hentity "Source" "source") as (entity & Hmade & Hheld).
  { apply (bool_decide_unpack _). vm_compute. reflexivity. }
  eexists _, entity. rewrite Hrun. by repeat split.
Defined.

(** ** The entity classes given a path *)

Lemma read_field_fresh p c w d :
  read_field (open_world p w) (mkFile (next_handle w) p c) d = field_of c d.
Proof.
  apply (read_field_open (open_world p w) (mkFile (next_handle w) p c)).
  cbn [hid opened open_world]. apply elem_of_union. left.
  by apply elem_of_singleton.
Qed.

Lemma AudioObject_path role p c w :
  p ≠ "" ->
  files w !! "dtf_nh2.sofa" = Some c ->
  exists w1,
    same_handles (open_world "dtf_nh2.sofa" w) w1 /\
    AudioObject role (AStr p) w =
      (AudioObject_model (field_of c) role,
       if is_ok (AudioObject_model (field_of c) role)
       then close_world (mkFile (next_handle w) "dtf_nh2.sofa" c) w1 else w1).
Proof.
  intros Hp Hc. unfold AudioObject, construct, AudioObject_init. cbn [truthy].
  apply String.eqb_neq in Hp. rewrite Hp. cbn [negb].
  unfold bind at 1. cbn [do_setattr].
  rewrite (AudioObject_from_file_path p c) by done.
  rewrite (AudioObject_from_file_handle _ role)
    by (unfold has_role, setattr; cbn [fst]; apply lookup_insert_eq).
  destruct (runs_as_bindAll (V:=value) (open_world "dtf_nh2.sofa" w)
              (mkFile (next_handle w) "dtf_nh2.sofa" c)
              (geometry_descriptors role)
              (setattr "object_string" (VStr role) ∅)
              (open_world "dtf_nh2.sofa" w) (same_handles_refl _))
    as (w1 & -> & Hw1).
  exists w1. split; [done|].
  rewrite (hydrate_ext _ (field_of c)) by (intros d; apply read_field_fresh).
  unfold AudioObject_model, built, finish.
  by destruct (hydrate _ _ _) as [[[]|e] o].
Qed.

Lemma FIR_path p c w :
  p ≠ "" ->
  files w !! "dtf_nh2.sofa" = Some c ->
  exists w1,
    same_handles (open_world "dtf_nh2.sofa" w) w1 /\
    FIR (AStr p) w =
      (FIR_model (field_of c),
       if is_ok (FIR_model (field_of c))
       then close_world (mkFile (next_handle w) "dtf_nh2.sofa" c) w1 else w1).
Proof.
  intros Hp Hc. unfold FIR, construct, FIR_init. cbn [truthy].
  apply String.eqb_neq in Hp. rewrite Hp. cbn [negb].
  rewrite (FIR_from_file_path p c) by done.
  rewrite FIR_from_file_handle.
  destruct (runs_as_bindAll (V:=value) (open_world "dtf_nh2.sofa" w)
              (mkFile (next_handle w) "dtf_nh2.sofa" c)
              fir_descriptors ∅
              (open_world "dtf_nh2.sofa" w) (same_handles_refl _))
    as (w1 & -> & Hw1).
  exists w1. split; [done|].
  rewrite (hydrate_ext _ (field_of c)) by (intros d; apply read_field_fresh).
  unfold FIR_model, built, finish.
  by destruct (hydrate _ _ _) as [[[]|e] o].
Qed.

Lemma FIR_from_file_no_file p o w :
  files w !! "dtf_nh2.sofa" = None ->
  FIR_from_file (AStr p) (o, w) = (Raise (IOError "dtf_nh2.sofa"), (o, w)).
Proof.
  intros Hp. unfold FIR_from_file.
  cbn [isinstance_File isinstance_str negb assert].
  unfold bind at 1. unfold bind at 1. cbn [ret open_file]. by rewrite Hp.
Qed.

(** The world after a construction that opened handle [h] on the file
    named [path]: [h] is closed exactly when an object was returned, the
    other handles and the files are as before, and the trace has grown by
    the [open], reads, and the [close] when an object was returned. *)
Lemma own_handle_world {A} path c w w1 (r : outcome A) :
  same_handles (open_world path w) w1 ->
  let h := next_handle w in
  let w' := if is_ok r then close_world (mkFile h path c) w1 else w1 in
  (h ∈ opened w' <-> is_ok r = false) /\
  (forall h', h' ≠ h -> h' ∈ opened w' <-> h' ∈ opened w) /\
  exists evs, Forall is_read evs /\
    trace w' = trace w ++ [EvOpen path h] ++ evs ++
               (if is_ok r then [EvClose h] else []).
Proof.
  intros (_ & _ & Ho & evs & Ht & Hevs) h w'. subst h w'.
  cbn [opened open_world] in Ho. cbn [trace open_world] in Ht.
  destruct (is_ok r); cbn [opened close_world trace hid]; rewrite Ho;
    (split; [|split]).
  - rewrite elem_of_difference, elem_of_singleton. split; [tauto|done].
  - intros h' Hne.
    rewrite elem_of_difference, elem_of_union, !elem_of_singleton. tauto.
  - exists evs. split; [done|]. rewrite Ht. by rewrite <- !app_assoc.
  - rewrite elem_of_union, elem_of_singleton. tauto.
  - intros h' Hne. rewrite elem_of_union, elem_of_singleton. tauto.
  - exists evs. split; [done|]. rewrite Ht.
    by rewrite <- !app_assoc, app_nil_r.
Qed.

(** X10. [AudioObject(role, path)] and [FIR(path)] do not look at the
    path they are given beyond its being a non-empty string: the result
    and the world afterwards are the same for every such path.  They open
    the file named [dtf_nh2.sofa]: when there is none, they raise
    [IOError] for that name and leave the world as it was; when there
    is one, the result is that of the same class on an open handle on
    that file, the handle they opened is closed exactly when an object is
    returned (it stays open when the construction raises), every other
    handle is as before, and the trace has grown by the [open], reads, and
    the [close] on the returning path. *)
Theorem entity_from_path role p w :
  p ≠ "" ->
  let h := next_handle w in
  let a := AudioObject role (AStr p) w in
  let d := FIR (AStr p) w in
  (forall q, q ≠ "" ->
     AudioObject role (AStr q) w = a /\ FIR (AStr q) w = d) /\
  (files w !! "dtf_nh2.sofa" = None ->
     a = (Raise (IOError "dtf_nh2.sofa"), w) /\
     d = (Raise (IOError "dtf_nh2.sofa"), w)) /\
  (forall c, files w !! "dtf_nh2.sofa" = Some c ->
     (forall f0 w0, content f0 = c -> hid f0 ∈ opened w0 ->
        a.1 = (AudioObject role (AFile f0) w0).1 /\
        d.1 = (FIR (AFile f0) w0).1) /\
     (h ∈ opened a.2 <-> is_ok a.1 = false) /\
     (h ∈ opened d.2 <-> is_ok d.1 = false) /\
     (forall h', h' ≠ h ->
        (h' ∈ opened a.2 <-> h' ∈ opened w) /\
        (h' ∈ opened d.2 <-> h' ∈ opened w)) /\
     (exists evs, Forall is_read evs /\
        trace a.2 = trace w ++ [EvOpen "dtf_nh2.sofa" h] ++ evs ++
                    (if is_ok a.1 then [EvClose h] else [])) /\
     (exists evs, Forall is_read evs /\
        trace d.2 = trace w ++ [EvOpen "dtf_nh2.sofa" h] ++ evs ++
                    (if is_ok d.1 then [EvClose h] else []))).
Proof.
  intros Hp h a d. subst h a d. split; [|split].
  - intros q Hq. apply String.eqb_neq in Hp, Hq.
    unfold AudioObject, FIR, construct, AudioObject_init, FIR_init.
    cbn [truthy]. rewrite Hp, Hq. cbn [negb]. done.
  - intros Hnone.
    unfold AudioObject, FIR, construct, AudioObject_init, FIR_init.
    cbn [truthy]. apply String.eqb_neq in Hp. rewrite Hp. cbn [negb].
    unfold bind at 1. cbn [do_setattr].
    by rewrite AudioObject_from_file_no_file, FIR_from_file_no_file.
  - intros c Hc.
    destruct (AudioObject_path role p c w Hp Hc) as (wa & Hwa & ->).
    destruct (FIR_path p c w Hp Hc) as (wd & Hwd & ->).
    cbn [fst snd].
    pose proof (own_handle_world "dtf_nh2.sofa" c w wa
                  (AudioObject_model (field_of c) role) Hwa)
      as (Ha1 & Ha2 & Ha3).
    pose proof (own_handle_world "dtf_nh2.sofa" c w wd
                  (FIR_model (field_of c)) Hwd) as (Hd1 & Hd2 & Hd3).
    split; [|split; [done|split; [done|split; [|split; done]]]].
    + intros f0 w0 <- Hopen.
      rewrite AudioObject_outcome, FIR_outcome.
      split.
      * apply AudioObject_model_ext. intros d0. symmetry.
        by apply read_field_open.
      * apply FIR_model_ext. intros d0. symmetry. by apply read_field_open.
    + intros h' Hne. split; [by apply Ha2 | by apply Hd2].
Qed.

Lemma entity_from_path_witness :
  (0%nat ∈ opened (AudioObject "Listener" (AStr "measured.sofa") two_files).2) /\
  (0%nat ∉ opened (FIR (AStr "measured.sofa") reference_file).2) /\
  FIR (AStr "measured.sofa") plain_fixture =
    (Raise (IOError "dtf_nh2.sofa"), plain_fixture).
Proof.
  assert (Hp : "measured.sofa" ≠ "") by discriminate.
  split; [|split].
  - destruct (entity_from_path "Listener" "measured.sofa" two_files Hp)
      as (_ & _ & Hfile).
    destruct (Hfile (container_of [] [])) as (_ & Hopen & _);
      [vm_compute; reflexivity|].
    apply Hopen. vm_compute. reflexivity.
  - destruct (entity_from_path "Listener" "measured.sofa" reference_file Hp)
      as (_ & _ & Hfile).
    destruct (Hfile (fixture "FIR" "")) as (_ & _ & Hopen & _);
      [vm_compute; reflexivity|].
    intros Hin. apply Hopen in Hin. revert Hin. vm_compute. discriminate.
  - destruct (entity_from_path "Listener" "measured.sofa" plain_fixture Hp)
      as (_ & Hnone & _).
    apply Hnone. vm_compute. reflexivity.
Defined.

(** ** [from_file] on an object that already has attributes *)

Lemma SOFA_fields_other rd o k :
  k ∉ req_attributes ++ other_attributes ++
      ["listener"; "source"; "receiver"; "emitter"; "data"] ->
  SOFA_fields rd o !! k = o !! k.
Proof.
  intros Hk. rewrite !elem_of_app, !elem_of_cons, elem_of_nil in Hk.
  unfold SOFA_fields, with_geometry.
  rewrite !lookup_insert_ne by (intros <-; tauto).
  unfold root_fields.
  rewrite !hydrate_lookup_other; [done| |].
  - intros d v Hd _ <-. unfold root_required in Hd.
    apply list_elem_of_fmap in Hd as (a & -> & Ha).
    rewrite root_destination in Hk. tauto.
  - intros d v Hd _ <-. unfold root_optional in Hd.
    apply list_elem_of_fmap in Hd as (a & -> & Ha).
    rewrite root_destination in Hk. tauto.
Qed.

(** X11. [SOFA.from_file], called on an object that already holds
    attributes (of an earlier [from_file], say) with a file that can be
    read in full, returns; afterwards every required root attribute holds
    the value of the new file, but an optional root attribute that the new
    file lacks keeps the value the object had before: it is not reset.
    Attributes under other names are kept as well.  The five sub-objects
    are made anew: an optional field of an audio object that the new file
    lacks is unset, whatever the sub-object held before. *)
Theorem from_file_keeps_stale_attributes sofa_file w c o :
  source_of sofa_file w = Some c ->
  complete c ->
  let r := SOFA_from_file sofa_file (o, w) in
  r.1 = Ok tt /\
  (forall a, a ∈ req_attributes ->
     exists v, c_attr c "/" a = Ok v /\ r.2.1 !! a = Some (PVal v)) /\
  (forall a, a ∈ other_attributes ->
     r.2.1 !! a = match c_attr c "/" a with
                  | Ok v => Some (PVal v)
                  | Raise _ => o !! a
                  end) /\
  (forall k, k ∉ req_attributes ++ other_attributes ++
                 ["listener"; "source"; "receiver"; "emitter"; "data"] ->
     r.2.1 !! k = o !! k) /\
  (forall role key, (role, key) ∈ role_attributes ->
     exists entity, r.2.1 !! key = Some (PObj entity) /\
       forall p, p ∈ ["Description"; "View"; "Up"] ->
         entity !! p = match c_node c ("/" +:+ role +:+ p) with
                       | Ok v => Some v
                       | Raise _ => None
                       end).
Proof.
  intros Hc Hcomplete r. subst r.
  apply wellformed_complete in Hcomplete as Hwf.
  destruct (SOFA_from_file_run sofa_file w c o Hc) as (w' & ->).
  rewrite (SOFA_model_wellformed _ _ Hwf). cbn [fst snd].
  destruct (wellformed_inv _ Hwf) as (Hroot & Hgeometry & _ & _).
  split; [done|]. split; [|split; [|split]].
  - intros a Ha. rewrite SOFA_fields_root by (apply elem_of_app; by left).
    apply (root_fields_required (field_of c) o a Hroot Ha).
  - intros a Ha. rewrite SOFA_fields_root by (apply elem_of_app; by right).
    by rewrite (root_fields_lookup _ _ false) by
      (done || by apply elem_of_root_optional).
  - intros k Hk. by apply SOFA_fields_other.
  - intros role key Hin. exists (geometry_fields (field_of c) role).
    split; [by apply SOFA_fields_geometry|].
    assert (Hacc : all_accepted (field_of c) (geometry_descriptors role) = true).
    { apply Hgeometry. unfold role_attributes in Hin.
      repeat (apply elem_of_cons in Hin as [[= -> ->]|Hin];
              [apply (bool_decide_unpack _); vm_compute; reflexivity|]).
      by apply elem_of_nil in Hin. }
    intros p Hp. rewrite !elem_of_cons, elem_of_nil in Hp.
    destruct Hp as [->|[->|[->|[]]]].
    + apply (geometry_fields_lookup (field_of c) role
               (mkDescriptor ("/" +:+ role +:+ "Description") Dataset
                  (Some "Description") false) Hacc).
      unfold geometry_descriptors. rewrite !elem_of_cons. tauto.
    + apply (geometry_fields_lookup (field_of c) role
               (mkDescriptor ("/" +:+ role +:+ "View") Dataset
                  (Some "View") false) Hacc).
      unfold geometry_descriptors. rewrite !elem_of_cons. tauto.
    + apply (geometry_fields_lookup (field_of c) role
               (mkDescriptor ("/" +:+ role +:+ "Up") Dataset
                  (Some "Up") false) Hacc).
      unfold geometry_descriptors. rewrite !elem_of_cons. tauto.
Qed.

Lemma from_file_keeps_stale_attributes_witness :
  (SOFA_from_file (AStr "measured.sofa") (annotated, plain_fixture)).1
    = Ok tt /\
  (SOFA_from_file (AStr "measured.sofa") (annotated, plain_fixture)).2.1
    !! "Comment" = Some (PVal (VStr "of an earlier file")) /\
  (SOFA_from_file (AStr "measured.sofa") (annotated, plain_fixture)).2.1
    !! "Title" = Some (PVal (VStr "x")).
Proof.
  destruct (from_file_keeps_stale_attributes (AStr "measured.sofa")
              plain_fixture (fixture "FIR" "") annotated eq_refl
              complete_fixture) as (Hok & Hreq & Hopt & _).
  split; [exact Hok|]. split.
  - rewrite (Hopt "Comment")
      by (apply (bool_decide_unpack _); vm_compute; reflexivity).
    vm_compute. reflexivity.
  - destruct (Hreq "Title") as (v & Hv & ->).
    { apply (bool_decide_unpack _). vm_compute. reflexivity. }
    assert (Ht : c_attr (fixture "FIR" "") "/" "Title" = Ok (VStr "x"))
      by (vm_compute; reflexivity).
    rewrite Ht in Hv. by injection Hv as <-.
Defined.

(** ** The reads of a construction, in order *)

Lemma logged_nil w : logged [] w = w.
Proof. destruct w. unfold logged. cbn. by rewrite app_nil_r. Qed.

Lemma logged_logged evs1 evs2 w :
  logged evs2 (logged evs1 w) = logged (evs1 ++ evs2) w.
Proof. unfold logged. cbn. by rewrite app_assoc. Qed.

Lemma same_handles_logged w0 f ds w :
  same_handles w0 w -> same_handles w0 (logged (map (field_event f) ds) w).
Proof.
  intros Hw. eapply same_handles_trans; [exact Hw|].
  repeat split. exists (map (field_event f) ds). split; [done|].
  apply Forall_forall. intros ev Hev.
  apply list_elem_of_fmap in Hev as (d & -> & _). apply is_read_field_event.
Qed.

Lemma attempted_app rd l1 l2 :
  attempted rd (l1 ++ l2) =
  attempted rd l1 ++ (if all_accepted rd l1 then attempted rd l2 else []).
Proof.
  induction l1 as [|d l1 IH]; [done|].
  cbn [app attempted all_accepted forallb].
  destruct (accepted d (rd d)); [|done]. cbn [andb]. by rewrite IH.
Qed.

Lemma attempted_accepted rd ds :
  all_accepted rd ds = true -> attempted rd ds = ds.
Proof.
  induction ds as [|d ds IH]; [done|]. cbn [attempted all_accepted forallb].
  intros [Hd Hds]%andb_true_iff. rewrite Hd. f_equal. by apply IH.
Qed.

Lemma attempted_first_failure rd l1 d l2 :
  all_accepted rd l1 = true -> accepted d (rd d) = false ->
  attempted rd (l1 ++ d :: l2) = l1 ++ [d].
Proof.
  intros Hl1 Hd. rewrite attempted_app, Hl1, (attempted_accepted _ _ Hl1).
  cbn [attempted]. by rewrite Hd.
Qed.

Lemma attempted_ext rd rd' ds :
  (forall d, rd d = rd' d) -> attempted rd ds = attempted rd' ds.
Proof.
  intros Hrd. induction ds as [|d ds IH]; [done|]. cbn [attempted].
  by rewrite Hrd, IH.
Qed.

Lemma for_bindField_reads {V} `{Slot V} f ds : forall (o : gmap string V) w,
  for_ ds (bindField f) (o, w) =
    ((hydrate (read_field w f) ds o).1,
     ((hydrate (read_field w f) ds o).2,
      logged (map (field_event f) (attempted (read_field w f) ds)) w)).
Proof.
  induction ds as [|d ds IH]; intros o w; cbn [for_ hydrate attempted map].
  - by rewrite logged_nil.
  - unfold bind. rewrite bindField_unfold.
    change (log (field_event f d) w) with (logged [field_event f d] w).
    destruct (read_field w f d) as [v|e] eqn:Hread.
    + rewrite IH, logged_logged. cbn [accepted]. done.
    + destruct (accepted d (Raise e)).
      * rewrite IH, logged_logged. done.
      * done.
Qed.

Section reads_as.
Context {O : Type} (w0 : world) (f : File).

Lemma reads_as_ret {A} (a : A) :
  reads_as (O:=O) w0 f (ret a) (ret a) (fun _ => []).
Proof. intros o w Hw. cbn. by rewrite logged_nil. Qed.

Lemma reads_as_raise {A} e :
  reads_as (O:=O) (A:=A) w0 f (raise e) (raise e) (fun _ => []).
Proof. intros o w Hw. cbn. by rewrite logged_nil. Qed.

Lemma reads_as_bind {A B} (m : M O A) p t1 (k : A -> M O B) q t2 :
  reads_as w0 f m p t1 -> (forall a, reads_as w0 f (k a) (q a) (t2 a)) ->
  reads_as w0 f (bind m k) (bind p q) (then_reads p t1 t2).
Proof.
  intros Hm Hk o w Hw. unfold bind, then_reads. rewrite (Hm o w Hw).
  destruct (p o) as [[a|e] o1]; cbn [fst snd].
  - rewrite (Hk a o1) by by apply same_handles_logged.
    by rewrite logged_logged, map_app.
  - by rewrite app_nil_r.
Qed.

Lemma reads_as_if {A} (b : bool) (m1 m2 : M O A) p1 p2 t1 t2 :
  reads_as w0 f m1 p1 t1 -> reads_as w0 f m2 p2 t2 ->
  reads_as w0 f (if b then m1 else m2) (if b then p1 else p2)
    (if b then t1 else t2).
Proof. by destruct b. Qed.

Lemma reads_as_call {A} (c : world -> outcome A * world) (r : outcome A) l :
  (forall w, same_handles w0 w ->
     c w = (r, logged (map (field_event f) l) w)) ->
  reads_as (O:=O) w0 f (call c) (pure r) (fun _ => l).
Proof. intros Hc o w Hw. unfold call. by rewrite (Hc w Hw). Qed.

Lemma reads_as_ext {A} (m m' : M O A) p t :
  (forall s, m s = m' s) -> reads_as w0 f m' p t -> reads_as w0 f m p t.
Proof. intros Hext Hm o w Hw. rewrite Hext. by apply Hm. Qed.
End reads_as.

Lemma reads_as_bindAll {V} `{Slot V} w0 f ds :
  reads_as w0 f (for_ ds (bindField (V:=V) f)) (hydrate (read_field w0 f) ds)
    (fun _ => attempted (read_field w0 f) ds).
Proof.
  intros o w Hw. rewrite for_bindField_reads.
  rewrite (hydrate_ext (read_field w f) (read_field w0 f))
    by (intros d; by apply read_field_same_handles).
  by rewrite (attempted_ext (read_field w f) (read_field w0 f))
    by (intros d; by apply read_field_same_handles).
Qed.

Lemma reads_as_store w0 f name obj :
  reads_as w0 f (set_object name obj) (store name obj) (fun _ => []).
Proof. intros o w Hw. cbn. by rewrite logged_nil. Qed.

Lemma reads_as_fetch w0 f name :
  reads_as w0 f (getattr name) (fetch name) (fun _ => []).
Proof.
  intros o w Hw. unfold getattr, fetch.
  destruct (o !! name); cbn; by rewrite logged_nil.
Qed.

Lemma FIR_reads w0 f w :
  same_handles w0 w ->
  FIR (AFile f) w =
    (FIR_model (read_field w0 f),
     logged (map (field_event f) (attempted (read_field w0 f) fir_descriptors))
       w).
Proof.
  intros Hw. unfold FIR, construct, FIR_init. cbn [truthy].
  rewrite FIR_from_file_handle.
  rewrite (reads_as_bindAll (V:=value) w0 f fir_descriptors ∅ w Hw).
  unfold FIR_model, built.
  by destruct (hydrate _ _ _) as [[[]|e] o].
Qed.

Lemma AudioObject_reads w0 role f w :
  same_handles w0 w ->
  AudioObject role (AFile f) w =
    (AudioObject_model (read_field w0 f) role,
     logged (map (field_event f)
               (attempted (read_field w0 f) (geometry_descriptors role))) w).
Proof.
  intros Hw. unfold AudioObject, construct, AudioObject_init. cbn [truthy].
  unfold bind at 1. cbn [do_setattr].
  rewrite (AudioObject_from_file_handle f role)
    by (unfold has_role, setattr; cbn [fst]; apply lookup_insert_eq).
  rewrite (reads_as_bindAll (V:=value) w0 f (geometry_descriptors role)
             (setattr "object_string" (VStr role) ∅) w Hw).
  unfold AudioObject_model, built.
  by destruct (hydrate _ _ _) as [[[]|e] o].
Qed.

Lemma then_reads_hydrate {V} `{Slot V} rd ds t1
    (t2 : unit -> gmap string V -> list descriptor) (o : gmap string V) :
  then_reads (A:=unit) (hydrate rd ds) t1 t2 o =
  t1 o ++ (if all_accepted rd ds then t2 tt (hydrate rd ds o).2 else []).
Proof.
  unfold then_reads. rewrite <- (hydrate_is_ok rd ds o).
  by destruct (hydrate rd ds o) as [[[]|e] o1].
Qed.

Lemma then_reads_AudioObject {O} rd role t1
    (t2 : gmap string value -> O -> list descriptor) (o : O) :
  then_reads (pure (AudioObject_model rd role)) t1 t2 o =
  t1 o ++ (if all_accepted rd (geometry_descriptors role)
           then t2 (geometry_fields rd role) o else []).
Proof.
  unfold then_reads, pure.
  destruct (all_accepted rd (geometry_descriptors role)) eqn:Hacc.
  - by rewrite AudioObject_model_accepted.
  - rewrite <- AudioObject_model_is_ok in Hacc.
    by destruct (AudioObject_model rd role).
Qed.

Lemma then_reads_FIR {O} rd t1
    (t2 : gmap string value -> O -> list descriptor) (o : O) :
  then_reads (pure (FIR_model rd)) t1 t2 o =
  t1 o ++ (if all_accepted rd fir_descriptors
           then t2 (fir_fields rd) o else []).
Proof.
  unfold then_reads, pure.
  destruct (all_accepted rd fir_descriptors) eqn:Hacc.
  - by rewrite FIR_model_accepted.
  - rewrite <- FIR_model_is_ok in Hacc. by destruct (FIR_model rd).
Qed.

Lemma then_reads_store name obj t1
    (t2 : unit -> gmap string pyval -> list descriptor) o :
  then_reads (store name obj) t1 t2 o = t1 o ++ t2 tt (<[name := PObj obj]> o).
Proof. done. Qed.

Lemma then_reads_fetch name t1
    (t2 : pyval -> gmap string pyval -> list descriptor) o :
  then_reads (fetch name) t1 t2 o =
  t1 o ++ match o !! name with Some v => t2 v o | None => [] end.
Proof. unfold then_reads, fetch. by destruct (o !! name). Qed.

Lemma then_reads_nil {O A} (p : St O A) t1 o :
  then_reads p t1 (fun _ _ => []) o = t1 o.
Proof.
  unfold then_reads. destruct (p o) as [[a|e] o1]; by rewrite app_nil_r.
Qed.

Lemma SOFA_from_file_reads w0 f :
  exists t,
    reads_as w0 f (SOFA_from_file (AFile f)) (SOFA_model (read_field w0 f)) t /\
    forall o, t o = SOFA_attempted (read_field w0 f).
Proof.
  eexists. split.
  { unfold SOFA_from_file, SOFA_model. cbn [isinstance_File negb].
    change (bind (ret f) ?k) with (k f). cbv beta.
    eapply reads_as_bind; [|intros ?].
    { eapply reads_as_ext; [|apply reads_as_bindAll].
      intros s. symmetry. apply for_map. }
    eapply reads_as_bind; [|intros ?].
    { eapply reads_as_ext; [|apply reads_as_bindAll].
      intros s. symmetry. apply for_map. }
    do 4 (eapply reads_as_bind;
          [apply reads_as_call; intros w Hw; by apply AudioObject_reads
          |intros ?];
          eapply reads_as_bind; [apply reads_as_store | intros ?]).
    eapply reads_as_bind; [apply reads_as_fetch | intros dt].
    eapply reads_as_bind; [|intros ?; apply reads_as_ret].
    apply reads_as_if; [|apply reads_as_raise].
    eapply reads_as_bind; [|intros d; apply reads_as_store].
    apply reads_as_call. intros w Hw. by apply FIR_reads. }
  intros o. cbv beta.
  set (rd := read_field w0 f).
  rewrite !then_reads_hydrate. cbv beta.
  do 4 (rewrite then_reads_AudioObject; cbv beta;
        rewrite then_reads_store; cbv beta).
  rewrite then_reads_fetch. cbv beta.
  unfold SOFA_attempted, before_data, root_descriptors.
  rewrite !attempted_app, !all_accepted_app.
  destruct (all_accepted rd root_required) eqn:H1; cbn [andb];
    [|by rewrite !app_nil_r].
  destruct (all_accepted rd root_optional) eqn:H2; cbn [andb];
    [|by rewrite !app_nil_r].
  destruct (all_accepted rd (geometry_descriptors "Listener")) eqn:HL;
    cbn [andb app]; [|by rewrite <- !app_assoc, !app_nil_r].
  destruct (all_accepted rd (geometry_descriptors "Source")) eqn:HS;
    cbn [andb app]; [|by rewrite <- !app_assoc, !app_nil_r].
  destruct (all_accepted rd (geometry_descriptors "Receiver")) eqn:HR;
    cbn [andb app]; [|by rewrite <- !app_assoc, !app_nil_r].
  destruct (all_accepted rd (geometry_descriptors "Emitter")) eqn:HE;
    cbn [andb app]; [|by rewrite <- !app_assoc, !app_nil_r].
  assert (Hroot : all_accepted rd root_descriptors = true).
  { unfold root_descriptors. by rewrite all_accepted_app, H1, H2. }
  destruct (accepted_required datatype_descriptor (rd datatype_descriptor))
    as [v Hv]; [done| |].
  { apply (all_accepted_elem rd root_descriptors); [done|].
    apply elem_of_root_required. apply (bool_decide_unpack _). by vm_compute. }
  pose proof (with_geometry_DataType rd o Hroot) as Hdt.
  unfold with_geometry, root_fields in Hdt. rewrite Hdt, Hv.
  rewrite then_reads_nil. rewrite <- !app_assoc. do 6 f_equal.
  destruct v as [t|z|shape bits]; cbn [eq_str is_FIR]; [|done|done].
  destruct (String.eqb t "FIR"); [|done]. by rewrite then_reads_nil.
Qed.

Lemma all_accepted_ext rd rd' ds :
  (forall d, rd d = rd' d) -> all_accepted rd ds = all_accepted rd' ds.
Proof.
  intros Hrd. induction ds as [|d ds IH]; [done|].
  cbn [all_accepted forallb]. rewrite Hrd. f_equal. apply IH.
Qed.

Lemma SOFA_attempted_ext rd rd' :
  (forall d, rd d = rd' d) -> SOFA_attempted rd = SOFA_attempted rd'.
Proof.
  intros Hrd. unfold SOFA_attempted.
  by rewrite !(attempted_ext rd rd'), (all_accepted_ext rd rd'), Hrd by done.
Qed.

Lemma SOFA_attempted_wellformed rd :
  wellformed rd = true -> SOFA_attempted rd = SOFA_descriptors.
Proof.
  intros Hwf. pose proof Hwf as Hall.
  rewrite wellformed_descriptors in Hall.
  apply andb_true_iff in Hall as [Hall Hfir].
  change SOFA_descriptors with (before_data ++ fir_descriptors) in *.
  rewrite all_accepted_app in Hall. apply andb_true_iff in Hall as [Hb Hf].
  unfold SOFA_attempted. rewrite Hb, Hfir. cbn [andb].
  by rewrite !attempted_accepted.
Qed.

Lemma SOFA_handle_reads f w :
  SOFA (AFile f) w =
    (built (SOFA_model (read_field w f) ∅),
     logged (map (field_event f) (SOFA_attempted (read_field w f))) w).
Proof.
  destruct (SOFA_from_file_reads w f) as (t & Hrun & Ht).
  unfold SOFA, construct, SOFA_init. cbn [truthy].
  rewrite (Hrun ∅ w (same_handles_refl w)), Ht. unfold built.
  by destruct (SOFA_model (read_field w f) ∅) as [[[]|e] o].
Qed.

Lemma SOFA_path_reads p c w :
  p ≠ "" ->
  files w !! p = Some c ->
  SOFA (AStr p) w =
    (built (SOFA_model (field_of c) ∅),
     let w1 := logged (map (field_event (mkFile (next_handle w) p c))
                         (SOFA_attempted (field_of c))) (open_world p w) in
     if is_ok (SOFA_model (field_of c) ∅).1
     then close_world (mkFile (next_handle w) p c) w1 else w1).
Proof.
  intros Hp Hc. unfold SOFA, construct, SOFA_init. cbn [truthy].
  apply String.eqb_neq in Hp. rewrite Hp. cbn [negb].
  rewrite (SOFA_from_file_path p c) by done.
  destruct (SOFA_from_file_reads (open_world p w) (mkFile (next_handle w) p c))
    as (t & Hrun & Ht).
  rewrite (Hrun ∅ _ (same_handles_refl _)), Ht.
  rewrite (SOFA_model_ext _ (field_of c))
    by (intros d; apply read_field_fresh).
  rewrite (SOFA_attempted_ext _ (field_of c))
    by (intros d; apply read_field_fresh).
  unfold built, finish. cbv zeta.
  by destruct (SOFA_model (field_of c) ∅) as [[[]|e] o].
Qed.

(** X12. The reads of a construction, exactly.  A loop over a list of
    fields reads them in the order of the list, each once, and stops with
    the first read that is not accepted ([attempted]: it is the whole list
    when every read is accepted, and ends with the rejected field
    otherwise).  [AudioObject(role, handle)] and [FIR(handle)] add to the
    trace the reads of their fields, in that way, and nothing
    else.  [SOFA(handle)] adds the reads of the root attributes, then those
    of [Listener], [Source], [Receiver], [Emitter], stopping with the
    first that is not accepted, and then, only when all were accepted and
    [DataType] is ['FIR'], those of the [FIR] data; on a container that
    can be read in full these are all the fields of [SOFA_descriptors], no
    field twice.  [SOFA(path)] logs the [open], the same reads on the
    handle it opened, and the [close] when it returns an object. *)
Theorem reads_stop_at_first_failure :
  (forall rd ds, all_accepted rd ds = true -> attempted rd ds = ds) /\
  (forall rd l1 d l2,
     all_accepted rd l1 = true -> accepted d (rd d) = false ->
     attempted rd (l1 ++ d :: l2) = l1 ++ [d]) /\
  (forall role f w,
     trace (AudioObject role (AFile f) w).2 =
       trace w ++ map (field_event f)
                    (attempted (read_field w f) (geometry_descriptors role))) /\
  (forall f w,
     trace (FIR (AFile f) w).2 =
       trace w ++ map (field_event f)
                    (attempted (read_field w f) fir_descriptors)) /\
  (forall f w,
     trace (SOFA (AFile f) w).2 =
       trace w ++ map (field_event f) (SOFA_attempted (read_field w f))) /\
  (forall c, complete c ->
     SOFA_attempted (field_of c) = SOFA_descriptors) /\
  NoDup SOFA_descriptors /\
  (forall p c w,
     p ≠ "" -> files w !! p = Some c ->
     trace (SOFA (AStr p) w).2 =
       trace w ++ [EvOpen p (next_handle w)] ++
       map (field_event (mkFile (next_handle w) p c))
         (SOFA_attempted (field_of c)) ++
       (if is_ok (SOFA (AStr p) w).1 then [EvClose (next_handle w)] else [])).
Proof.
  split; [apply attempted_accepted|].
  split; [apply attempted_first_failure|].
  split; [intros role f w;
          by rewrite (AudioObject_reads w role f w (same_handles_refl w))|].
  split; [intros f w; by rewrite (FIR_reads w f w (same_handles_refl w))|].
  split; [intros f w; by rewrite SOFA_handle_reads|].
  split; [intros c Hc; by apply SOFA_attempted_wellformed, wellformed_complete|].
  split; [apply (bool_decide_unpack _); vm_compute; reflexivity|].
  intros p c w Hp Hc. rewrite (SOFA_path_reads p c w Hp Hc). cbn [fst snd].
  rewrite built_is_ok. cbv zeta.
  destruct (is_ok (SOFA_model (field_of c) ∅).1);
    cbn [trace close_world logged open_world hid].
  - by rewrite <- !app_assoc.
  - by rewrite <- !app_assoc, app_nil_r.
Qed.

Lemma reads_stop_at_first_failure_witness :
  trace (SOFA (AStr "measured.sofa") license_missing).2 =
    EvOpen "measured.sofa" 0 :: map (EvReadAttr 0 "/") req_attributes.
Proof.
  destruct reads_stop_at_first_failure as (_ & _ & _ & _ & _ & _ & _ & Hpath).
  rewrite (Hpath "measured.sofa" (fixture "FIR" "License") license_missing);
    [|discriminate|vm_compute; reflexivity].
  vm_compute. reflexivity.
Defined.

(** ** Reading the same file again *)

Lemma SOFA_fields_again rd o :
  all_accepted rd root_descriptors = true ->
  SOFA_fields rd (SOFA_fields rd o) = SOFA_fields rd o.
Proof.
  intros Hroot. apply map_eq. intros k.
  destruct (decide (k ∈ ["listener"; "source"; "receiver"; "emitter"; "data"]))
    as [Hsub|Hsub].
  { rewrite !elem_of_cons, elem_of_nil in Hsub.
    destruct Hsub as [->|[->|[->|[->|[->|[]]]]]];
      rewrite ?SOFA_fields_data; try done.
    - rewrite !(SOFA_fields_geometry _ _ "Listener"); [done| |];
        apply (bool_decide_unpack _); vm_compute; reflexivity.
    - rewrite !(SOFA_fields_geometry _ _ "Source"); [done| |];
        apply (bool_decide_unpack _); vm_compute; reflexivity.
    - rewrite !(SOFA_fields_geometry _ _ "Receiver"); [done| |];
        apply (bool_decide_unpack _); vm_compute; reflexivity.
    - rewrite !(SOFA_fields_geometry _ _ "Emitter"); [done| |];
        apply (bool_decide_unpack _); vm_compute; reflexivity. }
  destruct (decide (k ∈ req_attributes)) as [Hreq|Hreq].
  { assert (Hin : k ∈ req_attributes ++ other_attributes)
      by (apply elem_of_app; by left).
    rewrite (SOFA_fields_root _ (SOFA_fields rd o)) by done.
    rewrite (root_fields_lookup _ _ true) by
      (done || by apply elem_of_root_required).
    rewrite (SOFA_fields_root _ o) by done.
    rewrite (root_fields_lookup _ o true) by
      (done || by apply elem_of_root_required).
    by destruct (rd (root_attribute true k)). }
  destruct (decide (k ∈ other_attributes)) as [Hopt|Hopt].
  { assert (Hin : k ∈ req_attributes ++ other_attributes)
      by (apply elem_of_app; by right).
    rewrite (SOFA_fields_root _ (SOFA_fields rd o)) by done.
    rewrite (root_fields_lookup _ _ false) by
      (done || by apply elem_of_root_optional).
    destruct (rd (root_attribute false k)) eqn:Hrd; [|done].
    rewrite (SOFA_fields_root _ o) by done.
    rewrite (root_fields_lookup _ o false) by
      (done || by apply elem_of_root_optional).
    by rewrite Hrd. }
  apply SOFA_fields_other. rewrite !elem_of_app. tauto.
Qed.

(** X13. Reading the same content again changes nothing: after a
    [from_file] that returned, a second [from_file] of the same object on
    a file, or handle, with the same content returns as well and leaves
    every attribute of the object as the first left it. *)
Theorem from_file_again_changes_nothing sofa_file w c o sofa_file' w' :
  source_of sofa_file w = Some c ->
  source_of sofa_file' w' = Some c ->
  complete c ->
  let first := SOFA_from_file sofa_file (o, w) in
  let again := SOFA_from_file sofa_file' (first.2.1, w') in
  first.1 = Ok tt /\ again.1 = Ok tt /\ again.2.1 = first.2.1.
Proof.
  intros Hc Hc' Hcomplete first again. subst first again.
  apply wellformed_complete in Hcomplete as Hwf.
  destruct (SOFA_from_file_run sofa_file w c o Hc) as (w1 & ->).
  rewrite (SOFA_model_wellformed _ _ Hwf). cbn [fst snd].
  destruct (SOFA_from_file_run sofa_file' w' c (SOFA_fields (field_of c) o) Hc')
    as (w2 & ->).
  rewrite (SOFA_model_wellformed _ _ Hwf). cbn [fst snd].
  destruct (wellformed_inv _ Hwf) as (Hroot & _).
  by rewrite SOFA_fields_again.
Qed.

Lemma from_file_again_changes_nothing_witness :
  (SOFA_from_file (AStr "measured.sofa")
     ((SOFA_from_file (AStr "measured.sofa") (annotated, plain_fixture)).2.1,
      plain_fixture)).2.1 =
  (SOFA_from_file (AStr "measured.sofa") (annotated, plain_fixture)).2.1.
Proof.
  apply (from_file_again_changes_nothing (AStr "measured.sofa") plain_fixture
           (fixture "FIR" "") annotated (AStr "measured.sofa") plain_fixture
           eq_refl eq_refl complete_fixture).
Defined.
